(** * Warship SVG Generator: the orchestration core, embedded and verified

    A shallow embedding of [services/geminiService.ts] (view detection,
    cropping, the draft / audit / heal pipeline, [extractSvg]) and of the two
    handlers of [App.tsx] ([handleGenerate], [handleRefine]), with the
    properties the specification states about them.

    Conventions.
    - A JavaScript string is the list of its UTF-16 code units ([jsstring]).
    - A JavaScript number is an IEEE 754 binary64 value (Rocq's primitive
      [float]); arithmetic is the kernel's, rounding included.
    - [undefined] and absent optional fields are [None].
    - Everything the program asks of its surroundings (the hosted model, the
      image decoder, the canvas, the clock, the UUID source, the order in
      which concurrent requests complete) is answered by a [Host]. *)

From Stdlib Require Import List NArith ZArith Bool Lia Floats.
From Stdlib Require String Ascii DecimalString.
Import String.StringSyntax.
Import ListNotations.

Set Implicit Arguments.
(* A decimal literal is read as the nearest binary64 value, as in JavaScript. *)
#[local] Set Warnings "-register-all,-inexact-float".
Local Open Scope list_scope.

(* ================================================================== *)
(** * Strings *)

Module Js.

Definition jschar := N.
Definition jsstring := list jschar.

(** A literal of the source, as code units. *)
Definition js (s : String.string) : jsstring :=
  map Ascii.N_of_ascii (String.list_ascii_of_string s).
Arguments js s%_string_scope.

Definition jschar_eqb (a b : jschar) : bool := N.eqb a b.

Fixpoint jsstring_eqb (a b : jsstring) : bool :=
  match a, b with
  | [], [] => true
  | x :: a', y :: b' => jschar_eqb x y && jsstring_eqb a' b'
  | _, _ => false
  end.

(** ECMAScript [WhiteSpace] and [LineTerminator] code units: what
    [String.prototype.trim] strips and what [\s] matches. *)
Definition is_space (c : jschar) : bool :=
  match c with
  | 9 | 10 | 11 | 12 | 13 | 32 | 160 | 5760 | 8232 | 8233 | 8239 | 8287
  | 12288 | 65279 => true
  | _ => (8192 <=? c) && (c <=? 8202)
  end%N.

Fixpoint trimStart (s : jsstring) : jsstring :=
  match s with
  | c :: s' => if is_space c then trimStart s' else s
  | [] => []
  end.

Definition trimEnd (s : jsstring) : jsstring := rev (trimStart (rev s)).

(** [s.trim()] *)
Definition trim (s : jsstring) : jsstring := trimEnd (trimStart s).

(** [s.toUpperCase()] on the code units a..z; every other unit is kept.
    This is the full operation on ASCII strings, which is all the program
    applies it to (the four [ViewType] names). *)
Definition upper_unit (c : jschar) : jschar :=
  if ((97 <=? c) && (c <=? 122))%N then (c - 32)%N else c.

Definition toUpperCase (s : jsstring) : jsstring := map upper_unit s.

(** [s.slice(0, n)] for a non-negative [n]. *)
Definition slice0 (n : N) (s : jsstring) : jsstring := firstn (N.to_nat n) s.

(** [s.split(',')[1]]: the text between the first and the second comma;
    [undefined] when [s] has no comma. *)
Fixpoint until_comma (s : jsstring) : jsstring :=
  match s with
  | [] => []
  | c :: s' => if (c =? 44)%N then [] else c :: until_comma s'
  end.

Fixpoint split_comma_1 (s : jsstring) : option jsstring :=
  match s with
  | [] => None
  | c :: s' => if (c =? 44)%N then Some (until_comma s') else split_comma_1 s'
  end.

(** Truthiness of a string: non-empty. *)
Definition nonempty (s : jsstring) : bool :=
  match s with [] => false | _ => true end.

End Js.
Import Js.

(* ================================================================== *)
(** * Regular expressions

    The two regular expressions of [extractSvg] use literals, one lazy
    star over a character class, one alternation and one greedy optional
    group.  The matcher below is the backtracking matcher of ECMAScript on
    that fragment, in continuation-passing style: [rmatch r s k] tries the
    ways [r] can match a prefix of [s] in the priority order of the
    standard and hands each remaining suffix to [k] until [k] accepts. *)

Module Regex.

Inductive regex :=
| Empty
| Char (p : jschar -> bool)       (* one code unit satisfying [p] *)
| Seq (a b : regex)
| Alt (a b : regex)               (* a|b *)
| Opt (a : regex)                 (* (a)?  greedy *)
| LazyStar (p : jschar -> bool).  (* [class]*?  *)

Fixpoint rmatch {A} (r : regex) (s : jsstring)
    (k : jsstring -> option A) : option A :=
  match r with
  | Empty => k s
  | Char p =>
      match s with
      | c :: s' => if p c then k s' else None
      | [] => None
      end
  | Seq a b => rmatch a s (fun s' => rmatch b s' k)
  | Alt a b =>
      match rmatch a s k with
      | Some x => Some x
      | None => rmatch b s k
      end
  | Opt a =>
      match rmatch a s k with
      | Some x => Some x
      | None => k s
      end
  | LazyStar p =>
      (fix lazy (s : jsstring) : option A :=
         match k s with
         | Some x => Some x
         | None =>
             match s with
             | c :: s' => if p c then lazy s' else None
             | [] => None
             end
         end) s
  end.

(** The suffix left after the highest-priority match of [r] at the start
    of [s]. *)
Definition match_here (r : regex) (s : jsstring) : option jsstring :=
  rmatch r s (fun rest => Some rest).

(** The text consumed, given the suffix that is left. *)
Definition consumed (s rest : jsstring) : jsstring :=
  firstn (length s - length rest) s.

(** [s.match(r)] for a regex without the [g] flag: the text of the match
    at the leftmost position where [r] matches ([match[0]]), or [None]
    for [null]. *)
Fixpoint search (r : regex) (s : jsstring) : option jsstring :=
  match match_here r s with
  | Some rest => Some (consumed s rest)
  | None =>
      match s with
      | [] => None
      | _ :: s' => search r s'
      end
  end.

(** [s.replace(r, '')] for a regex with the [g] flag: every match, found
    left to right in the text not yet consumed, is deleted.  [skip] counts
    the code units of the current match still to be dropped. *)
Fixpoint delete_from (r : regex) (skip : nat) (s : jsstring) : jsstring :=
  match s with
  | [] => []
  | c :: s' =>
      match skip with
      | S n => delete_from r n s'
      | O =>
          match match_here r s with
          | Some rest =>
              match length s - length rest with
              | S n => delete_from r n s'
              | O => c :: delete_from r 0 s'
              end
          | None => c :: delete_from r 0 s'
          end
      end
  end.

Definition delete_all (r : regex) (s : jsstring) : jsstring :=
  delete_from r 0 s.

(** Canonicalisation of the [i] flag (without [u]) restricted to what can
    equal an ASCII pattern unit: a unit above 127 never canonicalises to
    an ASCII one, so only a..z fold. *)
Definition canonicalize (c : jschar) : jschar := upper_unit c.

Definition unit_is (ignoreCase : bool) (p c : jschar) : bool :=
  if ignoreCase then N.eqb (canonicalize c) (canonicalize p) else N.eqb c p.

(** A literal run of pattern units. *)
Fixpoint lit (ignoreCase : bool) (pat : jsstring) : regex :=
  match pat with
  | [] => Empty
  | p :: pat' => Seq (Char (unit_is ignoreCase p)) (lit ignoreCase pat')
  end.

(** [[\s\S]] *)
Definition space_or_not (c : jschar) : bool := is_space c || negb (is_space c).

End Regex.
Import Regex.

(* ================================================================== *)
(** * [extractSvg] *)

Definition svg_open : jsstring := Eval vm_compute in js "<svg".
Definition svg_close : jsstring := Eval vm_compute in js "</svg>".
Definition fence : jsstring := Eval vm_compute in js "```".

(** [/<svg[\s\S]*?<\/svg>/i] *)
Definition svg_regex : regex :=
  Seq (lit true svg_open) (Seq (LazyStar space_or_not) (lit true svg_close)).

(** [/```(xml|svg)?/g] *)
Definition fence_regex : regex :=
  Seq (lit false fence)
      (Opt (Alt (lit false (js "xml")) (lit false (js "svg")))).

(** [[
const extractSvg = (text: string): string => {
  const match = text.match(/<svg[\s\S]*?<\/svg>/i);
  return match ? match[0] : text.replace(/```(xml|svg)?/g, '').trim();
};
]] *)
Definition extractSvg (text : jsstring) : jsstring :=
  match search svg_regex text with
  | Some m => m
  | None => trim (delete_all fence_regex text)
  end.

(* ------------------------------------------------------------------ *)
(** ** What the two regular expressions compute *)

(** [pat] is matched, unit by unit, by the first units of [s]. *)
Fixpoint starts_with (ignoreCase : bool) (pat s : jsstring) : bool :=
  match pat, s with
  | [], _ => true
  | p :: pat', c :: s' => unit_is ignoreCase p c && starts_with ignoreCase pat' s'
  | _ :: _, [] => false
  end.

(** [s] is, unit by unit, a match of the literal [pat]. *)
Definition matches_lit (ignoreCase : bool) (pat s : jsstring) : bool :=
  starts_with ignoreCase pat s && Nat.eqb (length s) (length pat).

(** [s] opens with [<svg] and closes with [</svg>], in any letter case. *)
Definition svg_delimited (s : jsstring) : bool :=
  starts_with true svg_open s
  && matches_lit true svg_close (skipn (length s - length svg_close) s).

(** The first suffix of [s], going left to right, that [k] accepts. *)
Fixpoint first_accept {A} (k : jsstring -> option A) (s : jsstring) : option A :=
  match k s with
  | Some x => Some x
  | None =>
      match s with
      | [] => None
      | _ :: s' => first_accept k s'
      end
  end.

(** What is left after the first [</svg>] at or after the start of [s]. *)
Definition after_close (s : jsstring) : option jsstring :=
  first_accept
    (fun s' => if starts_with true svg_close s'
               then Some (skipn (length svg_close) s') else None) s.


(** What [fence_regex] leaves of the text that follows three backticks: the
    optional group takes [xml] or [svg] when it is there. *)
Definition after_fence (s : jsstring) : jsstring :=
  if starts_with false (js "xml") s then skipn 3 s
  else if starts_with false (js "svg") s then skipn 3 s
  else s.

(** Three backticks in a row occur somewhere in [s]. *)
Fixpoint has_fence (s : jsstring) : bool :=
  starts_with false fence s ||
  match s with
  | [] => false
  | _ :: s' => has_fence s'
  end.

(** [pat] is matched at one of the first [n] positions of [s]. *)
Fixpoint occurs_before (ignoreCase : bool) (pat : jsstring) (n : nat)
    (s : jsstring) : bool :=
  match n with
  | O => false
  | S n' =>
      starts_with ignoreCase pat s ||
      match s with
      | [] => false
      | _ :: s' => occurs_before ignoreCase pat n' s'
      end
  end.

(** [s] neither starts nor ends with a white space unit. *)
Definition trimmed (s : jsstring) : bool :=
  match s with [] => true | c :: _ => negb (is_space c) end
  && match rev s with [] => true | c :: _ => negb (is_space c) end.

(* ================================================================== *)
(** * JSON

    [JSON.parse] of the host, on code units: the grammar of ECMA-404, the
    values as JavaScript holds them.  A text outside the grammar makes
    [JSON.parse] throw a [SyntaxError]: [parse] returns [None]. *)

Module JSON.

Inductive value :=
| Null
| Bool (b : bool)
| Number (n : float)
| Str (s : jsstring)
| Array (items : list value)
| Object (members : list (jsstring * value)).

(** The binary64 nearest to [m * 10^e] (ties to even), signed by [neg]:
    how a decimal literal is read.  For a negative exponent the quotient
    is cut after more than 64 significant bits and a sticky bit records
    what was cut, so the one rounding of [binary_normalize] is exact. *)
Definition float_of_decimal (neg : bool) (m e : Z) : float :=
  let sign z := if neg then Z.opp z else z in
  if (m =? 0)%Z then (if neg then (-0)%float else 0%float)
  else if (0 <=? e)%Z then
    SF2Prim (SpecFloat.binary_normalize prec emax (sign (m * 10 ^ e)%Z) 0 false)
  else
    let d := (10 ^ (- e))%Z in
    let s := (Z.log2 d + 70)%Z in
    let n := (m * 2 ^ s)%Z in
    let q := (n / d)%Z in
    let sticky := if (n mod d =? 0)%Z then 0%Z else 1%Z in
    SF2Prim (SpecFloat.binary_normalize prec emax
               (sign (2 * q + sticky)%Z) (- (s + 1)) false).

Definition is_ws (c : jschar) : bool :=
  match c with 9 | 10 | 13 | 32 => true | _ => false end%N.

Fixpoint skip_ws (s : jsstring) : jsstring :=
  match s with
  | c :: s' => if is_ws c then skip_ws s' else s
  | [] => []
  end.

Definition digit (c : jschar) : option Z :=
  if ((48 <=? c) && (c <=? 57))%N then Some (Z.of_N c - 48)%Z else None.

Definition hex_digit (c : jschar) : option N :=
  if ((48 <=? c) && (c <=? 57))%N then Some (c - 48)%N
  else if ((65 <=? c) && (c <=? 70))%N then Some (c - 55)%N
  else if ((97 <=? c) && (c <=? 102))%N then Some (c - 87)%N
  else None.

(** A run of digits: its value appended to [acc], how many there were,
    and the rest. *)
Fixpoint digits (acc : Z) (count : Z) (s : jsstring) : Z * Z * jsstring :=
  match s with
  | c :: s' =>
      match digit c with
      | Some d => digits (10 * acc + d)%Z (count + 1)%Z s'
      | None => (acc, count, s)
      end
  | [] => (acc, count, s)
  end.

(** A number: an optional minus; [0] or a digit run that does not start
    with [0]; an optional fraction, a dot and at least one digit; an
    optional exponent, [e] or [E], an optional sign and at least one
    digit. *)
Definition parse_number (s : jsstring) : option (float * jsstring) :=
  let '(neg, s) := match s with 45%N :: s' => (true, s') | _ => (false, s) end in
  let int_part :=
    match s with
    | 48%N :: s' => Some (0%Z, s')
    | c :: _ =>
        match digit c with
        | Some _ => let '(m, _, rest) := digits 0 0 s in Some (m, rest)
        | None => None
        end
    | [] => None
    end in
  match int_part with
  | None => None
  | Some (m, s) =>
      let frac :=
        match s with
        | 46%N :: s' =>
            let '(m', n, rest) := digits m 0 s' in
            if (n =? 0)%Z then None else Some (m', n, rest)
        | _ => Some (m, 0%Z, s)
        end in
      match frac with
      | None => None
      | Some (m, scale, s) =>
          let expo :=
            match s with
            | (69 | 101)%N :: s' =>
                let '(eneg, s') :=
                  match s' with
                  | 45%N :: t => (true, t)
                  | 43%N :: t => (false, t)
                  | _ => (false, s')
                  end in
                let '(e, n, rest) := digits 0 0 s' in
                if (n =? 0)%Z then None
                else Some ((if eneg then - e else e)%Z, rest)
            | _ => Some (0%Z, s)
            end in
          match expo with
          | None => None
          | Some (e, rest) => Some (float_of_decimal neg m (e - scale), rest)
          end
      end
  end.

(** The units of a string after its opening quote, up to the closing one. *)
Fixpoint parse_string (s : jsstring) : option (jsstring * jsstring) :=
  match s with
  | [] => None
  | 34%N :: rest => Some ([], rest)
  | 92%N :: e :: rest =>
      let unit_then (u : jschar) (rest : jsstring) :=
        match parse_string rest with
        | Some (str, rest') => Some (u :: str, rest')
        | None => None
        end in
      match e with
      | 34 => unit_then 34%N rest
      | 92 => unit_then 92%N rest
      | 47 => unit_then 47%N rest
      | 98 => unit_then 8%N rest
      | 102 => unit_then 12%N rest
      | 110 => unit_then 10%N rest
      | 114 => unit_then 13%N rest
      | 116 => unit_then 9%N rest
      | 117 =>
          match rest with
          | a :: b :: c :: d :: rest' =>
              match hex_digit a, hex_digit b, hex_digit c, hex_digit d with
              | Some a, Some b, Some c, Some d =>
                  match parse_string rest' with
                  | Some (str, rest'') =>
                      Some ((4096 * a + 256 * b + 16 * c + d)%N :: str, rest'')
                  | None => None
                  end
              | _, _, _, _ => None
              end
          | _ => None
          end
      | _ => None
      end%N
  | c :: rest =>
      if (c <? 32)%N then None
      else match parse_string rest with
           | Some (str, rest') => Some (c :: str, rest')
           | None => None
           end
  end.

(** A later member with the same name replaces the value of an earlier
    one, in its place. *)
Fixpoint set_member (k : jsstring) (v : value)
    (ms : list (jsstring * value)) : list (jsstring * value) :=
  match ms with
  | [] => [(k, v)]
  | (k', v') :: ms' =>
      if jsstring_eqb k k' then (k', v) :: ms' else (k', v') :: set_member k v ms'
  end.

Definition expect (c : jschar) (s : jsstring) : option jsstring :=
  match s with
  | c' :: s' => if N.eqb c c' then Some s' else None
  | [] => None
  end.

(** One value at the head of [s] (white space before it skipped), and the
    rest.  [fuel] bounds the nesting and the number of elements. *)
Fixpoint parse_value (fuel : nat) (s : jsstring) : option (value * jsstring) :=
  match fuel with
  | O => None
  | S fuel =>
      match skip_ws s with
      | 123%N :: s1 =>
          match skip_ws s1 with
          | 125%N :: rest => Some (Object [], rest)
          | _ => parse_members fuel s1 []
          end
      | 91%N :: s1 =>
          match skip_ws s1 with
          | 93%N :: rest => Some (Array [], rest)
          | _ => parse_elements fuel s1 []
          end
      | 34%N :: s1 =>
          match parse_string s1 with
          | Some (str, rest) => Some (Str str, rest)
          | None => None
          end
      | 116%N :: 114%N :: 117%N :: 101%N :: rest => Some (Bool true, rest)
      | 102%N :: 97%N :: 108%N :: 115%N :: 101%N :: rest => Some (Bool false, rest)
      | 110%N :: 117%N :: 108%N :: 108%N :: rest => Some (Null, rest)
      | s1 =>
          match parse_number s1 with
          | Some (n, rest) => Some (Number n, rest)
          | None => None
          end
      end
  end

(** The elements of an array after [[] or a comma, up to the closing []]. *)
with parse_elements (fuel : nat) (s : jsstring) (acc : list value)
    : option (value * jsstring) :=
  match fuel with
  | O => None
  | S fuel =>
      match parse_value fuel s with
      | None => None
      | Some (v, s1) =>
          match skip_ws s1 with
          | 44%N :: s2 => parse_elements fuel s2 (acc ++ [v])
          | 93%N :: rest => Some (Array (acc ++ [v]), rest)
          | _ => None
          end
      end
  end

(** The members of an object after [{] or a comma, up to the closing [}]. *)
with parse_members (fuel : nat) (s : jsstring) (acc : list (jsstring * value))
    : option (value * jsstring) :=
  match fuel with
  | O => None
  | S fuel =>
      match skip_ws s with
      | 34%N :: s1 =>
          match parse_string s1 with
          | None => None
          | Some (k, s2) =>
              match expect 58%N (skip_ws s2) with
              | None => None
              | Some s3 =>
                  match parse_value fuel s3 with
                  | None => None
                  | Some (v, s4) =>
                      match skip_ws s4 with
                      | 44%N :: s5 => parse_members fuel s5 (set_member k v acc)
                      | 125%N :: rest => Some (Object (set_member k v acc), rest)
                      | _ => None
                      end
                  end
              end
          end
      | _ => None
      end
  end.

(** [JSON.parse(text)]: one value, white space around it, nothing else.
    The fuel is not exhausted on a text of the grammar: every call reads
    at least one unit before it calls again. *)
Definition parse (text : jsstring) : option value :=
  match parse_value (2 * length text + 2) text with
  | Some (v, rest) =>
      match skip_ws rest with
      | [] => Some v
      | _ :: _ => None
      end
  | None => None
  end.

(** [v[name]] for a value that is not [null] and a [name] that no built-in
    prototype defines: an own member of an object, [undefined] otherwise. *)
Fixpoint lookup (name : jsstring) (ms : list (jsstring * value)) : option value :=
  match ms with
  | [] => None
  | (k, v) :: ms' => if jsstring_eqb name k then Some v else lookup name ms'
  end.

Definition member (name : jsstring) (v : value) : option value :=
  match v with
  | Object ms => lookup name ms
  | _ => None
  end.

(** Truthiness; [None] is [undefined]. *)
Definition truthy (v : option value) : bool :=
  match v with
  | None | Some Null => false
  | Some (Bool b) => b
  | Some (Number n) => negb (PrimFloat.eqb n 0) && PrimFloat.eqb n n
  | Some (Str s) => nonempty s
  | Some (Array _) | Some (Object _) => true
  end.

End JSON.

(* ================================================================== *)
(** * Data model ([types.ts]) *)

Inductive GenerationStatus :=
| IDLE | SEGMENTING | LOADING | AUDITING | HEALING | SUCCESS | ERROR.

Inductive ViewType := side | top | isometric | unknown.

(** The string a [ViewType] is. *)
Definition ViewType_text (v : ViewType) : jsstring :=
  match v with
  | side => js "side"
  | top => js "top"
  | isometric => js "isometric"
  | unknown => js "unknown"
  end.

(** [v === 'side'] *)
Definition is_side (v : ViewType) : bool :=
  match v with side => true | _ => false end.

Record BoundingBox := { ymin : float; xmin : float; ymax : float; xmax : float }.

Record ImageData := { data : jsstring; mimeType : jsstring }.

(** [id] and [viewType] are mandatory in [types.ts]; they are optional here
    because the object [handleRefine] builds by spreading an absent view
    has neither. *)
Module GeneratedSvg.
Record t := {
  id : option jsstring;
  content : jsstring;
  prompt : jsstring;
  timestamp : float;
  auditReport : option jsstring;
  viewType : option ViewType
}.
End GeneratedSvg.

Module WarshipProject.
Record t := {
  id : jsstring;
  sideView : option GeneratedSvg.t;
  topView : option GeneratedSvg.t;
  originalImage : ImageData
}.
End WarshipProject.

Record ApiError := { message : jsstring; details : option jsstring }.

(** What [detectAndCropViews] resolves to: [{ side?, top? }]. *)
Record Crops := { crop_side : option ImageData; crop_top : option ImageData }.

(* ================================================================== *)
(** * What is thrown *)

Inductive ErrorKind := PlainError | SyntaxError | TypeError.

Inductive Thrown :=
| ErrorObject (kind : ErrorKind) (text : jsstring)  (* an [Error] with its [message] *)
| NonError.              (* a value without [message]: the event of [img.onerror] *)

(** [err.message] *)
Definition message_of (e : Thrown) : option jsstring :=
  match e with
  | ErrorObject _ text => Some text
  | NonError => None
  end.

(** The faults the engine raises itself; the wording of their messages is
    the engine's. *)
Inductive EngineFault :=
| BadJSON (text : jsstring)            (* [JSON.parse(text)] *)
| ReadOfNull (property : jsstring)     (* [null.property] *)
| ReadOfUndefined (property : jsstring).

Inductive Outcome (R : Type) :=
| Resolved (r : R)
| Rejected (e : Thrown).
Arguments Resolved {R} r.
Arguments Rejected {R} e.

(* ================================================================== *)
(** * The request / response boundary *)

Inductive Part :=
| InlineData (bytes : option jsstring) (mime : jsstring)
| Text (text : jsstring).

Inductive Schema :=
| TypeObject (properties : list (jsstring * Schema))
| TypeBoolean
| TypeInteger.

Record Config := {
  systemInstruction : option jsstring;
  thinkingBudget : option float;
  temperature : option float;
  responseMimeType : option jsstring;
  responseSchema : option Schema
}.

Record Request := { model : jsstring; parts : list Part; config : Config }.

(** [ai.models.generateContent] rejects, or resolves to a response whose
    [text] may be absent. *)
Inductive CallOutcome :=
| CallFailed (e : Thrown)
| Response (text : option jsstring).

(** [new Image()] with [src] set: [onload] with the natural size, or
    [onerror]. *)
Inductive LoadOutcome :=
| Loaded (naturalWidth naturalHeight : float)
| LoadFailed.

Inductive CanvasOp :=
| FillRect (style : jsstring) (x y w h : float)
| DrawImage (src : jsstring) (sx sy sw sh dx dy dw dh : float).

(** A canvas element and its 2d context: the numbers assigned to [width]
    and [height], the current [fillStyle], what was drawn, in order.

    [width] and [height] are attributes of type [unsigned long] that
    reflect a content attribute.  An assignment converts the number: its
    integer part modulo 2^32, and 0 for NaN and the infinities; a result
    above 2147483647 is replaced by the attribute's default, 300 for the
    width and 150 for the height.  Reading the attribute gives the
    converted number, and it is the size of the bitmap. *)
Module Canvas.
Record t := {
  width : float;      (* the number assigned to [width], as assigned *)
  height : float;     (* the number assigned to [height], as assigned *)
  fillStyle : jsstring;
  drawn : list CanvasOp
}.

(** [document.createElement('canvas')] *)
Definition create : t :=
  {| width := 300; height := 150; fillStyle := js "#000000"; drawn := [] |}.

(** The integer part of a finite number (the fraction is dropped, towards
    zero); none for NaN and the infinities. *)
Definition IntegerPart (x : float) : option Z :=
  match Prim2SF x with
  | S754_zero _ => Some 0%Z
  | S754_finite s m e =>
      let a := Z.shiftl (Z.pos m) e in Some (if s then (- a)%Z else a)
  | S754_infinity _ | S754_nan => None
  end.

(** The conversion of a number to [unsigned long]. *)
Definition unsigned_long (x : float) : Z :=
  match IntegerPart x with
  | Some n => (n mod 2 ^ 32)%Z
  | None => 0%Z
  end.

(** What an attribute with default [default] keeps of the number [x]
    assigned to it. *)
Definition reflected (default : Z) (x : float) : Z :=
  let n := unsigned_long x in
  if (n <=? 2147483647)%Z then n else default.

(** An integer as a number. *)
Definition number (n : Z) : float := PrimFloat.of_uint63 (Uint63.of_Z n).

(** Reading [canvas.width] and [canvas.height]. *)
Definition get_width (c : t) : float := number (reflected 300 (width c)).
Definition get_height (c : t) : float := number (reflected 150 (height c)).

Definition set_width (v : float) (c : t) : t :=
  {| width := v; height := height c; fillStyle := fillStyle c; drawn := drawn c |}.

Definition set_height (v : float) (c : t) : t :=
  {| width := width c; height := v; fillStyle := fillStyle c; drawn := drawn c |}.

Definition set_fillStyle (v : jsstring) (c : t) : t :=
  {| width := width c; height := height c; fillStyle := v; drawn := drawn c |}.

Definition draw (op : CanvasOp) (c : t) : t :=
  {| width := width c; height := height c; fillStyle := fillStyle c;
     drawn := drawn c ++ [op] |}.

(** [ctx.fillRect(x, y, w, h)] *)
Definition fillRect (x y w h : float) (c : t) : t :=
  draw (FillRect (fillStyle c) x y w h) c.

(** [ctx.drawImage(img, sx, sy, sw, sh, dx, dy, dw, dh)] *)
Definition drawImage (src : jsstring) (sx sy sw sh dx dy dw dh : float) (c : t) : t :=
  draw (DrawImage src sx sy sw sh dx dy dw dh) c.
End Canvas.

(* ================================================================== *)
(** * Application state and effects ([App.tsx]) *)

Record AppState := {
  status : GenerationStatus;
  project : option WarshipProject.t;
  activeView : ViewType;
  error : option ApiError;
  pipelineStatus : jsstring
}.

(** The state of the first render. *)
Definition initialState : AppState :=
  {| status := IDLE; project := None; activeView := side; error := None;
     pipelineStatus := [] |}.

Inductive effect :=
| SetStatus (s : GenerationStatus)
| SetProject (p : WarshipProject.t)
| UpdateProject (f : option WarshipProject.t -> option WarshipProject.t)
| SetActiveView (v : ViewType)
| SetError (e : option ApiError)
| SetPipelineStatus (s : jsstring)
| ConsoleError (e : Thrown).

Definition apply_effect (o : effect) (st : AppState) : AppState :=
  match o with
  | SetStatus s =>
      {| status := s; project := project st; activeView := activeView st;
         error := error st; pipelineStatus := pipelineStatus st |}
  | SetProject p =>
      {| status := status st; project := Some p; activeView := activeView st;
         error := error st; pipelineStatus := pipelineStatus st |}
  | UpdateProject f =>
      {| status := status st; project := f (project st);
         activeView := activeView st; error := error st;
         pipelineStatus := pipelineStatus st |}
  | SetActiveView v =>
      {| status := status st; project := project st; activeView := v;
         error := error st; pipelineStatus := pipelineStatus st |}
  | SetError e =>
      {| status := status st; project := project st; activeView := activeView st;
         error := e; pipelineStatus := pipelineStatus st |}
  | SetPipelineStatus s =>
      {| status := status st; project := project st; activeView := activeView st;
         error := error st; pipelineStatus := s |}
  | ConsoleError _ => st
  end.

(** What the program asks of its surroundings, by the type of the answer. *)
Inductive query : Type -> Type :=
| GenerateContent (req : Request) : query CallOutcome
| LoadImage (src : jsstring) : query LoadOutcome
| GetContext2d : query bool
| ToDataURL (c : Canvas.t) (type : jsstring) (quality : float) : query jsstring
| RandomUUID : query jsstring
| DateNow : query float.

(** The queries whose answer is awaited: the task is suspended and other
    tasks run meanwhile. *)
Definition is_await {X} (q : query X) : bool :=
  match q with
  | GenerateContent _ | LoadImage _ => true
  | _ => false
  end.

(* ================================================================== *)
(** * Asynchronous code as resumable programs *)

Inductive Prog (R : Type) : Type :=
| Ret (r : R)
| Throw (e : Thrown)
| Do (o : effect) (k : Prog R)
| Ask (X : Type) (q : query X) (k : X -> Prog R).
Arguments Ret {R} r.
Arguments Throw {R} e.
Arguments Do {R} o k.
Arguments Ask {R X} q k.

Fixpoint bind {A B} (p : Prog A) (f : A -> Prog B) : Prog B :=
  match p with
  | Ret a => f a
  | Throw e => Throw e
  | Do o k => Do o (bind k f)
  | Ask q k => Ask q (fun x => bind (k x) f)
  end.

Definition effect_ (o : effect) : Prog unit := Do o (Ret tt).
Definition ask {X} (q : query X) : Prog X := Ask q Ret.

Declare Scope prog_scope.
Delimit Scope prog_scope with prog.
Bind Scope prog_scope with Prog.
Notation "x <- p ;; k" := (bind p (fun x => k))
  (at level 61, p at next level, right associativity) : prog_scope.
Notation "p ;; k" := (bind p (fun _ => k))
  (at level 61, right associativity) : prog_scope.

(** [try { p } catch (err) { h err }] *)
Fixpoint try_catch {A} (p : Prog A) (h : Thrown -> Prog A) : Prog A :=
  match p with
  | Ret a => Ret a
  | Throw e => h e
  | Do o k => Do o (try_catch k h)
  | Ask q k => Ask q (fun x => try_catch (k x) h)
  end.

(** A trace entry: an effect performed, or a query and its answer. *)
Inductive Entry :=
| Performed (o : effect)
| Asked (X : Type) (q : query X) (x : X).
Arguments Asked {X} q x.

(** The surroundings: a world that answers queries and changes as it
    does; which of two awaited requests completes first; the engine's
    coercion to number of what is not a number already, and its wording
    of its own faults. *)
Class Host := {
  World : Type;
  respond : forall X, query X -> World -> X * World;
  sideFirst : World -> bool;
  coerce : JSON.value -> float;
  engineMessage : EngineFault -> jsstring
}.
Arguments respond {Host X} q w.

(* ================================================================== *)
(** * Running programs *)

Section Running.
Context {host : Host}.

(** The world, the application state the setters write, and the trace. *)
Record Machine := {
  world : World;
  state : AppState;
  log : list Entry
}.

Definition perform (o : effect) (m : Machine) : Machine :=
  {| world := world m; state := apply_effect o (state m);
     log := log m ++ [Performed o] |}.

Definition answer {X} (q : query X) (m : Machine) : X * Machine :=
  let (x, w) := respond q (world m) in
  (x, {| world := w; state := state m; log := log m ++ [Asked q x] |}).

(** A program run on its own, each query answered as it is asked. *)
Fixpoint exec {R} (p : Prog R) (m : Machine) : Outcome R * Machine :=
  match p with
  | Ret r => (Resolved r, m)
  | Throw e => (Rejected e, m)
  | Do o k => exec k (perform o m)
  | Ask q k => let (x, m') := answer q m in exec (k x) m'
  end.

(** The shared object two tasks write into, and what a task writes when
    it is done (its [.then] callback). *)
Definition Mutation := WarshipProject.t -> WarshipProject.t.

Definition forget {R} (r : Outcome R) : Outcome unit :=
  match r with
  | Resolved _ => Resolved tt
  | Rejected e => Rejected e
  end.

(** One task, the only one left to wait for: [settle] runs when it is
    done, with the object as the task left it or with what it threw. *)
Definition join_last (t : Prog Mutation) (np : WarshipProject.t)
    (settle : Outcome WarshipProject.t -> Machine -> Machine)
    (m : Machine) : Outcome unit * Machine :=
  match exec t m with
  | (Resolved f, m') => (Resolved tt, settle (Resolved (f np)) m')
  | (Rejected e, m') => (Rejected e, settle (Rejected e) m')
  end.

(** A task that goes on after the join has rejected: nobody waits for it
    and what it writes is written into an object nobody reads. *)
Definition straggle (t : Prog Mutation) (m : Machine) : Outcome unit * Machine :=
  let (r, m') := exec t m in (forget r, m').

(** [await Promise.all([a, b])] for two tasks started in this order.
    A task runs, uninterrupted, up to its next awaited query; of two
    tasks that both wait, the host says whose query is answered first.
    [settle] runs once: with the object when both tasks are done, or with
    what the first task to fail threw, at that moment; the other task
    then still runs to its end.  The result is how each task ended and the
    machine after everything ran. *)
Fixpoint join_all (a : Prog Mutation) :
    Prog Mutation -> WarshipProject.t ->
    (Outcome WarshipProject.t -> Machine -> Machine) ->
    Machine -> Outcome unit * Outcome unit * Machine :=
  fun b np settle m =>
  match a with
  | Do o ka => join_all ka b np settle (perform o m)
  | Ret f =>
      let (rb, m') := join_last b (f np) settle m in (Resolved tt, rb, m')
  | Throw e =>
      let (rb, m') := straggle b (settle (Rejected e) m) in (Rejected e, rb, m')
  | Ask qa ka =>
      if negb (is_await qa) then
        let (x, m') := answer qa m in join_all (ka x) b np settle m'
      else
        (fix wait (b : Prog Mutation) (np : WarshipProject.t) (m : Machine)
           : Outcome unit * Outcome unit * Machine :=
           match b with
           | Do o kb => wait kb np (perform o m)
           | Ret g =>
               let (ra, m') := join_last a (g np) settle m in
               (ra, Resolved tt, m')
           | Throw e =>
               let (ra, m') := straggle a (settle (Rejected e) m) in
               (ra, Rejected e, m')
           | Ask qb kb =>
               if negb (is_await qb) then
                 let (x, m') := answer qb m in wait (kb x) np m'
               else if sideFirst (world m) then
                 let (x, m') := answer qa m in join_all (ka x) b np settle m'
               else
                 let (x, m') := answer qb m in wait (kb x) np m'
           end) b np m
  end.

End Running.

(* ================================================================== *)
(** * [services/geminiService.ts] *)

Definition PRO_MODEL : jsstring := js "gemini-3-pro-preview".
Definition FLASH_MODEL : jsstring := js "gemini-3-flash-preview".

(** A literal in which every apostrophe stands for a double quote. *)
Definition jq (s : String.string) : jsstring :=
  map (fun c => if (c =? 39)%N then 34%N else c) (js s).
Arguments jq s%_string_scope.

Definition newline : jsstring := [10%N].

(** The lines of a template literal, a line feed between two of them. *)
Fixpoint lines (ls : list jsstring) : jsstring :=
  match ls with
  | [] => []
  | [l] => l
  | l :: ls' => l ++ newline ++ lines ls'
  end.

(** The decimal text of a count. *)
Definition decimal (n : N) : jsstring :=
  js (DecimalString.NilZero.string_of_uint (N.to_uint n)).

Record PipelineResult := { content : jsstring; auditReport : jsstring }.

Section Service.
Context {host : Host}.
Local Open Scope float_scope.
Local Open Scope prog_scope.

(** [ToNumber], [None] being [undefined]. *)
Definition ToNumber (v : option JSON.value) : float :=
  match v with
  | None => nan
  | Some JSON.Null => 0
  | Some (JSON.Bool b) => if b then 1 else 0
  | Some (JSON.Number n) => n
  | Some other => coerce other
  end.

(** A decoded value used as a [BoundingBox]: its four fields read as
    numbers. *)
Definition asBoundingBox (v : JSON.value) : BoundingBox :=
  {| ymin := ToNumber (JSON.member (js "ymin") v);
     xmin := ToNumber (JSON.member (js "xmin") v);
     ymax := ToNumber (JSON.member (js "ymax") v);
     xmax := ToNumber (JSON.member (js "xmax") v) |}.

(** [text || fallback] *)
Definition or_default (text : option jsstring) (fallback : jsstring) : jsstring :=
  match text with
  | Some t => if nonempty t then t else fallback
  | None => fallback
  end.

(** [value.name], which throws when [value] is [null]. *)
Definition read (name : jsstring) (v : JSON.value) : Prog (option JSON.value) :=
  match v with
  | JSON.Null => Throw (ErrorObject TypeError (engineMessage (ReadOfNull name)))
  | _ => Ret (JSON.member name v)
  end.

(** [await ai.models.generateContent(req)], then [response.text]. *)
Definition generateContent (req : Request) : Prog (option jsstring) :=
  Ask (GenerateContent req) (fun outcome =>
    match outcome with
    | CallFailed e => Throw e
    | Response text => Ret text
    end).

(** [{ inlineData: { data: imageData.data.split(',')[1],
                     mimeType: imageData.mimeType } }] *)
Definition inlineData (imageData : ImageData) : Part :=
  InlineData (split_comma_1 (data imageData)) (mimeType imageData).

(** [[
const cropImage = async (base64Data: string, box: BoundingBox): Promise<ImageData> => {
  return new Promise((resolve, reject) => {
    const img = new Image();
    img.onload = () => {
      const canvas = document.createElement('canvas');
      const width = img.naturalWidth;
      const height = img.naturalHeight;
      const x = (box.xmin / 1000) * width;
      const y = (box.ymin / 1000) * height;
      const w = ((box.xmax - box.xmin) / 1000) * width;
      const h = ((box.ymax - box.ymin) / 1000) * height;
      const padding = 20;
      canvas.width = w + (padding * 2);
      canvas.height = h + (padding * 2);
      const ctx = canvas.getContext('2d');
      if (!ctx) { reject(new Error("Could not get canvas context")); return; }
      ctx.fillStyle = '#FFFFFF';
      ctx.fillRect(0, 0, canvas.width, canvas.height);
      ctx.drawImage(img, x, y, w, h, padding, padding, w, h);
      resolve({ data: canvas.toDataURL('image/jpeg', 0.95), mimeType: 'image/jpeg' });
    };
    img.onerror = (e) => reject(e);
    img.src = base64Data;
  });
};
]] *)
Definition cropImage (base64Data : jsstring) (box : BoundingBox) : Prog ImageData :=
  Ask (LoadImage base64Data) (fun img =>
    match img with
    | LoadFailed => Throw NonError
    | Loaded width height =>
        let canvas := Canvas.create in
        let x := (xmin box / 1000) * width in
        let y := (ymin box / 1000) * height in
        let w := ((xmax box - xmin box) / 1000) * width in
        let h := ((ymax box - ymin box) / 1000) * height in
        let padding := 20 in
        let canvas := Canvas.set_width (w + (padding * 2)) canvas in
        let canvas := Canvas.set_height (h + (padding * 2)) canvas in
        Ask GetContext2d (fun ctx =>
          if negb ctx then
            Throw (ErrorObject PlainError (js "Could not get canvas context"))
          else
            let canvas := Canvas.set_fillStyle (js "#FFFFFF") canvas in
            let canvas :=
              Canvas.fillRect 0 0 (Canvas.get_width canvas)
                (Canvas.get_height canvas) canvas in
            let canvas :=
              Canvas.drawImage base64Data x y w h padding padding w h canvas in
            Ask (ToDataURL canvas (js "image/jpeg") 0.95) (fun url =>
              Ret {| data := url; mimeType := js "image/jpeg" |}))
    end).

Definition box_schema : Schema :=
  TypeObject [(js "ymin", TypeInteger); (js "xmin", TypeInteger);
              (js "ymax", TypeInteger); (js "xmax", TypeInteger)].

Definition detect_request (imageData : ImageData) : Request :=
  {| model := FLASH_MODEL;
     parts :=
       [inlineData imageData;
        Text (js "Identify the bounding boxes [0-1000] for the 'Side Profile View' and the 'Overhead/Top Deck View' of the ship in this schematic.")];
     config :=
       {| systemInstruction := None;
          thinkingBudget := None;
          temperature := None;
          responseMimeType := Some (js "application/json");
          responseSchema :=
            Some (TypeObject [(js "sideViewFound", TypeBoolean);
                              (js "sideViewBox", box_schema);
                              (js "topViewFound", TypeBoolean);
                              (js "topViewBox", box_schema)]) |} |}.

(** [result.found && result.box], when truthy: the box. *)
Definition found_box (found box : jsstring) (result : JSON.value)
    : Prog (option JSON.value) :=
  f <- read found result ;;
  if JSON.truthy f then
    b <- read box result ;;
    Ret (if JSON.truthy b then b else None)
  else Ret None.

(** [[
  const result = JSON.parse(response.text || "{}");
  const crops: { side?: ImageData, top?: ImageData } = {};
  if (result.sideViewFound && result.sideViewBox) {
    crops.side = await cropImage(imageData.data, result.sideViewBox);
  }
  if (result.topViewFound && result.topViewBox) {
    crops.top = await cropImage(imageData.data, result.topViewBox);
  }
  return crops;
]] *)
Definition detectAndCropViews (imageData : ImageData) : Prog Crops :=
  text <- generateContent (detect_request imageData) ;;
  let source := or_default text (js "{}") in
  match JSON.parse source with
  | None => Throw (ErrorObject SyntaxError (engineMessage (BadJSON source)))
  | Some result =>
      sideBox <- found_box (js "sideViewFound") (js "sideViewBox") result ;;
      cropped_side <-
        match sideBox with
        | Some box =>
            c <- cropImage (data imageData) (asBoundingBox box) ;; Ret (Some c)
        | None => Ret None
        end ;;
      topBox <- found_box (js "topViewFound") (js "topViewBox") result ;;
      cropped_top <-
        match topBox with
        | Some box =>
            c <- cropImage (data imageData) (asBoundingBox box) ;; Ret (Some c)
        | None => Ret None
        end ;;
      Ret {| crop_side := cropped_side; crop_top := cropped_top |}
  end.

(** [extractSvg(response.text)]; [text.match] throws when [text] is
    [undefined]. *)
Definition extractSvg_text (text : option jsstring) : Prog jsstring :=
  match text with
  | Some t => Ret (extractSvg t)
  | None =>
      Throw (ErrorObject TypeError (engineMessage (ReadOfUndefined (js "match"))))
  end.

Definition draft_systemPrompt (viewType : ViewType) : jsstring :=
  let contextInstruction :=
    if is_side viewType
    then js "FOCUS: Side Profile. Pay attention to mast heights, funnel rakes, hull sheer lines, and freeboard."
    else js "FOCUS: Top/Overhead Deck Plan. Pay attention to beam width, turret rotation circles, deck planking patterns, and lifeboats." in
  lines
    [ [];
      js "    You are the Lead Naval Architect. Your goal is to reconstruct technical drawings into semantic SVG schematics.";
      js "    " ++ contextInstruction;
      js "    ";
      js "    CORE DIRECTIVES:";
      jq "    1. **Semantic Grouping**: Use <g> tags with descriptive IDs (e.g., <g id='hull'>, <g id='superstructure'>).";
      jq "    2. **Geometric Logic**: 'Hallucinate' the perfect engineering geometry behind the fuzzy pixels.";
      js "    3. **Viewport**: Ensure the viewBox perfectly frames the ship.";
      jq "    4. **Style**: Use stroke='black' fill='none' stroke-width='1' vector-effect='non-scaling-stroke'.";
      js "  " ].

Definition draft_request (prompt : jsstring) (imageData : ImageData)
    (viewType : ViewType) : Request :=
  {| model := PRO_MODEL;
     parts :=
       [inlineData imageData;
        Text (js "Reconstruct this " ++ ViewType_text viewType ++ js " view. "
              ++ prompt)];
     config :=
       {| systemInstruction := Some (draft_systemPrompt viewType);
          thinkingBudget := Some 16000;
          temperature := Some 0.2;
          responseMimeType := None;
          responseSchema := None |} |}.

(** Stage 1: the initial draft. *)
Definition generateDraft (prompt : jsstring) (imageData : ImageData)
    (viewType : ViewType) : Prog jsstring :=
  text <- generateContent (draft_request prompt imageData viewType) ;;
  extractSvg_text text.

Definition audit_request (originalImage : ImageData) (draftSvg : jsstring)
    : Request :=
  {| model := FLASH_MODEL;
     parts :=
       [inlineData originalImage;
        Text (lines [js "SOURCE_IMAGE: (Attached)"; [];
                     js "VECTOR_DRAFT_CODE:";
                     slice0 50000 draftSvg ++ js "... "; [];
                     js "Conduct a technical audit. List missing features or distortions."])];
     config :=
       {| systemInstruction :=
            Some (js "You are the Inspector General. Find flaws in the vector conversion.");
          thinkingBudget := Some 4000;
          temperature := None;
          responseMimeType := None;
          responseSchema := None |} |}.

(** Stage 2: the audit; [response.text || "No major issues found."] *)
Definition auditDraft (originalImage : ImageData) (draftSvg : jsstring)
    : Prog jsstring :=
  text <- generateContent (audit_request originalImage draftSvg) ;;
  Ret (or_default text (js "No major issues found.")).

Definition heal_request (originalImage : ImageData)
    (draftSvg auditReport : jsstring) : Request :=
  {| model := PRO_MODEL;
     parts :=
       [inlineData originalImage;
        Text (lines [js "DRAFT_SVG:"; draftSvg; [];
                     js "INSPECTOR_AUDIT_REPORT:"; auditReport; [];
                     js "Execute the repairs."])];
     config :=
       {| systemInstruction :=
            Some (js "You are the Senior Correction Engineer. Fix the SVG based on the audit without regression.");
          thinkingBudget := Some 24000;
          temperature := Some 0.1;
          responseMimeType := None;
          responseSchema := None |} |}.

(** Stage 3: the draft repaired after the audit. *)
Definition healDraft (originalImage : ImageData)
    (draftSvg auditReport : jsstring) : Prog jsstring :=
  text <- generateContent (heal_request originalImage draftSvg auditReport) ;;
  extractSvg_text text.

(** [`STAGE_${viewType.toUpperCase()}`] *)
Definition stage_tag (stage : jsstring) (viewType : ViewType) : jsstring :=
  stage ++ toUpperCase (ViewType_text viewType).

(** [[
  onStatusChange(`DRAFTING_${viewType.toUpperCase()}`);
  const draft = await generateDraft(ai, prompt, imageData, viewType);
  onStatusChange(`AUDITING_${viewType.toUpperCase()}`);
  const audit = await auditDraft(ai, imageData, draft);
  onStatusChange(`HEALING_${viewType.toUpperCase()}`);
  const healed = await healDraft(ai, imageData, draft, audit);
  return { content: healed, auditReport: audit };
]]
    [onStatusChange] is the effect the caller's callback has. *)
Definition runViewPipeline (prompt : jsstring) (imageData : ImageData)
    (viewType : ViewType) (onStatusChange : jsstring -> effect)
    : Prog PipelineResult :=
  effect_ (onStatusChange (stage_tag (js "DRAFTING_") viewType)) ;;
  draft <- generateDraft prompt imageData viewType ;;
  effect_ (onStatusChange (stage_tag (js "AUDITING_") viewType)) ;;
  audit <- auditDraft imageData draft ;;
  effect_ (onStatusChange (stage_tag (js "HEALING_") viewType)) ;;
  healed <- healDraft imageData draft audit ;;
  Ret {| content := healed; auditReport := audit |}.

Definition refine_request (prompt : jsstring) (imageData : option ImageData)
    (previousSvg : option jsstring) (iteration : N) : Request :=
  {| model := PRO_MODEL;
     parts :=
       match imageData with Some i => [inlineData i] | None => [] end
       ++ match previousSvg with
          | Some svg =>
              if nonempty svg
              then [Text (lines [js "CURRENT_SVG_STATE:"; svg])] else []
          | None => []
          end
       ++ [Text (js "User Instruction: " ++ prompt)];
     config :=
       {| systemInstruction :=
            Some (js "Refine this SVG. Iteration " ++ decimal iteration ++ js ".");
          thinkingBudget := Some 20000;
          temperature := None;
          responseMimeType := None;
          responseSchema := None |} |}.

(** Refinement in one call; [iteration] defaults to 1.  It is a count
    that prints in plain digits, which a number does up to 2^53; the one
    caller, [handleRefine], leaves it at its default. *)
Definition generateWarshipSvg (prompt : jsstring) (imageData : option ImageData)
    (previousSvg : option jsstring) (iteration : N) : Prog jsstring :=
  text <- generateContent (refine_request prompt imageData previousSvg iteration) ;;
  extractSvg_text text.

End Service.

(* ================================================================== *)
(** * The handlers of [App.tsx] *)

Section App.
Context {host : Host}.
Local Open Scope prog_scope.

(** A program that does not throw, run for what it does. *)
Definition run (p : Prog unit) (m : Machine) : Machine := snd (exec p m).

(** The view a pipeline result becomes:
    [{ id: crypto.randomUUID(), content: res.content, prompt,
       timestamp: Date.now(), auditReport: res.auditReport, viewType }]. *)
Definition new_view (res : PipelineResult) (prompt : jsstring)
    (viewType : ViewType) : Prog GeneratedSvg.t :=
  uuid <- ask RandomUUID ;;
  now <- ask DateNow ;;
  Ret {| GeneratedSvg.id := Some uuid;
         GeneratedSvg.content := content res;
         GeneratedSvg.prompt := prompt;
         GeneratedSvg.timestamp := now;
         GeneratedSvg.auditReport := Some (auditReport res);
         GeneratedSvg.viewType := Some viewType |}.

(** [newProject.sideView = v] *)
Definition set_sideView (v : GeneratedSvg.t) : Mutation :=
  fun p =>
    {| WarshipProject.id := WarshipProject.id p;
       WarshipProject.sideView := Some v;
       WarshipProject.topView := WarshipProject.topView p;
       WarshipProject.originalImage := WarshipProject.originalImage p |}.

(** [newProject.topView = v] *)
Definition set_topView (v : GeneratedSvg.t) : Mutation :=
  fun p =>
    {| WarshipProject.id := WarshipProject.id p;
       WarshipProject.sideView := WarshipProject.sideView p;
       WarshipProject.topView := Some v;
       WarshipProject.originalImage := WarshipProject.originalImage p |}.

(** [runViewPipeline(prompt, crops.side, 'side', (s) => setPipelineStatus(s))
      .then(res => { newProject.sideView = { ... }; })] *)
Definition side_task (prompt : jsstring) (crop : ImageData) : Prog Mutation :=
  res <- runViewPipeline prompt crop side SetPipelineStatus ;;
  v <- new_view res prompt side ;;
  Ret (set_sideView v).

(** The same for [crops.top], ['top'] and [newProject.topView]. *)
Definition top_task (prompt : jsstring) (crop : ImageData) : Prog Mutation :=
  res <- runViewPipeline prompt crop top SetPipelineStatus ;;
  v <- new_view res prompt top ;;
  Ret (set_topView v).

(** After [await Promise.all(promises)]:
    [setProject(newProject); setActiveView(newProject.sideView ? 'side' : 'top');
     setStatus(GenerationStatus.SUCCESS);] *)
Definition handleGenerate_then (newProject : WarshipProject.t) : Prog unit :=
  effect_ (SetProject newProject) ;;
  effect_ (SetActiveView
             match WarshipProject.sideView newProject with
             | Some _ => side
             | None => top
             end) ;;
  effect_ (SetStatus SUCCESS).

(** [catch (err) { console.error(err); setStatus(GenerationStatus.ERROR);
      setError({ message: "Pipeline Failure", details: err.message }); }] *)
Definition handleGenerate_catch (err : Thrown) : Prog unit :=
  effect_ (ConsoleError err) ;;
  effect_ (SetStatus ERROR) ;;
  effect_ (SetError (Some {| message := js "Pipeline Failure";
                             details := message_of err |})).

(** [finally { setPipelineStatus(''); }] *)
Definition handleGenerate_finally : Prog unit :=
  effect_ (SetPipelineStatus []).

(** How the [try] block ends: normally with the new project, or with
    what was thrown in it; then the [finally] block. *)
Definition settle (r : Outcome WarshipProject.t) (m : Machine) : Machine :=
  run handleGenerate_finally
    match r with
    | Resolved newProject => run (handleGenerate_then newProject) m
    | Rejected err => run (handleGenerate_catch err) m
    end.

Definition no_views : Thrown :=
  ErrorObject PlainError (js "Could not identify distinct views in the schematic.").

(** What a run of [handleGenerate] went through, for the statements
    about it: what the detector gave, and how the promise of each
    pipeline that was started ended. *)
Record Report := {
  detected : option (Outcome Crops);
  side_pipeline : option (Outcome unit);
  top_pipeline : option (Outcome unit)
}.

(** [[
      const promises = [];
      if (crops.side) { promises.push(runViewPipeline(...).then(...)); }
      if (crops.top) { promises.push(runViewPipeline(...).then(...)); }
      if (promises.length === 0) {
        throw new Error("Could not identify distinct views in the schematic.");
      }
      await Promise.all(promises);
      ...
]] *)
Definition generate_views (prompt : jsstring) (newProject : WarshipProject.t)
    (crops : Crops) (m : Machine) : Report * Machine :=
  let report s t :=
    {| detected := Some (Resolved crops); side_pipeline := s; top_pipeline := t |} in
  match crop_side crops, crop_top crops with
  | Some s, Some t =>
      let '(rs, rt, m') :=
        join_all (side_task prompt s) (top_task prompt t) newProject settle m in
      (report (Some rs) (Some rt), m')
  | Some s, None =>
      let (rs, m') := join_last (side_task prompt s) newProject settle m in
      (report (Some rs) None, m')
  | None, Some t =>
      let (rt, m') := join_last (top_task prompt t) newProject settle m in
      (report None (Some rt), m')
  | None, None => (report None None, settle (Rejected no_views) m)
  end.

(** [[
  const handleGenerate = async (prompt: string, imageData?: ImageData) => {
    setStatus(GenerationStatus.SEGMENTING);
    setPipelineStatus("SCANNING_LAYOUT");
    setError(null);
    const imageToProcess = imageData || project?.originalImage;
    if (!imageToProcess) return;
    try {
      const crops = await detectAndCropViews(imageToProcess);
      const newProject: WarshipProject = {
        id: crypto.randomUUID(), originalImage: imageToProcess };
      setStatus(GenerationStatus.LOADING);
      ...
    } catch (err: any) { ... } finally { setPipelineStatus(''); }
  };
]]
    [project] is the project of the render the handler belongs to. *)
Definition handleGenerate_run (project : option WarshipProject.t)
    (prompt : jsstring) (imageData : option ImageData) (m : Machine)
    : Report * Machine :=
  let m := perform (SetStatus SEGMENTING) m in
  let m := perform (SetPipelineStatus (js "SCANNING_LAYOUT")) m in
  let m := perform (SetError None) m in
  let imageToProcess :=
    match imageData with
    | Some i => Some i
    | None => option_map WarshipProject.originalImage project
    end in
  match imageToProcess with
  | None =>
      ({| detected := None; side_pipeline := None; top_pipeline := None |}, m)
  | Some imageToProcess =>
      match exec (detectAndCropViews imageToProcess) m with
      | (Rejected e, m) =>
          ({| detected := Some (Rejected e); side_pipeline := None;
              top_pipeline := None |},
           settle (Rejected e) m)
      | (Resolved crops, m) =>
          let (uuid, m) := answer RandomUUID m in
          let newProject :=
            {| WarshipProject.id := uuid;
               WarshipProject.sideView := None;
               WarshipProject.topView := None;
               WarshipProject.originalImage := imageToProcess |} in
          let m := perform (SetStatus LOADING) m in
          generate_views prompt newProject crops m
      end
  end.

Definition handleGenerate (project : option WarshipProject.t)
    (prompt : jsstring) (imageData : option ImageData) (m : Machine) : Machine :=
  snd (handleGenerate_run project prompt imageData m).

(** [activeView === 'side' ? project.sideView : project.topView] *)
Definition current_view (activeView : ViewType) (p : WarshipProject.t)
    : option GeneratedSvg.t :=
  if is_side activeView then WarshipProject.sideView p
  else WarshipProject.topView p.

(** [{ ...currentSvg!, content: refinedContent, prompt, timestamp: Date.now() }] *)
Definition updated_view (currentSvg : option GeneratedSvg.t)
    (refinedContent prompt : jsstring) (now : float) : GeneratedSvg.t :=
  {| GeneratedSvg.id :=
       match currentSvg with Some c => GeneratedSvg.id c | None => None end;
     GeneratedSvg.content := refinedContent;
     GeneratedSvg.prompt := prompt;
     GeneratedSvg.timestamp := now;
     GeneratedSvg.auditReport :=
       match currentSvg with Some c => GeneratedSvg.auditReport c | None => None end;
     GeneratedSvg.viewType :=
       match currentSvg with Some c => GeneratedSvg.viewType c | None => None end |}.

(** [prev => prev ? { ...prev, [activeView === 'side' ? 'sideView' : 'topView']:
      updatedSvg } : null] *)
Definition replace_view (activeView : ViewType) (updatedSvg : GeneratedSvg.t)
    (prev : option WarshipProject.t) : option WarshipProject.t :=
  match prev with
  | None => None
  | Some prev =>
      Some (if is_side activeView then set_sideView updatedSvg prev
            else set_topView updatedSvg prev)
  end.

(** [[
  const handleRefine = async (prompt: string) => {
    if (!project) return;
    setStatus(GenerationStatus.LOADING);
    setPipelineStatus("REFINING_ACTIVE_VIEW");
    try {
      const currentSvg = activeView === 'side' ? project.sideView : project.topView;
      const refinedContent = await generateWarshipSvg(prompt, undefined, currentSvg?.content);
      const updatedSvg = { ...currentSvg!, content: refinedContent, prompt, timestamp: Date.now() };
      setProject(prev => { ... });
      setStatus(GenerationStatus.SUCCESS);
    } catch(err: any) {
      setStatus(GenerationStatus.ERROR);
      setError({ message: "Refinement Failed", details: err.message });
    }
  };
]]
    [project] and [activeView] are those of the render the handler
    belongs to. *)
Definition handleRefine (project : option WarshipProject.t)
    (activeView : ViewType) (prompt : jsstring) : Prog unit :=
  match project with
  | None => Ret tt
  | Some project =>
      effect_ (SetStatus LOADING) ;;
      effect_ (SetPipelineStatus (js "REFINING_ACTIVE_VIEW")) ;;
      try_catch
        (let currentSvg := current_view activeView project in
         refinedContent <-
           generateWarshipSvg prompt None
             (option_map GeneratedSvg.content currentSvg) 1 ;;
         now <- ask DateNow ;;
         let updatedSvg := updated_view currentSvg refinedContent prompt now in
         effect_ (UpdateProject (replace_view activeView updatedSvg)) ;;
         effect_ (SetStatus SUCCESS))
        (fun err =>
           effect_ (SetStatus ERROR) ;;
           effect_ (SetError (Some {| message := js "Refinement Failed";
                                      details := message_of err |})))
  end.

End App.

(* ================================================================== *)
(** * A scripted host

    A host for worked examples: the model answers from a list, in the
    order of the requests; the image loads with one fixed size, or
    fails; the canvas context is there or not. *)

Module Scripted.

Record script := {
  replies : list CallOutcome;   (* the answers of the model, in order *)
  turns : list bool;            (* for each answer: the side pipeline first? *)
  image : LoadOutcome;
  context2d : bool;
  serial : N                    (* how many UUIDs were handed out *)
}.

Definition next_reply (w : script) : CallOutcome * script :=
  (match replies w with
   | r :: _ => r
   | [] => CallFailed (ErrorObject PlainError (js "Failed to fetch"))
   end,
   {| replies := tl (replies w); turns := tl (turns w); image := image w;
      context2d := context2d w; serial := serial w |}).

Definition next_uuid (w : script) : jsstring * script :=
  (js "uuid-" ++ decimal (serial w),
   {| replies := replies w; turns := turns w; image := image w;
      context2d := context2d w; serial := N.succ (serial w) |}).

Definition answers X (q : query X) (w : script) : X * script :=
  match q in query X return X * script with
  | GenerateContent _ => next_reply w
  | LoadImage _ => (image w, w)
  | GetContext2d => (context2d w, w)
  | ToDataURL _ type _ => (js "data:" ++ type ++ js ";base64,/9j/4AAQ", w)
  | RandomUUID => next_uuid w
  | DateNow => (1767225600000%float, w)
  end.

Definition host : Host :=
  {| World := script;
     respond := answers;
     sideFirst := fun w => hd true (turns w);
     coerce := fun _ => nan;
     engineMessage := fun fault =>
       match fault with
       | BadJSON _ => js "Unexpected token in JSON"
       | ReadOfNull p => js "Cannot read properties of null (reading '" ++ p ++ js "')"
       | ReadOfUndefined p =>
           js "Cannot read properties of undefined (reading '" ++ p ++ js "')"
       end |}.

(** The machine of the first render in a world. *)
Definition boot (w : script) : @Machine host :=
  @Build_Machine host w initialState [].

Definition text (s : String.string) : CallOutcome := Response (Some (jq s)).
Arguments text s%_string_scope.

(** An uploaded PNG, as the file reader encodes it. *)
Definition upload : ImageData :=
  {| data := js "data:image/png;base64,iVBORw0KGgo="; mimeType := js "image/png" |}.

(** A detector reply that finds the side view only, in the box of the
    end-to-end scenario, and the three replies of its pipeline. *)
Definition one_side : script :=
  {| replies :=
       [text "{'sideViewFound': true, 'sideViewBox': {'ymin': 100, 'xmin': 200, 'ymax': 400, 'xmax': 800}, 'topViewFound': false}";
        text "Here is the draft: <svg viewBox='0 0 600 300'><g id='hull'/></svg>";
        text "The aft mast is missing.";
        text "<svg viewBox='0 0 600 300'><g id='hull'/><g id='mast'/></svg>"];
     turns := [];
     image := Loaded 2000 1000;
     context2d := true;
     serial := 0 |}.

Definition both_boxes : CallOutcome :=
  text "{'sideViewFound': true, 'sideViewBox': {'ymin': 100, 'xmin': 200, 'ymax': 400, 'xmax': 800}, 'topViewFound': true, 'topViewBox': {'ymin': 500, 'xmin': 200, 'ymax': 900, 'xmax': 800}}".

(** Both views found; the replies of the two pipelines arrive
    alternately, the top pipeline's first. *)
Definition both_views : script :=
  {| replies :=
       [both_boxes;
        text "<svg id='top-draft'/></svg>";
        text "<svg id='side-draft'></svg>";
        text "Deck planking is off.";
        text "Funnel rake is wrong.";
        text "<svg id='top'></svg>";
        text "<svg id='side'></svg>"];
     turns := [true; false; true; false; true; false; true];
     image := Loaded 2000 1000;
     context2d := true;
     serial := 0 |}.

(** Both views found; the side pipeline gets all its replies, the audit
    of the top pipeline fails. *)
Definition top_fails : script :=
  {| replies :=
       [both_boxes;
        text "<svg id='side-draft'></svg>";
        text "<svg id='top-draft'></svg>";
        text "Funnel rake is wrong.";
        text "<svg id='side'></svg>";
        CallFailed (ErrorObject PlainError (js "429 Too Many Requests"))];
     turns := [true; true; false; true; true; false];
     image := Loaded 2000 1000;
     context2d := true;
     serial := 0 |}.

(** The detector's reply breaks off in the middle. *)
Definition malformed : script :=
  {| replies := [text "{'sideViewFound': tru"];
     turns := [];
     image := Loaded 2000 1000;
     context2d := true;
     serial := 0 |}.

(** The request of the draft fails. *)
Definition draft_fails : script :=
  {| replies := [CallFailed (ErrorObject PlainError (js "503 Service Unavailable"))];
     turns := [];
     image := Loaded 2000 1000;
     context2d := true;
     serial := 0 |}.

(** One reply, for a refinement. *)
Definition refines : script :=
  {| replies := [text "Done. <svg id='side'><g id='mast'/></svg>"];
     turns := [];
     image := Loaded 2000 1000;
     context2d := true;
     serial := 7 |}.

(** An image of 333 x 777, on which the box of the end-to-end scenario
    does not scale to whole numbers. *)
Definition odd_size : script :=
  {| replies := [];
     turns := [];
     image := Loaded 333 777;
     context2d := true;
     serial := 0 |}.

(** A crop, as [cropImage] makes them. *)
Definition crop : ImageData :=
  {| data := js "data:image/jpeg;base64,/9j/4AAQ"; mimeType := js "image/jpeg" |}.

Definition a_view (name : String.string) (v : ViewType) : GeneratedSvg.t :=
  {| GeneratedSvg.id := Some (js name);
     GeneratedSvg.content := js "<svg></svg>";
     GeneratedSvg.prompt := js "as drawn";
     GeneratedSvg.timestamp := 1767225600000%float;
     GeneratedSvg.auditReport := Some (js "Funnel rake is wrong.");
     GeneratedSvg.viewType := Some v |}.
Arguments a_view name%_string_scope v.

(** A project with both views, and the machine of a render that shows
    its [active] view after a success. *)
Definition a_project : WarshipProject.t :=
  {| WarshipProject.id := js "uuid-0";
     WarshipProject.sideView := Some (a_view "uuid-1" side);
     WarshipProject.topView := Some (a_view "uuid-2" top);
     WarshipProject.originalImage := upload |}.

Definition showing (active : ViewType) (w : script) : @Machine host :=
  @Build_Machine host w
    {| status := SUCCESS; project := Some a_project; activeView := active;
       error := None; pipelineStatus := [] |}
    [].

End Scripted.

(* ================================================================== *)
(** * Notions used in the statements *)

Section Notions.
Context {host : Host}.

(** The state after the effects of a stretch of trace. *)
Definition replay (l : list Entry) (st : AppState) : AppState :=
  fold_left (fun st e =>
               match e with
               | Performed o => apply_effect o st
               | Asked _ _ => st
               end) l st.

(** [m'] is [m] after the stretch of trace [l]. *)
Definition extends (m m' : Machine) (l : list Entry) : Prop :=
  log m' = log m ++ l /\ state m' = replay l (state m).

(** Every effect and every query of [p], whatever the answers, makes an
    entry that satisfies [P]. *)
Fixpoint emits {R} (P : Entry -> Prop) (p : Prog R) : Prop :=
  match p with
  | Ret _ | Throw _ => True
  | Do o k => P (Performed o) /\ emits P k
  | Ask q k => forall x, P (Asked q x) /\ emits P (k x)
  end.

(** The effects performed in a stretch of trace, in order. *)
Definition performed (l : list Entry) : list effect :=
  flat_map (fun e => match e with Performed o => [o] | Asked _ _ => [] end) l.

(** An entry that writes nothing but the pipeline status. *)
Definition status_only (e : Entry) : Prop :=
  match e with
  | Performed (SetPipelineStatus _) => True
  | Performed _ => False
  | Asked _ _ => True
  end.

(** Two states that differ at most in the pipeline status. *)
Definition same_but_pipelineStatus (a b : AppState) : Prop :=
  status a = status b /\ project a = project b
  /\ activeView a = activeView b /\ error a = error b.

(** The request carries, as its first part, inline data of type [mime]. *)
Definition sends_image_as (mime : jsstring) (req : Request) : Prop :=
  exists bytes rest, parts req = InlineData bytes mime :: rest.

End Notions.

Section JoinNotions.
Context {host : Host}.

(** Every value [p] can resolve to, whatever the answers, satisfies [Q]. *)
Fixpoint returns {R} (Q : R -> Prop) (p : Prog R) : Prop :=
  match p with
  | Ret r => Q r
  | Throw _ => True
  | Do _ k => returns Q k
  | Ask q k => forall x, returns Q (k x)
  end.

(** What a join of two tasks amounts to.  Up to [m0] only the tasks ran
    (the stretch [l1]); there [settle] ran, once, on [r]; after it only
    what was left of the tasks ran (the stretch [l2]).  [r] is the object
    as both tasks left it, and then both resolved and nothing was left
    to run; or it is what one of the tasks threw. *)
Definition joined (P : Entry -> Prop) (Qa Qb : Mutation -> Prop)
    (np : WarshipProject.t)
    (settle : Outcome WarshipProject.t -> Machine -> Machine)
    (m : Machine) (res : Outcome unit * Outcome unit * Machine) : Prop :=
  let '(ra, rb, m') := res in
  exists l1 r m0 l2,
    extends m m0 l1 /\ Forall P l1
    /\ extends (settle r m0) m' l2 /\ Forall P l2
    /\ match r with
       | Resolved np' =>
           ra = Resolved tt /\ rb = Resolved tt /\ l2 = []
           /\ exists f g, Qa f /\ Qb g /\ (np' = g (f np) \/ np' = f (g np))
       | Rejected e => ra = Rejected e \/ rb = Rejected e
       end.

End JoinNotions.

(** What a pipeline fed with an image of type [mime] may leave in the
    trace: a new pipeline status, a request that carries inline data of
    that type, a UUID or the time asked for. *)
Definition pipeline_entry (mime : jsstring) (e : Entry) : Prop :=
  match e with
  | Performed (SetPipelineStatus _) => True
  | Performed _ => False
  | Asked q _ =>
      match q with
      | GenerateContent req => sends_image_as mime req
      | RandomUUID | DateNow => True
      | _ => False
      end
  end.

(** What the detector, given [img], may leave in the trace: its one
    request, and what the cropper asks of the image and the canvas. *)
Definition detector_entry {host : Host} (img : ImageData) (e : Entry) : Prop :=
  match e with
  | Performed _ => False
  | Asked q _ =>
      match q with
      | GenerateContent req => req = detect_request img
      | _ => True
      end
  end.

(** An entry that is an effect performed. *)
Definition is_performed (e : Entry) : Prop :=
  match e with
  | Performed _ => True
  | Asked _ _ => False
  end.

(** The machine once [handleGenerate] has run its first three setters. *)
Definition begun {host : Host} (m : Machine) : Machine :=
  perform (SetError None)
    (perform (SetPipelineStatus (js "SCANNING_LAYOUT"))
       (perform (SetStatus SEGMENTING) m)).

(** [imageData || project?.originalImage] *)
Definition image_to_process (project : option WarshipProject.t)
    (imageData : option ImageData) : option ImageData :=
  match imageData with
  | Some i => Some i
  | None => option_map WarshipProject.originalImage project
  end.


(* ================================================================== *)
(** * Further notions *)

(** [a] is [b] with some units left out: the units of [a] occur in [b],
    in the order they have in [a]. *)
Fixpoint subsequence (a b : jsstring) : bool :=
  match a, b with
  | [], _ => true
  | _ :: _, [] => false
  | x :: a', y :: b' =>
      if jschar_eqb x y then subsequence a' b' else subsequence a b'
  end.

(** No unit of [s] is a comma. *)
Definition no_comma (s : jsstring) : bool :=
  forallb (fun c => negb (c =? 44)%N) s.

(** What [cropImage] rejects with when the canvas gives no context. *)
Definition no_context : Thrown :=
  ErrorObject PlainError (js "Could not get canvas context").

(** [result.found && result.box] is truthy. *)
Definition marked (found box : jsstring) (result : JSON.value) : bool :=
  JSON.truthy (JSON.member found result) && JSON.truthy (JSON.member box result).

(** A view as [handleGenerate] makes it for the slot of [viewType], from
    the result of a pipeline: it has an id, the prompt of the run, the
    type of its slot and an audit report that is not empty. *)
Definition view_ok (prompt : jsstring) (viewType : ViewType)
    (v : GeneratedSvg.t) : Prop :=
  GeneratedSvg.id v <> None
  /\ GeneratedSvg.prompt v = prompt
  /\ GeneratedSvg.viewType v = Some viewType
  /\ exists report,
       GeneratedSvg.auditReport v = Some report /\ nonempty report = true.

(** The tags the two pipelines of [handleGenerate] announce. *)
Definition stage_tags : list jsstring :=
  [stage_tag (js "DRAFTING_") side; stage_tag (js "AUDITING_") side;
   stage_tag (js "HEALING_") side;
   stage_tag (js "DRAFTING_") top; stage_tag (js "AUDITING_") top;
   stage_tag (js "HEALING_") top].

(** An entry that writes nothing but a stage tag into the pipeline
    status. *)
Definition tag_entry (e : Entry) : Prop :=
  match e with
  | Performed (SetPipelineStatus s) => In s stage_tags
  | Performed _ => False
  | Asked _ _ => True
  end.

(** A part that is text, not inline data. *)
Definition is_text (part : Part) : bool :=
  match part with
  | Text _ => true
  | InlineData _ _ => false
  end.

(** The requests to the model in a stretch of trace, in order. *)
Definition requests (l : list Entry) : list Request :=
  flat_map (fun e =>
              match e with
              | Asked q _ =>
                  match q with
                  | GenerateContent req => [req]
                  | _ => []
                  end
              | Performed _ => []
              end) l.

(* ================================================================== *)
(** * A session: the handlers called one after the other *)

(** What the user does: a submission of the input form
    ([InputSection]'s [onGenerate]), a submission of the refinement form
    ([SvgPreview]'s [onRefine]), a click on one of the two tabs. *)
Inductive Action :=
| Generate (prompt : jsstring) (imageData : option ImageData)
| Refine (prompt : jsstring)
| ShowView (v : ViewType).

(** The tabs of [App.tsx]:
    [{project.sideView && <button onClick={() => setActiveView('side')} ...>}]
    and [{project.topView && <button onClick={() => setActiveView('top')} ...>}],
    inside [{project && ...}]. *)
Definition tab_shown (v : ViewType) (st : AppState) : bool :=
  match project st, v with
  | Some p, side =>
      match WarshipProject.sideView p with Some _ => true | None => false end
  | Some p, top =>
      match WarshipProject.topView p with Some _ => true | None => false end
  | _, _ => false
  end.

Section Session.
Context {host : Host}.

(** One action, run to its end, from the render that shows the state of
    the machine: the handlers get the project and the view selected of
    that render. *)
Definition act (a : Action) (m : Machine) : Machine :=
  match a with
  | Generate prompt imageData =>
      handleGenerate (project (state m)) prompt imageData m
  | Refine prompt =>
      run (handleRefine (project (state m)) (activeView (state m)) prompt) m
  | ShowView v =>
      if tab_shown v (state m) then perform (SetActiveView v) m else m
  end.

(** A session: each action starts when the one before is over. *)
Definition session (actions : list Action) (m : Machine) : Machine :=
  fold_left (fun m a => act a m) actions m.

End Session.

(** A view that has an id, and the type of its slot. *)
Definition identified (viewType : ViewType) (g : GeneratedSvg.t) : Prop :=
  GeneratedSvg.id g <> None /\ GeneratedSvg.viewType g = Some viewType.

(** The state can be rendered: if there is a project, it has the view
    that is selected, and its views are identified. *)
Definition renderable (st : AppState) : Prop :=
  match project st with
  | None => True
  | Some p =>
      current_view (activeView st) p <> None
      /\ (forall g, WarshipProject.sideView p = Some g -> identified side g)
      /\ (forall g, WarshipProject.topView p = Some g -> identified top g)
  end.

(* ================================================================== *)
(** * What the components around the handlers compute *)

(** [s.includes(pat)] *)
Fixpoint includes (s pat : jsstring) : bool :=
  starts_with false pat s ||
  match s with
  | [] => false
  | _ :: s' => includes s' pat
  end.

(** [[
  const getStatusLabel = () => {
    if (status === GenerationStatus.SEGMENTING) return "TOOLING: Analyzing Layout & Cropping Views...";
    if (pipelineStatus.includes("DRAFTING")) return "ARCHITECT: Constructing Geometry...";
    if (pipelineStatus.includes("AUDITING")) return "ADVERSARY: Inspecting for Flaws...";
    if (pipelineStatus.includes("HEALING")) return "ARCHITECT: Performing Self-Correction...";
    return "Processing Neural Pipeline...";
  };
]] *)
Definition getStatusLabel (status : GenerationStatus) (pipelineStatus : jsstring)
    : jsstring :=
  match status with
  | SEGMENTING => js "TOOLING: Analyzing Layout & Cropping Views..."
  | _ =>
      if includes pipelineStatus (js "DRAFTING")
      then js "ARCHITECT: Constructing Geometry..."
      else if includes pipelineStatus (js "AUDITING")
      then js "ADVERSARY: Inspecting for Flaws..."
      else if includes pipelineStatus (js "HEALING")
      then js "ARCHITECT: Performing Self-Correction..."
      else js "Processing Neural Pipeline..."
  end.






(* ================================================================== *)
(** * Counting requests *)

(** A query that is a request to the model. *)
Definition is_request {X} (q : query X) : bool :=
  match q with
  | GenerateContent _ => true
  | _ => false
  end.

(** Whatever the answers, [p] makes at most [n] requests, and exactly
    [n] on every path on which it resolves. *)
Fixpoint asks {R} (n : nat) (p : Prog R) : Prop :=
  match p with
  | Ret _ => n = 0
  | Throw _ => True
  | Do _ k => asks n k
  | Ask q k =>
      if is_request q
      then match n with
           | O => False
           | S n' => forall x, asks n' (k x)
           end
      else forall x, asks n (k x)
  end.

(** How many pipelines a run of [handleGenerate] started. *)
Definition started (r : Report) : nat :=
  (match side_pipeline r with Some _ => 1 | None => 0 end)
  + (match top_pipeline r with Some _ => 1 | None => 0 end).

Section Counting.
Context {host : Host}.

(** From [m] to [m'] the trace grew by at most [n] requests, and by
    exactly [n] if [resolved] holds. *)
Definition counted (n : nat) (resolved : Prop) (m m' : Machine) : Prop :=
  exists l, log m' = log m ++ l
            /\ length (requests l) <= n
            /\ (resolved -> length (requests l) = n).

End Counting.

(* ================================================================== *)
(** * More scripted worlds *)

Module Scenes.
Import Scripted.

(** The detector's reply is the JSON [null]. *)
Definition null_reply : script :=
  {| replies := [text "null"];
     turns := [];
     image := Loaded 2000 1000;
     context2d := true;
     serial := 0 |}.

(** Both views found; the audit of the top view fails while the side
    pipeline still has its last stage to go. *)
Definition top_fails_early : script :=
  {| replies :=
       [both_boxes;
        text "<svg id='side-draft'></svg>";
        text "<svg id='top-draft'></svg>";
        CallFailed NonError;
        text "Funnel rake is wrong."];
     turns := [true; true; false; false; true];
     image := Loaded 2000 1000;
     context2d := true;
     serial := 0 |}.

(** The inspector has nothing to say: the reply of the audit is empty. *)
Definition silent_audit : script :=
  {| replies :=
       [text "<svg id='draft'></svg>";
        Response (Some []);
        text "<svg id='healed'></svg>"];
     turns := [];
     image := Loaded 2000 1000;
     context2d := true;
     serial := 0 |}.

(** A project with a top view only, and the machine of a render that
    has the side view selected all the same. *)
Definition top_only : WarshipProject.t :=
  {| WarshipProject.id := js "uuid-0";
     WarshipProject.sideView := None;
     WarshipProject.topView := Some (a_view "uuid-1" top);
     WarshipProject.originalImage := upload |}.

Definition astray (w : script) : @Machine host :=
  @Build_Machine host w
    {| status := SUCCESS; project := Some top_only; activeView := side;
       error := None; pipelineStatus := [] |}
    [].

(** A session: a drawing is submitted, the side view refined, the deck
    plan looked at and refined, the whole generated again from the stored
    image. *)
Definition afternoon : list Action :=
  [Generate (js "Refit of 1936.") (Some upload);
   Refine (js "Add the aft mast.");
   ShowView top;
   Refine (js "Show the planking.");
   ShowView isometric;
   Generate (js "As built.") None].

(** The host of that afternoon: both views found and drawn, the two
    refinements answered, both views found and drawn again. *)
Definition obliging : script :=
  {| replies :=
       replies both_views
       ++ [text "Done. <svg id='side'><g id='mast'/></svg>";
           text "<svg id='top'><g id='planks'/></svg>"]
       ++ replies both_views;
     turns := turns both_views ++ [true; true] ++ turns both_views;
     image := Loaded 2000 1000;
     context2d := true;
     serial := 0 |}.

End Scenes.

(** The effects performed in a stretch of trace, in order, those on the
    pipeline status left out. *)
Definition verdict_effects (l : list Entry) : list effect :=
  flat_map (fun e =>
              match e with
              | Performed (SetPipelineStatus _) => []
              | Performed o => [o]
              | Asked _ _ => []
              end) l.
(* ================================================================== *)
(** * Properties of [extractSvg] *)

Lemma rmatch_lit A ignoreCase pat s (k : jsstring -> option A) :
  rmatch (lit ignoreCase pat) s k =
  if starts_with ignoreCase pat s then k (skipn (length pat) s) else None.
Proof.
  revert s k; induction pat as [|p pat IH]; intros s k; simpl.
  - reflexivity.
  - destruct s as [|c s]; [reflexivity|].
    destruct (unit_is ignoreCase p c); simpl; [apply IH | reflexivity].
Qed.

Lemma rmatch_lazy_any A s (k : jsstring -> option A) :
  rmatch (LazyStar space_or_not) s k = first_accept k s.
Proof.
  induction s as [|c s IH]; simpl.
  - destruct (k []); reflexivity.
  - destruct (k (c :: s)); [reflexivity|].
    unfold space_or_not at 1. rewrite orb_negb_r. exact IH.
Qed.

Lemma first_accept_ext A (k k' : jsstring -> option A) s :
  (forall x, k x = k' x) -> first_accept k s = first_accept k' s.
Proof.
  intros E. induction s as [|c s IH]; simpl; rewrite E.
  - reflexivity.
  - destruct (k' (c :: s)); [reflexivity | exact IH].
Qed.

Lemma match_here_svg s :
  match_here svg_regex s =
  if starts_with true svg_open s
  then after_close (skipn (length svg_open) s) else None.
Proof.
  unfold match_here, svg_regex.
  change (rmatch (Seq ?a ?b) s ?k) with (rmatch a s (fun s' => rmatch b s' k)).
  rewrite rmatch_lit. destruct (starts_with true svg_open s); [|reflexivity].
  change (rmatch (Seq ?a ?b) ?x ?k) with (rmatch a x (fun s' => rmatch b s' k)).
  rewrite rmatch_lazy_any. unfold after_close.
  apply first_accept_ext. intros x. apply rmatch_lit.
Qed.

Lemma starts_with_length ignoreCase pat s :
  starts_with ignoreCase pat s = true -> length pat <= length s.
Proof.
  revert s; induction pat as [|p pat IH]; intros [|c s]; simpl; intros H;
    try discriminate H; try lia.
  apply andb_true_iff in H as [_ H]. apply IH in H. lia.
Qed.

Lemma starts_with_app ignoreCase pat s t :
  starts_with ignoreCase pat s = true ->
  starts_with ignoreCase pat (s ++ t) = true.
Proof.
  revert s; induction pat as [|p pat IH]; intros [|c s]; simpl; auto.
  - discriminate.
  - intros H. apply andb_true_iff in H as [H1 H2].
    rewrite H1. simpl. auto.
Qed.

Lemma matches_lit_inv ignoreCase pat s :
  matches_lit ignoreCase pat s = true ->
  starts_with ignoreCase pat s = true /\ length s = length pat.
Proof.
  unfold matches_lit. intros H. apply andb_true_iff in H as [H1 H2].
  split; [exact H1 | now apply Nat.eqb_eq].
Qed.

Lemma starts_with_split ignoreCase pat s :
  starts_with ignoreCase pat s = true ->
  matches_lit ignoreCase pat (firstn (length pat) s) = true.
Proof.
  intros H. unfold matches_lit.
  pose proof (starts_with_length _ _ _ H) as L.
  rewrite length_firstn, Nat.min_l, Nat.eqb_refl, andb_true_r by exact L.
  revert s H L; induction pat as [|p pat IH]; intros [|c s]; simpl; auto.
  intros H L. apply andb_true_iff in H as [H1 H2]. rewrite H1. simpl.
  apply IH; [exact H2 | lia].
Qed.

Lemma skipn_length_app A (a b : list A) : skipn (length a) (a ++ b) = b.
Proof. induction a; simpl; auto. Qed.

Lemma consumed_app (a b : jsstring) : consumed (a ++ b) b = a.
Proof.
  unfold consumed. rewrite length_app.
  replace (length a + length b - length b) with (length a) by lia.
  rewrite firstn_app, firstn_all, Nat.sub_diag. simpl. apply app_nil_r.
Qed.

(** Positions before the first one where [r] matches are passed over. *)
Lemma search_skip r pre s :
  (forall i, i < length pre -> match_here r (skipn i (pre ++ s)) = None) ->
  search r (pre ++ s) = search r s.
Proof.
  induction pre as [|c pre IH]; intros H; [reflexivity|].
  assert (H0 := H 0 ltac:(simpl; lia)). cbn [skipn app] in H0.
  cbn [app search]. rewrite H0.
  apply IH. intros i Hi. apply (H (S i)). simpl. lia.
Qed.

Lemma after_close_found body c post :
  matches_lit true svg_close c = true ->
  (forall j, j < length body ->
     starts_with true svg_close (skipn j (body ++ c ++ post)) = false) ->
  after_close (body ++ c ++ post) = Some post.
Proof.
  intros Hc. apply matches_lit_inv in Hc as [Hc Lc].
  induction body as [|x body IH]; intros H.
  - cbn [app]. unfold after_close.
    destruct (c ++ post) eqn:E;
      cbn [first_accept]; rewrite <- E;
      rewrite (starts_with_app _ _ _ post Hc), <- Lc, skipn_length_app;
      reflexivity.
  - assert (H0 := H 0 ltac:(simpl; lia)). cbn [skipn app] in H0.
    unfold after_close. cbn [app first_accept].
    rewrite H0. apply IH.
    intros j Hj. apply (H (S j)). simpl. lia.
Qed.

Lemma after_close_inv s rest :
  after_close s = Some rest ->
  exists body c, s = body ++ c ++ rest /\ matches_lit true svg_close c = true.
Proof.
  unfold after_close.
  induction s as [|x s IH]; cbn [first_accept].
  - destruct (starts_with true svg_close []) eqn:E; [|discriminate].
    discriminate E.
  - destruct (starts_with true svg_close (x :: s)) eqn:E.
    + intros [= <-]. exists [], (firstn (length svg_close) (x :: s)).
      split; [|now apply starts_with_split].
      cbn [app]. symmetry. apply firstn_skipn.
    + intros H. destruct (IH H) as (body & c & -> & Hc).
      exists (x :: body), c. split; [reflexivity | exact Hc].
Qed.

Lemma match_here_svg_inv s rest :
  match_here svg_regex s = Some rest ->
  exists m, s = m ++ rest /\ svg_delimited m = true.
Proof.
  rewrite match_here_svg.
  destruct (starts_with true svg_open s) eqn:Ho; [|discriminate].
  intros H. apply after_close_inv in H as (body & c & E & Hc).
  pose proof (starts_with_split _ _ _ Ho) as Hm.
  apply matches_lit_inv in Hm as [Hm Lm].
  pose proof (matches_lit_inv _ _ _ Hc) as [_ Lc].
  exists (firstn (length svg_open) s ++ body ++ c). split.
  - rewrite <- (firstn_skipn (length svg_open) s) at 1.
    rewrite E, <- !app_assoc. reflexivity.
  - unfold svg_delimited. rewrite (starts_with_app _ _ _ _ Hm). cbn [andb].
    rewrite app_assoc, length_app, Lc, Nat.add_sub.
    rewrite skipn_length_app. exact Hc.
Qed.

Lemma search_svg_inv s m :
  search svg_regex s = Some m ->
  exists pre rest, s = pre ++ m ++ rest /\ svg_delimited m = true.
Proof.
  induction s as [|c s IH]; cbn [search].
  - destruct (match_here svg_regex []) as [rest|] eqn:E; [|discriminate].
    rewrite match_here_svg in E. discriminate E.
  - destruct (match_here svg_regex (c :: s)) as [rest|] eqn:E.
    + intros [= <-]. apply match_here_svg_inv in E as (m & E & Hm).
      exists [], rest. rewrite E, consumed_app. split; [reflexivity | exact Hm].
    + intros H. destruct (IH H) as (pre & rest & -> & Hm).
      exists (c :: pre), rest. split; [reflexivity | exact Hm].
Qed.

(** A text in which [<svg] occurs nowhere has no match. *)
Lemma search_svg_none s :
  (forall i, starts_with true svg_open (skipn i s) = false) ->
  search svg_regex s = None.
Proof.
  induction s as [|c s IH]; intros H; cbn [search]; rewrite match_here_svg.
  - reflexivity.
  - assert (H0 := H 0). cbn [skipn] in H0. rewrite H0.
    apply IH. intros i. apply (H (S i)).
Qed.

Lemma match_here_fence s :
  match_here fence_regex s =
  if starts_with false fence s
  then Some (after_fence (skipn (length fence) s)) else None.
Proof.
  unfold match_here, fence_regex.
  change (rmatch (Seq ?a ?b) s ?k) with (rmatch a s (fun s' => rmatch b s' k)).
  rewrite rmatch_lit. destruct (starts_with false fence s); [|reflexivity].
  cbn [rmatch]. fold (lit false (js "xml")). fold (lit false (js "svg")).
  unfold after_fence.
  change (length fence) with 3.
  set (t := skipn 3 s).
  change (rmatch (lit false (js "xml")) t (fun rest => Some rest))
    with (match_here (lit false (js "xml")) t).
  change (rmatch (lit false (js "svg")) t (fun rest => Some rest))
    with (match_here (lit false (js "svg")) t).
  unfold match_here. rewrite !rmatch_lit.
  destruct (starts_with false (js "xml") t); [reflexivity|].
  destruct (starts_with false (js "svg") t); reflexivity.
Qed.

Lemma delete_from_skip r n s :
  delete_from r n s = delete_all r (skipn n s).
Proof.
  revert n; induction s as [|c s IH]; intros [|n]; try reflexivity.
  cbn [delete_from skipn]. apply IH.
Qed.

Lemma after_fence_skipn s :
  starts_with false fence s = true ->
  exists n, after_fence (skipn (length fence) s) = skipn (S n) s
            /\ S n <= length s.
Proof.
  intros H. apply starts_with_length in H. change (length fence) with 3 in *.
  unfold after_fence.
  assert (L : length (skipn 3 s) = length s - 3) by apply length_skipn.
  destruct (starts_with false (js "xml") (skipn 3 s)) eqn:E1.
  { apply starts_with_length in E1. change (length (js "xml")) with 3 in E1.
    exists 5. rewrite skipn_skipn. split; [reflexivity | lia]. }
  destruct (starts_with false (js "svg") (skipn 3 s)) eqn:E2.
  { apply starts_with_length in E2. change (length (js "svg")) with 3 in E2.
    exists 5. rewrite skipn_skipn. split; [reflexivity | lia]. }
  exists 2. split; [reflexivity | lia].
Qed.

(** One step of the global replacement: a fence at the head is dropped
    with its optional tag, any other unit is kept. *)
Lemma delete_all_fence_step s :
  delete_all fence_regex s =
  if starts_with false fence s
  then delete_all fence_regex (after_fence (skipn (length fence) s))
  else match s with
       | [] => []
       | c :: s' => c :: delete_all fence_regex s'
       end.
Proof.
  destruct s as [|c s]; [reflexivity|].
  unfold delete_all at 1. cbn [delete_from]. rewrite match_here_fence.
  destruct (starts_with false fence (c :: s)) eqn:E; [|reflexivity].
  destruct (after_fence_skipn _ E) as (n & -> & L).
  rewrite length_skipn.
  replace (length (c :: s) - (length (c :: s) - S n)) with (S n) by lia.
  cbn [skipn]. apply delete_from_skip.
Qed.

Ltac starts_with_hyp H :=
  cbn [starts_with] in H; rewrite ?andb_false_r, ?andb_true_r in H;
  try discriminate H.

Lemma delete_all_fence_head s :
  starts_with false [96%N] (delete_all fence_regex s) = true ->
  starts_with false [96%N] s = true.
Proof.
  intros H. rewrite delete_all_fence_step in H.
  destruct (starts_with false fence s) eqn:E.
  - change fence with [96; 96; 96]%N in E.
    destruct s as [|x s]; starts_with_hyp E. cbn [starts_with].
    apply andb_true_iff in E as [-> _]. reflexivity.
  - destruct s as [|x s]; [discriminate H | exact H].
Qed.

Lemma delete_all_fence_head2 s :
  starts_with false [96; 96]%N (delete_all fence_regex s) = true ->
  starts_with false [96; 96]%N s = true.
Proof.
  intros H. rewrite delete_all_fence_step in H.
  destruct (starts_with false fence s) eqn:E.
  - change fence with [96; 96; 96]%N in E.
    destruct s as [|x [|y s]]; starts_with_hyp E. cbn [starts_with].
    apply andb_true_iff in E as [-> E]. apply andb_true_iff in E as [-> _].
    reflexivity.
  - destruct s as [|x s]; [discriminate H|].
    cbn [starts_with] in H. apply andb_true_iff in H as [H1 H2].
    cbn [starts_with]. rewrite H1. cbn [andb].
    assert (H3 : starts_with false [96%N] (delete_all fence_regex s) = true).
    { destruct (delete_all fence_regex s); starts_with_hyp H2.
      cbn [starts_with]. rewrite andb_true_r. exact H2. }
    apply delete_all_fence_head in H3.
    destruct s; starts_with_hyp H3. cbn [starts_with].
    rewrite andb_true_r. exact H3.
Qed.

(** No run of three backticks survives the replacement. *)
Lemma delete_all_no_fence s : has_fence (delete_all fence_regex s) = false.
Proof.
  remember (length s) as n eqn:L. revert s L.
  induction n as [n IH] using lt_wf_ind. intros s ->.
  rewrite delete_all_fence_step.
  destruct (starts_with false fence s) eqn:E.
  - destruct (after_fence_skipn _ E) as (m & -> & Lm).
    apply (IH (length (skipn (S m) s))); [|reflexivity].
    rewrite length_skipn. lia.
  - destruct s as [|c s]; [reflexivity|].
    cbn [has_fence]. rewrite (IH (length s)) by (simpl; auto).
    rewrite orb_false_r.
    destruct (starts_with false fence (c :: delete_all fence_regex s)) eqn:F;
      [|reflexivity].
    exfalso. change fence with [96; 96; 96]%N in E, F.
    cbn [starts_with] in E, F.
    apply andb_true_iff in F as [F1 F2]. rewrite F1 in E. cbn [andb] in E.
    assert (F3 : starts_with false [96; 96]%N (delete_all fence_regex s) = true).
    { destruct (delete_all fence_regex s) as [|x [|y l]]; starts_with_hyp F2.
      cbn [starts_with]. rewrite andb_true_r. exact F2. }
    apply delete_all_fence_head2 in F3.
    destruct s as [|x [|y s]]; starts_with_hyp F3.
    starts_with_hyp E. congruence.
Qed.

Lemma occurs_before_false ignoreCase pat n s :
  occurs_before ignoreCase pat n s = false ->
  forall i, i < n -> starts_with ignoreCase pat (skipn i s) = false.
Proof.
  revert s; induction n as [|n IH]; intros s H i Hi; [lia|].
  cbn [occurs_before] in H. apply orb_false_iff in H as [H1 H2].
  destruct i as [|i]; [exact H1|].
  destruct s as [|c s]; [destruct pat; [discriminate H1 | reflexivity]|].
  cbn [skipn]. apply IH; [exact H2 | lia].
Qed.

Lemma has_fence_suffix a s : has_fence (a ++ s) = false -> has_fence s = false.
Proof.
  induction a as [|x a IH]; [auto|]. cbn [app has_fence].
  intros H. apply orb_false_iff in H as [_ H]. auto.
Qed.

Lemma has_fence_prefix s b : has_fence (s ++ b) = false -> has_fence s = false.
Proof.
  induction s as [|x s IH]; [reflexivity|]. cbn [app has_fence].
  intros H. apply orb_false_iff in H as [H1 H2]. rewrite (IH H2), orb_false_r.
  destruct (starts_with false fence (x :: s)) eqn:E; [|reflexivity].
  apply (starts_with_app _ _ _ b) in E. cbn [app] in E. congruence.
Qed.

Lemma trimStart_spec s :
  exists a, s = a ++ trimStart s /\ forallb is_space a = true
            /\ match trimStart s with [] => True | c :: _ => is_space c = false end.
Proof.
  induction s as [|c s IH]; [now exists []|].
  destruct IH as (a & E & Ha & Hh).
  cbn [trimStart]. destruct (is_space c) eqn:Hc.
  - exists (c :: a). cbn [app forallb]. rewrite Hc, Ha, <- E. auto.
  - exists []. cbn [app forallb]. auto.
Qed.

(** [trim] removes white space from both ends and nothing else. *)
Lemma trim_spec s :
  exists a b, s = a ++ trim s ++ b /\ forallb is_space a = true
              /\ forallb is_space b = true /\ trimmed (trim s) = true.
Proof.
  destruct (trimStart_spec s) as (a & E & Ha & Hh).
  destruct (trimStart_spec (rev (trimStart s))) as (b & E' & Hb & Hh').
  exists a, (rev b). unfold trim, trimEnd.
  assert (E2 : trimStart s = rev (trimStart (rev (trimStart s))) ++ rev b).
  { rewrite <- rev_app_distr, <- E', rev_involutive. reflexivity. }
  repeat split.
  - rewrite <- E2. exact E.
  - exact Ha.
  - rewrite forallb_forall in *. intros x Hx. apply Hb, in_rev. exact Hx.
  - unfold trimmed. rewrite rev_involutive.
    set (t := trimStart (rev (trimStart s))) in *.
    apply andb_true_iff. split.
    + destruct (rev t) as [|c r]; [reflexivity|].
      rewrite E2 in Hh. cbn [app] in Hh. now rewrite Hh.
    + destruct t; [reflexivity|]. now rewrite Hh'.
Qed.

Lemma search_here r s rest :
  match_here r s = Some rest -> search r s = Some (consumed s rest).
Proof. intros H. destruct s; cbn [search]; rewrite H; reflexivity. Qed.

(** The match is exactly an element [o ++ body ++ c] when no [<svg] starts
    before it and [</svg>] does not occur in it before its end. *)
Lemma search_svg_exact pre o body c post :
  matches_lit true svg_open o = true ->
  matches_lit true svg_close c = true ->
  occurs_before true svg_open (length pre) (pre ++ o ++ body ++ c ++ post) = false ->
  occurs_before true svg_close (length body) (body ++ c ++ post) = false ->
  search svg_regex (pre ++ o ++ body ++ c ++ post) = Some (o ++ body ++ c).
Proof.
  intros Ho Hc Hpre Hbody.
  rewrite search_skip.
  - apply matches_lit_inv in Ho as [Ho Lo].
    assert (M : match_here svg_regex (o ++ body ++ c ++ post) = Some post).
    { rewrite match_here_svg, (starts_with_app _ _ _ _ Ho), <- Lo.
      rewrite skipn_length_app. apply after_close_found; [exact Hc|].
      apply occurs_before_false. exact Hbody. }
    rewrite (search_here _ _ M). f_equal.
    rewrite !app_assoc, consumed_app, <- !app_assoc. reflexivity.
  - intros i Hi. rewrite match_here_svg.
    rewrite (@occurs_before_false _ _ _ _ Hpre i Hi). reflexivity.
Qed.

(** C1 (amended).  [extractSvg] returns the leftmost, shortest match of
    [<svg ... </svg>] (letter case ignored).  (1) For a text
    [pre ++ o ++ body ++ c ++ post], where [o] is [<svg] and [c] is
    [</svg>], it returns exactly the element [o ++ body ++ c] provided no
    [<svg] starts inside [pre] and no [</svg>] starts inside [body].
    (2) Whenever there is a match, the result is a part of the text that
    opens with [<svg] and closes with [</svg>].  (3) When there is no match
    (in particular when [<svg] occurs nowhere), the result is the text with
    every run of three backticks, and the [xml] or [svg] tag right after
    it, deleted, then trimmed of white space at both ends: no fence is
    left in it. *)
Theorem extractSvg_spec (text : jsstring) :
  (forall pre o body c post,
      text = pre ++ o ++ body ++ c ++ post ->
      matches_lit true svg_open o = true ->
      matches_lit true svg_close c = true ->
      occurs_before true svg_open (length pre) text = false ->
      occurs_before true svg_close (length body) (body ++ c ++ post) = false ->
      extractSvg text = o ++ body ++ c)
  /\ (forall m, search svg_regex text = Some m ->
        extractSvg text = m /\ svg_delimited m = true
        /\ exists pre post, text = pre ++ m ++ post)
  /\ (search svg_regex text = None ->
        extractSvg text = trim (delete_all fence_regex text)
        /\ has_fence (extractSvg text) = false
        /\ trimmed (extractSvg text) = true)
  /\ (occurs_before true svg_open (length text) text = false ->
        search svg_regex text = None).
Proof.
  split; [|split; [|split]].
  - intros pre o body c post -> Ho Hc Hpre Hbody. unfold extractSvg.
    now rewrite search_svg_exact.
  - intros m H. split; [unfold extractSvg; now rewrite H|].
    apply search_svg_inv in H as (pre & post & E & Hm). eauto.
  - intros H. unfold extractSvg. rewrite H.
    destruct (trim_spec (delete_all fence_regex text)) as (a & b & E & _ & _ & T).
    repeat split; [|exact T].
    pose proof (delete_all_no_fence text) as F.
    rewrite E in F. apply has_fence_suffix, has_fence_prefix in F. exact F.
  - intros H. apply search_svg_none. intros i.
    destruct (Nat.lt_ge_cases i (length text)) as [Hi|Hi].
    + now apply (@occurs_before_false _ _ _ _ H).
    + rewrite skipn_all2 by exact Hi. reflexivity.
Qed.

(** The element of a reply with commentary on both sides is extracted. *)
Lemma extractSvg_spec_witness :
  extractSvg (js "Here you go: <svg viewBox='0 0 9 9'><g id='hull'/></SVG> Enjoy!")
  = js "<svg viewBox='0 0 9 9'><g id='hull'/></SVG>".
Proof.
  apply (proj1 (extractSvg_spec _) (js "Here you go: ") (js "<svg")
           (js " viewBox='0 0 9 9'><g id='hull'/>") (js "</SVG>") (js " Enjoy!"));
    reflexivity.
Defined.

(** C1 as stated fails: the element of the reply is not what is returned
    when the commentary before it mentions [<svg], nor when the element
    contains another [svg] element. *)
Lemma extractSvg_counterexample :
  (svg_delimited (js "<svg id='a'></svg>") = true
   /\ extractSvg (js "Use an <svg> tag: " ++ js "<svg id='a'></svg>" ++ js " Done.")
      = js "<svg> tag: <svg id='a'></svg>"
   /\ extractSvg (js "Use an <svg> tag: " ++ js "<svg id='a'></svg>" ++ js " Done.")
      <> js "<svg id='a'></svg>")
  /\ (extractSvg (js "<svg><svg></svg></svg>") = js "<svg><svg></svg>")
  /\ ~ (forall pre s post,
          svg_delimited s = true -> extractSvg (pre ++ s ++ post) = s).
Proof.
  split; [|split].
  - vm_compute. repeat split. discriminate.
  - vm_compute. reflexivity.
  - intros H.
    specialize (H (js "Use an <svg> tag: ") (js "<svg id='a'></svg>") []
                  eq_refl).
    vm_compute in H. discriminate H.
Qed.

(* ================================================================== *)
(** * Running programs: general facts *)

Section RunningFacts.
Context {host : Host}.

Lemma exec_bind A B (p : Prog A) (f : A -> Prog B) m :
  exec (bind p f) m =
  match exec p m with
  | (Resolved a, m') => exec (f a) m'
  | (Rejected e, m') => (Rejected e, m')
  end.
Proof.
  revert m; induction p as [a|e|o k IH|X q k IH]; intros m; cbn [bind exec].
  - reflexivity.
  - reflexivity.
  - apply IH.
  - destruct (answer q m) as [x m']. apply IH.
Qed.

Lemma exec_try_catch A (p : Prog A) (h : Thrown -> Prog A) m :
  exec (try_catch p h) m =
  match exec p m with
  | (Resolved a, m') => (Resolved a, m')
  | (Rejected e, m') => exec (h e) m'
  end.
Proof.
  revert m; induction p as [a|e|o k IH|X q k IH]; intros m;
    cbn [try_catch exec].
  - reflexivity.
  - reflexivity.
  - apply IH.
  - destruct (answer q m) as [x m']. apply IH.
Qed.

Lemma exec_ask R X (q : query X) (k : X -> Prog R) m :
  exec (Ask q k) m =
  exec (k (fst (respond q (world m))))
       {| world := snd (respond q (world m)); state := state m;
          log := log m ++ [Asked q (fst (respond q (world m)))] |}.
Proof.
  cbn [exec]. unfold answer. destruct (respond q (world m)). reflexivity.
Qed.

Lemma replay_app l1 l2 st : replay (l1 ++ l2) st = replay l2 (replay l1 st).
Proof. apply fold_left_app. Qed.

Lemma extends_refl m : extends m m [].
Proof. split; [now rewrite app_nil_r | reflexivity]. Qed.

Lemma extends_trans m1 m2 m3 l1 l2 :
  extends m1 m2 l1 -> extends m2 m3 l2 -> extends m1 m3 (l1 ++ l2).
Proof.
  intros [L1 S1] [L2 S2]. split.
  - now rewrite L2, L1, app_assoc.
  - now rewrite replay_app, S2, S1.
Qed.

Lemma perform_extends o m : extends m (perform o m) [Performed o].
Proof. split; reflexivity. Qed.

Lemma answer_extends X (q : query X) m :
  extends m (snd (answer q m)) [Asked q (fst (answer q m))].
Proof.
  unfold answer. destruct (respond q (world m)) as [x w]. split; reflexivity.
Qed.

(** A run appends to the trace entries that the program emits, and
    leaves the state their effects give. *)
Lemma exec_extends R (P : Entry -> Prop) (p : Prog R) m :
  emits P p ->
  exists l, extends m (snd (exec p m)) l /\ Forall P l.
Proof.
  revert m; induction p as [a|e|o k IH|X q k IH]; intros m E; cbn [exec].
  - exists []. split; [apply extends_refl | constructor].
  - exists []. split; [apply extends_refl | constructor].
  - destruct E as [Po E]. destruct (IH (perform o m) E) as (l & Hl & Fl).
    exists (Performed o :: l). split.
    + apply (extends_trans (perform_extends o m) Hl).
    + constructor; assumption.
  - pose proof (answer_extends q m) as Ha.
    destruct (answer q m) as [x m1]. cbn [fst snd] in Ha.
    destruct (E x) as [Pq Ex]. destruct (IH x m1 Ex) as (l & Hl & Fl).
    exists (Asked q x :: l). split.
    + apply (extends_trans Ha Hl).
    + constructor; assumption.
Qed.

Lemma emits_bind A B (P : Entry -> Prop) (p : Prog A) (f : A -> Prog B) :
  emits P p -> (forall a, emits P (f a)) -> emits P (bind p f).
Proof.
  intros Hp Hf. induction p as [a|e|o k IH|X q k IH]; cbn [bind emits] in *.
  - apply Hf.
  - exact I.
  - destruct Hp. split; auto.
  - intros x. destruct (Hp x). split; auto.
Qed.

Lemma emits_weaken R (P Q : Entry -> Prop) (p : Prog R) :
  (forall e, P e -> Q e) -> emits P p -> emits Q p.
Proof.
  intros PQ. induction p as [a|e|o k IH|X q k IH]; cbn [emits]; auto.
  - intros [Ho Hk]. split; auto.
  - intros H x. destruct (H x). split; auto.
Qed.

Lemma replay_status_only l st :
  Forall status_only l -> same_but_pipelineStatus st (replay l st).
Proof.
  intros F. revert st. induction F as [|e l He F IH]; intros st.
  - repeat split.
  - cbn [replay fold_left]. fold (replay l).
    destruct e as [o|X q x].
    + destruct o; try contradiction He.
      destruct (IH (apply_effect (SetPipelineStatus s) st)) as (A & B & C & D).
      repeat split; assumption.
    + apply IH.
Qed.

End RunningFacts.

(* ================================================================== *)
(** * The cropper *)

Section CropFacts.
Context {host : Host}.
Local Open Scope float_scope.

(** The integer part is the one of the exact value: for a positive
    number [m * 2^e] with a fraction ([e < 0]) it is the [n] with
    [n * 2^(-e) <= m < (n + 1) * 2^(-e)]. *)
Lemma IntegerPart_floor (x : float) (m : positive) (e : Z) :
  Prim2SF x = S754_finite false m e -> (e < 0)%Z ->
  exists n, Canvas.IntegerPart x = Some n
    /\ (n * 2 ^ (- e) <= Z.pos m < (n + 1) * 2 ^ (- e))%Z.
Proof.
  intros E He. unfold Canvas.IntegerPart. rewrite E. cbv zeta.
  eexists. split; [reflexivity|].
  rewrite Z.shiftl_div_pow2 by lia.
  assert (P : (0 < 2 ^ (- e))%Z) by (apply Z.pow_pos_nonneg; lia).
  pose proof (Z.mul_div_le (Z.pos m) _ P).
  pose proof (Z.mul_succ_div_gt (Z.pos m) _ P). lia.
Qed.

(** Reading an attribute gives the integer part of the number assigned,
    when that is one of the sizes the attribute can hold. *)
Lemma reflected_integer_part (default : Z) (x : float) (n : Z) :
  Canvas.IntegerPart x = Some n -> (0 <= n <= 2147483647)%Z ->
  Canvas.reflected default x = n.
Proof.
  intros E R. unfold Canvas.reflected, Canvas.unsigned_long. rewrite E.
  cbv zeta. rewrite Z.mod_small by lia.
  destruct (Z.leb_spec n 2147483647); [reflexivity | lia].
Qed.

(** C2.  [cropImage] rejects exactly when the source image fails to load
    or the canvas gives no drawing context.  Otherwise, for an image of
    natural size [W] x [H] and any box (in particular one with
    [xmin < xmax] and [ymin < ymax] within 0..1000), it resolves to the
    JPEG encoding of a canvas to whose width it assigned
    [(xmax - xmin) / 1000 * W + 40] and to whose height
    [(ymax - ymin) / 1000 * H + 40].  The canvas keeps of each the
    unsigned long it converts to: the integer part, whenever that lies
    within 0..2147483647.  The canvas is first filled in white over the
    size it kept, and the box is then drawn on it at (20, 20) in its
    scaled size, fractions included: 20 units of padding on each side,
    less the fraction dropped on the right and at the bottom. *)
Theorem cropImage_spec (base64Data : jsstring) (box : BoundingBox) (m : Machine) :
  let result := fst (exec (cropImage base64Data box) m) in
  let '(img, w1) := respond (LoadImage base64Data) (world m) in
  let '(ctx, w2) := respond GetContext2d w1 in
  ((exists e, result = Rejected e) <->
   (img = LoadFailed \/ ctx = false))
  /\ match img with
     | LoadFailed => result = Rejected NonError
     | Loaded W H =>
         if ctx then
           exists canvas,
             result =
               Resolved
                 {| data := fst (respond (ToDataURL canvas (js "image/jpeg") 0.95) w2);
                    mimeType := js "image/jpeg" |}
             /\ Canvas.width canvas = (xmax box - xmin box) / 1000 * W + 40
             /\ Canvas.height canvas = (ymax box - ymin box) / 1000 * H + 40
             /\ (forall n, Canvas.IntegerPart (Canvas.width canvas) = Some n ->
                   (0 <= n <= 2147483647)%Z ->
                   Canvas.get_width canvas = Canvas.number n)
             /\ (forall n, Canvas.IntegerPart (Canvas.height canvas) = Some n ->
                   (0 <= n <= 2147483647)%Z ->
                   Canvas.get_height canvas = Canvas.number n)
             /\ Canvas.drawn canvas =
                  [FillRect (js "#FFFFFF") 0 0
                     (Canvas.get_width canvas) (Canvas.get_height canvas);
                   DrawImage base64Data
                     (xmin box / 1000 * W) (ymin box / 1000 * H)
                     ((xmax box - xmin box) / 1000 * W)
                     ((ymax box - ymin box) / 1000 * H)
                     20 20
                     ((xmax box - xmin box) / 1000 * W)
                     ((ymax box - ymin box) / 1000 * H)]
         else
           result =
             Rejected (ErrorObject PlainError (js "Could not get canvas context"))
     end.
Proof.
  unfold cropImage. rewrite exec_ask.
  destruct (respond (LoadImage base64Data) (world m)) as [img w1].
  cbn [fst snd].
  destruct (respond GetContext2d w1) as [ctx w2] eqn:Ectx.
  destruct img as [W H|].
  - rewrite exec_ask. cbn [world]. rewrite Ectx. cbn [fst snd].
    destruct ctx; cbn [negb].
    + rewrite exec_ask. cbn [exec fst]. split.
      * split; [intros [e He]; discriminate He | intros [H0|H0]; discriminate H0].
      * eexists. split; [reflexivity|].
        split; [reflexivity|]. split; [reflexivity|].
        split; [|split; [|reflexivity]]; intros n E R;
          unfold Canvas.get_width, Canvas.get_height;
          rewrite (reflected_integer_part _ _ E R); reflexivity.
    + cbn [exec fst]. split; [|reflexivity].
      split; [intros _; now right | intros _; eexists; reflexivity].
  - cbn [exec fst]. split; [|reflexivity].
    split; [intros _; now left | intros _; eexists; reflexivity].
Qed.


End CropFacts.

(* ================================================================== *)
(** * The pipeline of one view *)

Section PipelineFacts.
Context {host : Host}.

Lemma exec_do R o (k : Prog R) m : exec (Do o k) m = exec k (perform o m).
Proof. reflexivity. Qed.

Ltac run_step :=
  first [ rewrite exec_do | rewrite exec_ask ]; cbn [fst snd world].

Ltac close_extends :=
  split;
  [ cbn [perform log state world]; rewrite <- ?app_assoc; reflexivity
  | reflexivity ].

(** C8 (amended).  A run of [runViewPipeline] that resolves has invoked
    the status callback exactly three times, with [DRAFTING_V],
    [AUDITING_V] and [HEALING_V] in this order ([V] the view type in
    upper case), each invocation immediately before the model call of its
    stage; these invocations and the three calls are all the run did, and
    the application state is what the callbacks made it.  A run that
    rejects stopped at the stage whose call failed (or whose reply had no
    text to extract from): it invoked the callback once, twice or three
    times, in the same order, and nothing after the failed call. *)
Theorem runViewPipeline_stages (prompt : jsstring) (img : ImageData)
    (v : ViewType) (cb : jsstring -> effect) (m : Machine) :
  let tag stage := Performed (cb (stage_tag stage v)) in
  let draft := GenerateContent (draft_request prompt img v) in
  let audit t1 := GenerateContent (audit_request img (extractSvg t1)) in
  let heal t1 t2 :=
    GenerateContent
      (heal_request img (extractSvg t1)
         (or_default t2 (js "No major issues found."))) in
  let '(result, m') := exec (runViewPipeline prompt img v cb) m in
  exists l, extends m m' l /\
    match result with
    | Resolved res =>
        exists t1 t2 t3,
          l = [tag (js "DRAFTING_"); Asked draft (Response (Some t1));
               tag (js "AUDITING_"); Asked (audit t1) (Response t2);
               tag (js "HEALING_"); Asked (heal t1 t2) (Response (Some t3))]
          /\ res = {| content := extractSvg t3;
                      auditReport := or_default t2 (js "No major issues found.") |}
    | Rejected e =>
        (exists r1, l = [tag (js "DRAFTING_"); Asked draft r1])
        \/ (exists t1 r2,
              l = [tag (js "DRAFTING_"); Asked draft (Response (Some t1));
                   tag (js "AUDITING_"); Asked (audit t1) r2])
        \/ (exists t1 t2 r3,
              l = [tag (js "DRAFTING_"); Asked draft (Response (Some t1));
                   tag (js "AUDITING_"); Asked (audit t1) (Response t2);
                   tag (js "HEALING_"); Asked (heal t1 t2) r3])
    end.
Proof.
  cbv zeta.
  unfold runViewPipeline, generateDraft, auditDraft, healDraft,
    generateContent, extractSvg_text, effect_.
  cbn [bind]. run_step. run_step. cbn [perform world].
  destruct (respond (GenerateContent (draft_request prompt img v)) (world m))
    as [[e1|[t1|]] w1]; cbn [fst snd bind].
  - cbn [exec]. eexists. split; [close_extends|]. left. eexists. reflexivity.
  - run_step. run_step. cbn [perform world].
    destruct (respond (GenerateContent (audit_request img (extractSvg t1))) w1)
      as [[e2|t2] w2]; cbn [fst snd bind].
    + cbn [exec]. eexists. split; [close_extends|].
      right. left. do 2 eexists. reflexivity.
    + run_step. run_step. cbn [perform world].
      match goal with
      | |- context [respond ?q w2] => destruct (respond q w2) as [[e3|[t3|]] w3]
      end; cbn [fst snd bind exec].
      * eexists. split; [close_extends|]. right. right. do 3 eexists. reflexivity.
      * eexists. split; [close_extends|]. do 3 eexists. split; reflexivity.
      * eexists. split; [close_extends|]. right. right. do 3 eexists. reflexivity.
  - cbn [exec]. eexists. split; [close_extends|]. left. eexists. reflexivity.
Qed.
End PipelineFacts.
(* ================================================================== *)
(** * The view detector *)

Section DetectFacts.
Context {host : Host}.

(** C3 (amended).  When the text of the detector's reply is not JSON,
    [JSON.parse] throws and [detectAndCropViews] rejects with that
    [SyntaxError], having asked for nothing but the reply.  The empty
    object stands in only for a reply without text (absent or empty);
    then, and whenever the decoded object has neither a truthy
    [sideViewFound] nor a truthy [topViewFound] (an absent field is
    not truthy), the result has neither a side nor a top crop. *)
Theorem detectAndCropViews_decoding (img : ImageData) (m : Machine)
    (text : option jsstring) (w1 : World) :
  respond (GenerateContent (detect_request img)) (world m) = (Response text, w1) ->
  let source := or_default text (js "{}") in
  let result := fst (exec (detectAndCropViews img) m) in
  let m' := snd (exec (detectAndCropViews img) m) in
  (JSON.parse source = None ->
     result = Rejected (ErrorObject SyntaxError (engineMessage (BadJSON source)))
     /\ log m' = log m ++ [Asked (GenerateContent (detect_request img))
                              (Response text)])
  /\ (text = None \/ text = Some [] ->
        result = Resolved {| crop_side := None; crop_top := None |})
  /\ (forall ms,
        JSON.parse source = Some (JSON.Object ms) ->
        JSON.truthy (JSON.lookup (js "sideViewFound") ms) = false ->
        JSON.truthy (JSON.lookup (js "topViewFound") ms) = false ->
        result = Resolved {| crop_side := None; crop_top := None |}).
Proof.
  intros R. cbv zeta.
  unfold detectAndCropViews, generateContent. cbn [bind]. rewrite exec_ask.
  rewrite R. cbn [fst snd bind].
  assert (Hobj : forall ms mm,
    JSON.truthy (JSON.lookup (js "sideViewFound") ms) = false ->
    JSON.truthy (JSON.lookup (js "topViewFound") ms) = false ->
    fst (exec
      (sideBox <- found_box (js "sideViewFound") (js "sideViewBox") (JSON.Object ms);;
       cropped_side <-
         match sideBox with
         | Some box => c <- cropImage (data img) (asBoundingBox box);; Ret (Some c)
         | None => Ret None
         end;;
       topBox <- found_box (js "topViewFound") (js "topViewBox") (JSON.Object ms);;
       cropped_top <-
         match topBox with
         | Some box => c <- cropImage (data img) (asBoundingBox box);; Ret (Some c)
         | None => Ret None
         end;;
       Ret {| crop_side := cropped_side; crop_top := cropped_top |})%prog mm)
    = Resolved {| crop_side := None; crop_top := None |}).
  { intros ms mm Hs Ht. unfold found_box, read. cbn [bind JSON.member].
    rewrite Hs. cbn [bind]. rewrite Ht. reflexivity. }
  destruct (JSON.parse (or_default text (js "{}"))) as [decoded|] eqn:P.
  - split; [discriminate|]. split.
    + intros Ht.
      assert (P1 : decoded = JSON.Object []).
      { destruct Ht as [-> | ->]; cbn [or_default nonempty] in P;
          vm_compute in P; congruence. }
      subst decoded. apply Hobj; reflexivity.
    + intros ms [= ->] Hs Ht. apply Hobj; assumption.
  - cbn [exec fst snd log]. split; [split; reflexivity|]. split.
    + intros [-> | ->]; cbn [or_default nonempty] in P; vm_compute in P;
        discriminate P.
    + intros ms [=].
Qed.

End DetectFacts.

(* ================================================================== *)
(** * The join of two pipelines *)

Section JoinFacts.
Context {host : Host}.

Lemma exec_returns R (Q : R -> Prop) (p : Prog R) m x m' :
  returns Q p -> exec p m = (Resolved x, m') -> Q x.
Proof.
  revert m; induction p as [a|e|o k IH|X q k IH]; intros m H; cbn [exec].
  - intros [= <- _]. exact H.
  - discriminate.
  - apply IH. exact H.
  - destruct (answer q m) as [y m1]. apply (IH y). apply H.
Qed.

Lemma returns_bind A B (Q : B -> Prop) (p : Prog A) (f : A -> Prog B) :
  (forall a, returns Q (f a)) -> returns Q (bind p f).
Proof.
  intros Hf. induction p as [a|e|o k IH|X q k IH]; cbn [bind returns]; auto.
Qed.

(** The equation of [join_all] when the first task waits. *)
Lemma join_all_waiting X (qa : query X) ka b np settle m :
  is_await qa = true ->
  join_all (Ask qa ka) b np settle m =
  match b with
  | Do o kb => join_all (Ask qa ka) kb np settle (perform o m)
  | Ret g =>
      let (ra, m') := join_last (Ask qa ka) (g np) settle m in
      (ra, Resolved tt, m')
  | Throw e =>
      let (ra, m') := straggle (Ask qa ka) (settle (Rejected e) m) in
      (ra, Rejected e, m')
  | Ask qb kb =>
      if negb (is_await qb) then
        let (x, m') := answer qb m in join_all (Ask qa ka) (kb x) np settle m'
      else if sideFirst (world m) then
        let (x, m') := answer qa m in join_all (ka x) (Ask qb kb) np settle m'
      else
        let (x, m') := answer qb m in join_all (Ask qa ka) (kb x) np settle m'
  end.
Proof.
  intros H. destruct b; cbn [join_all]; rewrite H; reflexivity.
Qed.

Lemma joined_prepend P Qa Qb np settle m m1 l res :
  extends m m1 l -> Forall P l ->
  joined P Qa Qb np settle m1 res -> joined P Qa Qb np settle m res.
Proof.
  intros E F. destruct res as [[ra rb] m'].
  intros (l1 & r & m0 & l2 & E1 & F1 & E2 & F2 & Hr).
  exists (l ++ l1), r, m0, l2. repeat split; try assumption.
  - apply (extends_trans E E1).
  - apply (extends_trans E E1).
  - apply Forall_app. split; assumption.
  - apply E2.
  - apply E2.
Qed.

(** The first task is done and left [f]; the second runs to its end. *)
Lemma join_last_second P Qa Qb f b np settle m :
  Qa f -> emits P b -> returns Qb b ->
  joined P Qa Qb np settle m
    (let (rb, m') := join_last b (f np) settle m in (Resolved tt, rb, m')).
Proof.
  intros Hf Eb Rb. unfold join_last.
  destruct (exec_extends P b m Eb) as (l & El & Fl).
  destruct (exec b m) as [[g|e] m0] eqn:E; cbn [snd] in El.
  - exists l, (Resolved (g (f np))), m0, []. repeat split; try apply El; auto.
    + now rewrite app_nil_r.
    + exists f, g. repeat split; auto. apply (exec_returns _ _ _ Rb E).
  - exists l, (Rejected e), m0, []. repeat split; try apply El; auto.
    now rewrite app_nil_r.
Qed.

(** The second task is done and left [g]; the first runs to its end. *)
Lemma join_last_first P Qa Qb a g np settle m :
  Qb g -> emits P a -> returns Qa a ->
  joined P Qa Qb np settle m
    (let (ra, m') := join_last a (g np) settle m in (ra, Resolved tt, m')).
Proof.
  intros Hg Ea Ra. unfold join_last.
  destruct (exec_extends P a m Ea) as (l & El & Fl).
  destruct (exec a m) as [[f|e] m0] eqn:E; cbn [snd] in El.
  - exists l, (Resolved (f (g np))), m0, []. repeat split; try apply El; auto.
    + now rewrite app_nil_r.
    + exists f, g. repeat split; auto. apply (exec_returns _ _ _ Ra E).
  - exists l, (Rejected e), m0, []. repeat split; try apply El; auto.
    now rewrite app_nil_r.
Qed.

(** One task threw [e]: the join settles at once, the other task runs on. *)
Lemma straggle_joined P Qa Qb (first : bool) e t np settle m :
  emits P t ->
  joined P Qa Qb np settle m
    (let (r, m') := straggle t (settle (Rejected e) m) in
     if first then (Rejected e, r, m') else (r, Rejected e, m')).
Proof.
  intros Et. unfold straggle.
  destruct (exec_extends P t (settle (Rejected e) m) Et) as (l & El & Fl).
  destruct (exec t (settle (Rejected e) m)) as [r m']. cbn [snd] in El.
  destruct first;
    (exists [], (Rejected e), m, l; repeat split; try apply El; auto;
     now rewrite app_nil_r).
Qed.

(** A join of two tasks is [joined], whichever way the host interleaves
    them. *)
Lemma join_all_joined P Qa Qb a :
  emits P a -> returns Qa a ->
  forall b np settle m,
    emits P b -> returns Qb b ->
    joined P Qa Qb np settle m (join_all a b np settle m).
Proof.
  induction a as [f|e|o ka IH|X qa ka IH]; intros Ea Ra b np settle m Eb Rb.
  - cbn [join_all]. apply join_last_second; assumption.
  - cbn [join_all]. apply (straggle_joined P Qa Qb true); assumption.
  - cbn [join_all]. destruct Ea as [Po Ea].
    eapply joined_prepend; [apply (perform_extends o m) | constructor; [assumption|constructor] |].
    apply IH; assumption.
  - destruct (is_await qa) eqn:W.
    2: { cbn [join_all]. rewrite W. cbn [negb].
         pose proof (answer_extends qa m) as Hx.
         destruct (answer qa m) as [x m1]. cbn [fst snd] in Hx.
         eapply joined_prepend; [exact Hx | constructor; [apply Ea|constructor] |].
         apply IH; [apply Ea | apply Ra | assumption | assumption]. }
    revert np m Eb Rb.
    induction b as [g|e|o kb IHb|Y qb kb IHb]; intros np m Eb Rb;
      rewrite join_all_waiting by exact W.
    + apply join_last_first; assumption.
    + apply (straggle_joined P Qa Qb false); assumption.
    + destruct Eb as [Po Eb].
      eapply joined_prepend; [apply (perform_extends o m) | constructor; [assumption|constructor] |].
      apply IHb; assumption.
    + destruct (negb (is_await qb)).
      * pose proof (answer_extends qb m) as Hx.
        destruct (answer qb m) as [x m1]. cbn [fst snd] in Hx.
        eapply joined_prepend; [exact Hx | constructor; [apply Eb|constructor] |].
        apply IHb; [apply Eb | apply Rb].
      * destruct (sideFirst (world m)).
        -- pose proof (answer_extends qa m) as Hx.
           destruct (answer qa m) as [x m1]. cbn [fst snd] in Hx.
           eapply joined_prepend; [exact Hx | constructor; [apply Ea|constructor] |].
           apply IH; [apply Ea | apply Ra | assumption | assumption].
        -- pose proof (answer_extends qb m) as Hx.
           destruct (answer qb m) as [x m1]. cbn [fst snd] in Hx.
           eapply joined_prepend; [exact Hx | constructor; [apply Eb|constructor] |].
           apply IHb; [apply Eb | apply Rb].
Qed.

End JoinFacts.


(* ================================================================== *)
(** * [handleGenerate] *)

Section GenerateFacts.
Context {host : Host}.

Lemma emits_any R (p : Prog R) : emits (fun _ => True) p.
Proof. induction p; cbn [emits]; auto. Qed.


Lemma replay_asked img l st :
  Forall (detector_entry img) l -> replay l st = st.
Proof.
  induction 1 as [|e l He F IH]; [reflexivity|].
  destruct e; [contradiction He|]. exact IH.
Qed.

Lemma found_box_pure found box v :
  (exists e, found_box found box v = Throw e)
  \/ (exists x, found_box found box v = Ret x).
Proof.
  unfold found_box, read. destruct v; cbn [bind]; eauto;
    match goal with
    | |- context [if ?c then _ else _] => destruct c; cbn [bind]; eauto
    end.
Qed.

Lemma cropImage_asks img base64Data box :
  emits (detector_entry img) (cropImage base64Data box).
Proof.
  unfold cropImage. cbn [emits]. intros [W H|]; (split; [exact I|]);
    cbn [emits]; [|exact I].
  intros [|]; (split; [exact I|]); cbn [negb emits]; [|exact I].
  intros url. split; exact I.
Qed.

(** The detector asks and performs nothing. *)
Lemma detectAndCropViews_asks img :
  emits (detector_entry img) (detectAndCropViews img).
Proof.
  assert (C : forall (b : option JSON.value),
             emits (detector_entry img)
               (match b with
                | Some box =>
                    bind (cropImage (data img) (asBoundingBox box))
                      (fun c => Ret (Some c))
                | None => Ret None
                end)).
  { intros [box|]; [|exact I].
    apply emits_bind; [apply cropImage_asks | intros; exact I]. }
  unfold detectAndCropViews. apply emits_bind.
  { unfold generateContent. cbn [emits]. intros [e|text]; split;
      first [exact I | reflexivity]. }
  intros text. cbv zeta. destruct (JSON.parse _) as [result|]; [|exact I].
  destruct (found_box_pure (js "sideViewFound") (js "sideViewBox") result)
    as [[e ->]|[x ->]]; cbn [bind]; [exact I|].
  apply emits_bind; [apply C|]. intros cs.
  destruct (found_box_pure (js "topViewFound") (js "topViewBox") result)
    as [[e ->]|[y ->]]; cbn [bind]; [exact I|].
  apply emits_bind; [apply C|]. intros ct. exact I.
Qed.

Lemma detectAndCropViews_state img m :
  state (snd (exec (detectAndCropViews img) m)) = state m.
Proof.
  destruct (exec_extends _ _ m (detectAndCropViews_asks img)) as (l & [_ E] & F).
  rewrite E. eapply replay_asked. exact F.
Qed.


Lemma pipeline_entry_status_only mime e : pipeline_entry mime e -> status_only e.
Proof. destruct e as [o|X q x]; cbn; [destruct o|]; auto. Qed.

Lemma runViewPipeline_emits prompt img v :
  emits (pipeline_entry (mimeType img))
    (runViewPipeline prompt img v SetPipelineStatus).
Proof.
  unfold runViewPipeline, generateDraft, auditDraft, healDraft,
    generateContent, extractSvg_text, effect_.
  cbn [bind emits]. split; [exact I|].
  intros [e1|[t1|]]; (split; [eexists _, _; reflexivity|]); cbn [bind emits];
    try exact I.
  split; [exact I|].
  intros [e2|t2]; (split; [eexists _, _; reflexivity|]); cbn [bind emits];
    try exact I.
  split; [exact I|].
  intros [e3|[t3|]]; (split; [eexists _, _; reflexivity|]); cbn [bind emits];
    exact I.
Qed.

Lemma new_view_emits mime res prompt v (k : GeneratedSvg.t -> Mutation) :
  emits (pipeline_entry mime) (bind (new_view res prompt v) (fun x => Ret (k x))).
Proof.
  unfold new_view, ask. cbn [bind emits]. intros x. split; [exact I|].
  intros y. split; exact I.
Qed.

Lemma side_task_emits prompt crop :
  emits (pipeline_entry (mimeType crop)) (side_task prompt crop).
Proof.
  unfold side_task. apply emits_bind; [apply runViewPipeline_emits|].
  intros res. apply new_view_emits.
Qed.

Lemma top_task_emits prompt crop :
  emits (pipeline_entry (mimeType crop)) (top_task prompt crop).
Proof.
  unfold top_task. apply emits_bind; [apply runViewPipeline_emits|].
  intros res. apply new_view_emits.
Qed.

Lemma side_task_returns prompt crop :
  returns (fun f => exists v, f = set_sideView v) (side_task prompt crop).
Proof.
  unfold side_task. apply returns_bind. intros res.
  unfold new_view, ask. cbn [bind returns]. intros x y. eexists. reflexivity.
Qed.

Lemma top_task_returns prompt crop :
  returns (fun f => exists v, f = set_topView v) (top_task prompt crop).
Proof.
  unfold top_task. apply returns_bind. intros res.
  unfold new_view, ask. cbn [bind returns]. intros x y. eexists. reflexivity.
Qed.

(** The state the handler leaves when its [try] block ends normally. *)
Lemma settle_resolved np m :
  state (settle (Resolved np) m) =
  {| status := SUCCESS; project := Some np;
     activeView := match WarshipProject.sideView np with
                   | Some _ => side
                   | None => top
                   end;
     error := error (state m); pipelineStatus := [] |}.
Proof. reflexivity. Qed.

(** The state the handler leaves when something was thrown in its [try]
    block. *)
Lemma settle_rejected e m :
  state (settle (Rejected e) m) =
  {| status := ERROR; project := project (state m);
     activeView := activeView (state m);
     error := Some {| message := js "Pipeline Failure"; details := message_of e |};
     pipelineStatus := [] |}.
Proof. reflexivity. Qed.

Lemma settle_log r m :
  exists l, log (settle r m) = log m ++ l
            /\ Forall (fun e => match e with Performed _ => True | Asked _ _ => False end) l.
Proof.
  destruct r as [np|e]; eexists; (split; [cbn; rewrite <- ?app_assoc; reflexivity|]);
    repeat constructor.
Qed.

(** A join of one task. *)
Lemma join_last_single P (Q : Mutation -> Prop) t np m :
  emits P t -> returns Q t ->
  exists l1 r m0,
    extends m m0 l1 /\ Forall P l1
    /\ snd (join_last t np settle m) = settle r m0
    /\ match r with
       | Resolved np' =>
           fst (join_last t np settle m) = Resolved tt
           /\ exists f, Q f /\ np' = f np
       | Rejected e => fst (join_last t np settle m) = Rejected e
       end.
Proof.
  intros Et Rt. unfold join_last.
  destruct (exec_extends P t m Et) as (l & El & Fl).
  destruct (exec t m) as [[f|e] m0] eqn:E; cbn [snd fst] in *.
  - exists l, (Resolved (f np)), m0. repeat split; try apply El; auto.
    exists f. split; [apply (exec_returns _ _ _ Rt E) | reflexivity].
  - exists l, (Rejected e), m0. repeat split; try apply El; auto.
Qed.

(** What [generate_views] does with the crops it is given, for a new
    project without views: a join of the pipelines of the crops there
    are, or the fixed error when there is none. *)
Lemma generate_views_joined (P : Entry -> Prop) prompt np crops m :
  (forall c, crop_side crops = Some c -> emits P (side_task prompt c)) ->
  (forall c, crop_top crops = Some c -> emits P (top_task prompt c)) ->
  WarshipProject.sideView np = None -> WarshipProject.topView np = None ->
  let report := fst (generate_views prompt np crops m) in
  let m' := snd (generate_views prompt np crops m) in
  detected report = Some (Resolved crops)
  /\ ((side_pipeline report = None <-> crop_side crops = None)
      /\ (top_pipeline report = None <-> crop_top crops = None))
  /\ exists l1 r m0 l2,
       extends m m0 l1 /\ Forall P l1
       /\ extends (settle r m0) m' l2 /\ Forall P l2
       /\ match r with
          | Resolved np' =>
              l2 = []
              /\ (forall e, side_pipeline report <> Some (Rejected e))
              /\ (forall e, top_pipeline report <> Some (Rejected e))
              /\ (crop_side crops <> None \/ crop_top crops <> None)
              /\ WarshipProject.id np' = WarshipProject.id np
              /\ WarshipProject.originalImage np' = WarshipProject.originalImage np
              /\ (WarshipProject.sideView np' = None <-> crop_side crops = None)
              /\ (WarshipProject.topView np' = None <-> crop_top crops = None)
          | Rejected e =>
              (crop_side crops = None /\ crop_top crops = None /\ e = no_views)
              \/ side_pipeline report = Some (Rejected e)
              \/ top_pipeline report = Some (Rejected e)
          end.
Proof.
  intros Es Et Hs Ht. cbv zeta. unfold generate_views.
  destruct (crop_side crops) as [s|] eqn:Cs; destruct (crop_top crops) as [t|] eqn:Ct.
  - pose proof (@join_all_joined _ P _ _ _ (Es s eq_refl)
                  (side_task_returns prompt s)
                  (top_task prompt t) np settle m (Et t eq_refl)
                  (top_task_returns prompt t)) as J.
    destruct (join_all (side_task prompt s) (top_task prompt t) np settle m)
      as [[ra rb] m'].
    destruct J as (l1 & r & m0 & l2 & E1 & F1 & E2 & F2 & Hr).
    split; [reflexivity|].
    split; [cbn; repeat split; intros; discriminate|].
    exists l1, r, m0, l2. cbn [fst snd].
    repeat (split; [assumption|]).
    destruct r as [np'|e].
    + destruct Hr as (-> & -> & -> & f & g & [vs ->] & [vt ->] & Hnp).
      cbn [side_pipeline top_pipeline].
      split; [reflexivity|]. split; [intros e [=]|]. split; [intros e [=]|].
      split; [left; discriminate|].
      destruct Hnp as [-> | ->]; cbn; repeat split; intros; discriminate.
    + cbn [side_pipeline top_pipeline].
      destruct Hr as [-> | ->]; [right; left | right; right]; reflexivity.
  - destruct (@join_last_single P _ (side_task prompt s) np m (Es s eq_refl)
                (side_task_returns prompt s)) as (l1 & r & m0 & E1 & F1 & E2 & Hr).
    destruct (join_last (side_task prompt s) np settle m) as [rs m'].
    cbn [fst snd] in *. subst m'.
    split; [reflexivity|].
    split; [cbn; repeat split; intros; first [discriminate | reflexivity]|].
    exists l1, r, m0, [].
    repeat (split; [first [assumption | apply extends_refl | constructor]|]).
    cbn [side_pipeline top_pipeline].
    destruct r as [np'|e].
    + destruct Hr as (-> & f & [vs ->] & ->).
      split; [reflexivity|]. split; [intros e [=]|]. split; [intros e [=]|].
      split; [left; discriminate|].
      cbn. repeat split; auto; intros; discriminate.
    + right. left. now rewrite Hr.
  - destruct (@join_last_single P _ (top_task prompt t) np m (Et t eq_refl)
                (top_task_returns prompt t)) as (l1 & r & m0 & E1 & F1 & E2 & Hr).
    destruct (join_last (top_task prompt t) np settle m) as [rt m'].
    cbn [fst snd] in *. subst m'.
    split; [reflexivity|].
    split; [cbn; repeat split; intros; first [discriminate | reflexivity]|].
    exists l1, r, m0, [].
    repeat (split; [first [assumption | apply extends_refl | constructor]|]).
    cbn [side_pipeline top_pipeline].
    destruct r as [np'|e].
    + destruct Hr as (-> & f & [vt ->] & ->).
      split; [reflexivity|]. split; [intros e [=]|]. split; [intros e [=]|].
      split; [right; discriminate|].
      cbn. repeat split; auto; intros; discriminate.
    + right. right. now rewrite Hr.
  - cbn [fst snd]. split; [reflexivity|]. split; [repeat split|].
    exists [], (Rejected no_views), m, [].
    repeat (split; [first [assumption | apply extends_refl | constructor]|]).
    left. repeat split.
Qed.



(** A run in which the detector resolved went on to [generate_views],
    with a new project that has no view yet. *)
Lemma handleGenerate_run_detected rendered prompt imageData m crops :
  detected (fst (handleGenerate_run rendered prompt imageData m))
  = Some (Resolved crops) ->
  exists img m2 np m3,
    image_to_process rendered imageData = Some img
    /\ exec (detectAndCropViews img) (begun m) = (Resolved crops, m2)
    /\ WarshipProject.sideView np = None /\ WarshipProject.topView np = None
    /\ WarshipProject.originalImage np = img
    /\ state m3 = apply_effect (SetStatus LOADING) (state (begun m))
    /\ log m3 = log m2 ++ [Asked RandomUUID (WarshipProject.id np);
                            Performed (SetStatus LOADING)]
    /\ handleGenerate_run rendered prompt imageData m
       = generate_views prompt np crops m3.
Proof.
  unfold handleGenerate_run. fold (image_to_process rendered imageData).
  fold (begun m).
  destruct (image_to_process rendered imageData) as [img|]; [|discriminate].
  pose proof (detectAndCropViews_state img (begun m)) as St.
  destruct (exec (detectAndCropViews img) (begun m)) as [[crops0|e] m2] eqn:E;
    [|discriminate].
  cbn [snd] in St. unfold answer.
  destruct (respond RandomUUID (world m2)) as [uuid w].
  set (np := {| WarshipProject.id := uuid; WarshipProject.sideView := None;
                WarshipProject.topView := None;
                WarshipProject.originalImage := img |}).
  set (m3 := perform (SetStatus LOADING) _).
  intros D.
  assert (crops0 = crops) as ->.
  { destruct (@generate_views_joined (fun _ => True) prompt np crops0 m3) as [D' _];
      try reflexivity; try (intros; apply emits_any).
    rewrite D' in D. now injection D. }
  exists img, m2, np, m3. repeat split; try reflexivity; try exact E.
  - unfold m3. cbn [perform state]. now rewrite St.
  - unfold m3. cbn [perform log]. rewrite <- app_assoc. reflexivity.
Qed.


(** How a run in which the detector resolved ends: [settle] ran once, on
    the new project with a view for each crop or on what was thrown; it
    found the project of before the run in place; after it, at most the
    pipeline status was written. *)
Lemma handleGenerate_run_settled rendered prompt imageData m crops :
  let report := fst (handleGenerate_run rendered prompt imageData m) in
  let m' := snd (handleGenerate_run rendered prompt imageData m) in
  detected report = Some (Resolved crops) ->
  (side_pipeline report = None <-> crop_side crops = None)
  /\ (top_pipeline report = None <-> crop_top crops = None)
  /\ exists r m0,
       project (state m0) = project (state m)
       /\ same_but_pipelineStatus (state (settle r m0)) (state m')
       /\ match r with
          | Resolved np' =>
              (forall e, side_pipeline report <> Some (Rejected e))
              /\ (forall e, top_pipeline report <> Some (Rejected e))
              /\ (crop_side crops <> None \/ crop_top crops <> None)
              /\ (WarshipProject.sideView np' = None <-> crop_side crops = None)
              /\ (WarshipProject.topView np' = None <-> crop_top crops = None)
          | Rejected e =>
              (crop_side crops = None /\ crop_top crops = None /\ e = no_views)
              \/ side_pipeline report = Some (Rejected e)
              \/ top_pipeline report = Some (Rejected e)
          end.
Proof.
  cbv zeta. intros D.
  destruct (handleGenerate_run_detected _ _ _ _ D)
    as (img & m2 & np & m3 & _ & _ & Hs & Ht & _ & St & _ & ->).
  destruct (@generate_views_joined status_only prompt np crops m3)
    as (_ & (I1 & I2) & l1 & r & m0 & l2 & [_ E1] & F1 & [_ E2] & F2 & Hr);
    try assumption.
  { intros c _. eapply emits_weaken; [|apply side_task_emits].
    apply pipeline_entry_status_only. }
  { intros c _. eapply emits_weaken; [|apply top_task_emits].
    apply pipeline_entry_status_only. }
  split; [exact I1|]. split; [exact I2|].
  exists r, m0. split; [|split].
  - destruct (replay_status_only (state m3) F1) as (_ & Hp & _).
    rewrite E1, <- Hp, St. reflexivity.
  - rewrite E2. apply replay_status_only. exact F2.
  - destruct r as [np'|e]; [|exact Hr].
    destruct Hr as (_ & A & B & C & _ & _ & S & T). auto.
Qed.



(** C5.  In a run of [handleGenerate], if the promise of a pipeline
    rejects, whatever became of the other pipeline and in whatever order
    the host answered the two, then the join rejects and the run is
    reported as failed: the project is the one of before the run, the
    status is [ERROR] and the error is [Pipeline Failure] with the message
    of a pipeline that rejected. *)
Theorem handleGenerate_all_or_nothing rendered prompt imageData m e :
  let report := fst (handleGenerate_run rendered prompt imageData m) in
  let m' := handleGenerate rendered prompt imageData m in
  side_pipeline report = Some (Rejected e)
  \/ top_pipeline report = Some (Rejected e) ->
  project (state m') = project (state m)
  /\ status (state m') = ERROR
  /\ exists first,
       (side_pipeline report = Some (Rejected first)
        \/ top_pipeline report = Some (Rejected first))
       /\ error (state m') =
            Some {| message := js "Pipeline Failure"; details := message_of first |}.
Proof.
  cbv zeta. unfold handleGenerate. intros H.
  assert (D : exists crops,
             detected (fst (handleGenerate_run rendered prompt imageData m))
             = Some (Resolved crops)).
  { unfold handleGenerate_run in *.
    destruct (match imageData with Some i => Some i | None => _ end) as [img|];
      [|destruct H as [H|H]; discriminate H].
    destruct (exec (detectAndCropViews img) _) as [[crops|e0] m2];
      [|destruct H as [H|H]; discriminate H].
    exists crops. destruct (answer RandomUUID m2) as [uuid m3].
    match goal with
    | |- detected (fst (generate_views ?p ?np ?c ?mm)) = _ =>
        destruct (@generate_views_joined (fun _ => True) p np c mm) as [D' _];
          try reflexivity; try (intros; apply emits_any); exact D'
    end. }
  destruct D as [crops D].
  destruct (handleGenerate_run_settled _ _ _ _ D)
    as (I1 & I2 & r & m0 & Hp & (S1 & S2 & S3 & S4) & Hr).
  destruct r as [np'|first].
  - exfalso. destruct Hr as (A & B & _). destruct H as [H|H].
    + apply (A e). exact H.
    + apply (B e). exact H.
  - rewrite <- S1, <- S2, <- S4. rewrite settle_rejected. cbn.
    split; [exact Hp|]. split; [reflexivity|].
    destruct Hr as [(Cs & Ct & _) | Hr].
    + exfalso. apply I1 in Cs. apply I2 in Ct.
      destruct H as [H|H]; [rewrite Cs in H | rewrite Ct in H]; discriminate.
    + exists first. split; [exact Hr | reflexivity].
Qed.

(** C7, as the code has it.  With neither a new image nor a project,
    [handleGenerate] does return early and asks nothing of the host, but
    not before its first three setters ran: the status is [SEGMENTING],
    the pipeline status [SCANNING_LAYOUT] and the error none, whatever
    they were; only the project and the active view are those of
    before.  The early return is not a no-op. *)
Theorem handleGenerate_without_image prompt m :
  handleGenerate None prompt None m
  = {| world := world m;
       state := {| status := SEGMENTING;
                   project := project (state m);
                   activeView := activeView (state m);
                   error := None;
                   pipelineStatus := js "SCANNING_LAYOUT" |};
       log := log m ++ [Performed (SetStatus SEGMENTING);
                        Performed (SetPipelineStatus (js "SCANNING_LAYOUT"));
                        Performed (SetError None)] |}.
Proof.
  unfold handleGenerate, handleGenerate_run, perform. cbn.
  rewrite <- !app_assoc. reflexivity.
Qed.

End GenerateFacts.

(* ================================================================== *)
(** * Every pipeline works on a JPEG *)

Section JpegFacts.
Context {host : Host}.






End JpegFacts.

(* ================================================================== *)
(** * [handleRefine] *)

Section RefineFacts.
Context {host : Host}.

(** C10.  Without a project, [handleRefine] returns at once: no query is
    made, no setter is called, the machine (status, error, pipeline
    status, project and trace) is the one of before. *)
Theorem handleRefine_without_project (activeView : ViewType)
    (prompt : jsstring) (m : Machine) :
  exec (handleRefine None activeView prompt) m = (Resolved tt, m).
Proof. reflexivity. Qed.

(** C6.  A refinement that succeeds, on a rendered project [p] whose
    active view is [g], leaves a project that differs from [p] in the
    active view only, and there in [content], [prompt] and [timestamp]
    only: [id], [viewType] and [auditReport] of the view, the other
    view, the [id] of the project and its original image are those of
    before (and so are the active view selected and the error). *)
Theorem handleRefine_frame (p : WarshipProject.t) (v : ViewType)
    (prompt : jsstring) (m : Machine) (g : GeneratedSvg.t) :
  let m' := snd (exec (handleRefine (Some p) v prompt) m) in
  project (state m) = Some p ->
  current_view v p = Some g ->
  status (state m') = SUCCESS ->
  exists refined now p',
    project (state m') = Some p'
    /\ current_view v p' =
         Some {| GeneratedSvg.id := GeneratedSvg.id g;
                 GeneratedSvg.content := refined;
                 GeneratedSvg.prompt := prompt;
                 GeneratedSvg.timestamp := now;
                 GeneratedSvg.auditReport := GeneratedSvg.auditReport g;
                 GeneratedSvg.viewType := GeneratedSvg.viewType g |}
    /\ WarshipProject.id p' = WarshipProject.id p
    /\ WarshipProject.originalImage p' = WarshipProject.originalImage p
    /\ (if is_side v
        then WarshipProject.topView p' = WarshipProject.topView p
        else WarshipProject.sideView p' = WarshipProject.sideView p)
    /\ activeView (state m') = activeView (state m)
    /\ error (state m') = error (state m).
Proof.
  cbv zeta. intros Hp Hg.
  unfold handleRefine, generateWarshipSvg, generateContent, extractSvg_text,
    effect_, ask.
  rewrite Hg. cbn [bind try_catch option_map].
  rewrite !exec_do, exec_ask. cbn [world perform].
  match goal with
  | |- context [respond ?q (world m)] =>
      destruct (respond q (world m)) as [[e|[t|]] w1]
  end; cbn [fst snd bind try_catch exec perform state apply_effect status];
    try discriminate.
  unfold answer. cbn [world].
  destruct (respond DateNow w1) as [now w2].
  cbn [exec perform state apply_effect status project activeView error].
  intros _. rewrite Hp. exists (extractSvg t), now. eexists.
  split; [reflexivity|]. unfold current_view, updated_view.
  destruct (is_side v); cbn; repeat split.
Qed.

End RefineFacts.

(* ================================================================== *)
(** * Worked runs on the scripted host *)

Module Runs.
Import Scripted.
#[local] Existing Instance host.

(** The crop of the end-to-end scenario: for the box
    [{ymin:100, xmin:200, ymax:400, xmax:800}] on a 2000 x 1000 image the
    canvas is 1240 x 340 and the box is drawn at (20, 20). *)
Example cropImage_scenario :
  exists canvas url (m' : @Machine host),
    exec (host := host)
      (cropImage (data upload)
         {| ymin := 100; xmin := 200; ymax := 400; xmax := 800 |})
      (boot one_side)
    = (Resolved {| data := url; mimeType := js "image/jpeg" |}, m')
    /\ In (Asked (ToDataURL canvas (js "image/jpeg") 0.95) url) (log m')
    /\ Canvas.width canvas = 1240%float
    /\ Canvas.height canvas = 340%float
    /\ Canvas.drawn canvas =
         [FillRect (js "#FFFFFF") 0 0 1240 340;
          DrawImage (data upload) 400 100 1200 300 20 20 1200 300].
Proof.
  do 3 eexists. split; [vm_compute; reflexivity|].
  split; [right; right; left; reflexivity|].
  repeat split.
Qed.

(** The crop of the same box on an image of 333 x 777: the canvas that
    is encoded reads 239 x 273. *)
Lemma cropImage_spec_witness :
  exists canvas,
    fst (exec (host := host)
           (cropImage (data upload)
              {| ymin := 100; xmin := 200; ymax := 400; xmax := 800 |})
           (boot odd_size))
    = Resolved
        {| data := fst (respond (ToDataURL canvas (js "image/jpeg") 0.95) odd_size);
           mimeType := js "image/jpeg" |}
    /\ Canvas.get_width canvas = Canvas.number 239
    /\ Canvas.get_height canvas = Canvas.number 273.
Proof.
  pose proof (@cropImage_spec host (data upload)
                {| ymin := 100; xmin := 200; ymax := 400; xmax := 800 |}
                (boot odd_size)) as S.
  cbv zeta in S.
  change (respond (LoadImage (data upload)) (world (boot odd_size)))
    with (Loaded 333 777, odd_size) in S.
  cbv beta iota in S.
  change (@respond host _ GetContext2d odd_size) with (true, odd_size) in S.
  cbv beta iota in S.
  destruct S as [_ (canvas & E & Ew & Eh & Rw & Rh & _)].
  exists canvas. split; [exact E|].
  split.
  - apply Rw; [rewrite Ew; vm_compute; reflexivity | lia].
  - apply Rh; [rewrite Eh; vm_compute; reflexivity | lia].
Defined.

(** C2 as stated fails: for the same box on an image of 333 x 777 the
    scaled size plus padding is 239.8 x 273.1 (to the nearest binary64
    numbers); the canvas keeps 239 x 273, which is the size filled in
    white and encoded, and not the size the claim gives. *)
Lemma cropImage_counterexample :
  exists canvas url (m' : @Machine host),
    exec (host := host)
      (cropImage (data upload)
         {| ymin := 100; xmin := 200; ymax := 400; xmax := 800 |})
      (boot odd_size)
    = (Resolved {| data := url; mimeType := js "image/jpeg" |}, m')
    /\ log m' =
         [Asked (LoadImage (data upload)) (Loaded 333 777);
          Asked GetContext2d true;
          Asked (ToDataURL canvas (js "image/jpeg") 0.95) url]
    /\ Canvas.get_width canvas = 239%float
    /\ Canvas.get_height canvas = 273%float
    /\ Canvas.drawn canvas =
         [FillRect (js "#FFFFFF") 0 0 239 273;
          DrawImage (data upload)
            ((200 / 1000) * 333) ((100 / 1000) * 777)
            (((800 - 200) / 1000) * 333) (((400 - 100) / 1000) * 777)
            20 20
            (((800 - 200) / 1000) * 333) (((400 - 100) / 1000) * 777)]
    /\ Canvas.get_width canvas <> ((800 - 200) / 1000 * 333 + 40)%float
    /\ Canvas.get_height canvas <> ((400 - 100) / 1000 * 777 + 40)%float
    /\ (239 <? (800 - 200) / 1000 * 333 + 40)%float = true
    /\ (273 <? (400 - 100) / 1000 * 777 + 40)%float = true.
Proof.
  do 3 eexists. split; [vm_compute; reflexivity|].
  split; [reflexivity|].
  split; [vm_compute; reflexivity|]. split; [vm_compute; reflexivity|].
  split; [vm_compute; reflexivity|].
  split; [|split; [|split; vm_compute; reflexivity]];
    intros E; apply (f_equal Prim2SF) in E; vm_compute in E; discriminate E.
Qed.

(** The run of the end-to-end scenario: one side view detected, the three
    stages announced in order, a project with a side view and no top
    view. *)
Example handleGenerate_scenario :
  let m' := handleGenerate None (js "Keep the rigging.")
              (Some upload) (boot one_side) in
  performed (log m') =
    [SetStatus SEGMENTING; SetPipelineStatus (js "SCANNING_LAYOUT");
     SetError None; SetStatus LOADING;
     SetPipelineStatus (js "DRAFTING_SIDE");
     SetPipelineStatus (js "AUDITING_SIDE");
     SetPipelineStatus (js "HEALING_SIDE");
     SetProject
       {| WarshipProject.id := js "uuid-0";
          WarshipProject.sideView :=
            Some {| GeneratedSvg.id := Some (js "uuid-1");
                    GeneratedSvg.content :=
                      jq "<svg viewBox='0 0 600 300'><g id='hull'/><g id='mast'/></svg>";
                    GeneratedSvg.prompt := js "Keep the rigging.";
                    GeneratedSvg.timestamp := 1767225600000%float;
                    GeneratedSvg.auditReport := Some (js "The aft mast is missing.");
                    GeneratedSvg.viewType := Some side |};
          WarshipProject.topView := None;
          WarshipProject.originalImage := upload |};
     SetActiveView side; SetStatus SUCCESS; SetPipelineStatus []].
Proof. vm_compute. reflexivity. Qed.

(** A broken reply of the detector: the run of the detector rejects with
    the syntax error. *)
Lemma detectAndCropViews_decoding_witness :
  fst (exec (detectAndCropViews upload) (boot malformed))
  = Rejected (ErrorObject SyntaxError (js "Unexpected token in JSON")).
Proof.
  apply (@detectAndCropViews_decoding host upload (boot malformed)
           (Some (jq "{'sideViewFound': tru")) (world (snd (answer (GenerateContent (detect_request upload)) (boot malformed))))).
  - vm_compute. reflexivity.
  - vm_compute. reflexivity.
Defined.

(** C3 as stated fails: on a reply that is not JSON the detector does
    fail; it does not return a record without crops. *)
Lemma detectAndCropViews_counterexample :
  JSON.parse (jq "{'sideViewFound': tru") = None
  /\ fst (exec (detectAndCropViews upload) (boot malformed))
     = Rejected (ErrorObject SyntaxError (js "Unexpected token in JSON"))
  /\ fst (exec (detectAndCropViews upload) (boot malformed))
     <> Resolved {| crop_side := None; crop_top := None |}.
Proof.
  split; [vm_compute; reflexivity|].
  split; [vm_compute; reflexivity|]. vm_compute. discriminate.
Qed.

(** A pipeline that goes on after the other one failed still writes the
    pipeline status: here the audit of the top view fails first, the run
    is reported as failed, and the side pipeline, which nobody waits for
    any more, then announces its healing stage. *)
Example straggler_writes_status :
  let w :=
    {| replies :=
         [both_boxes;
          text "<svg id='side-draft'></svg>";
          text "<svg id='top-draft'></svg>";
          CallFailed NonError;
          text "Funnel rake is wrong."];
       turns := [true; true; false; false; true];
       image := Loaded 2000 1000;
       context2d := true;
       serial := 0 |} in
  let run := handleGenerate_run None (js "Refit of 1936.") (Some upload) (boot w) in
  top_pipeline (fst run) = Some (Rejected NonError)
  /\ status (state (snd run)) = ERROR
  /\ project (state (snd run)) = None
  /\ pipelineStatus (state (snd run)) = js "HEALING_SIDE".
Proof. vm_compute. repeat split. Qed.


(** The top pipeline rejects after the side pipeline resolved: the run
    fails as a whole and no project is written. *)
Lemma handleGenerate_all_or_nothing_witness :
  let report := fst (handleGenerate_run None (js "Refit of 1936.") (Some upload)
                       (boot top_fails)) in
  let m' := handleGenerate None (js "Refit of 1936.") (Some upload)
              (boot top_fails) in
  side_pipeline report = Some (Resolved tt)
  /\ project (state m') = None
  /\ status (state m') = ERROR.
Proof.
  cbv zeta. split; [vm_compute; reflexivity|].
  destruct (@handleGenerate_all_or_nothing host None (js "Refit of 1936.")
              (Some upload) (boot top_fails)
              (ErrorObject PlainError (js "429 Too Many Requests")))
    as (Hp & Hs & _).
  - right. vm_compute. reflexivity.
  - split; [rewrite Hp; reflexivity | exact Hs].
Defined.

(** A refinement of the side view of a project with both views. *)
Lemma handleRefine_frame_witness :
  let m' := snd (exec (handleRefine (Some a_project) side (js "Add the aft mast."))
                   (showing side refines)) in
  exists refined now p',
    project (state m') = Some p'
    /\ WarshipProject.sideView p' =
         Some {| GeneratedSvg.id := Some (js "uuid-1");
                 GeneratedSvg.content := refined;
                 GeneratedSvg.prompt := js "Add the aft mast.";
                 GeneratedSvg.timestamp := now;
                 GeneratedSvg.auditReport := Some (js "Funnel rake is wrong.");
                 GeneratedSvg.viewType := Some side |}
    /\ WarshipProject.topView p' = Some (a_view "uuid-2" top)
    /\ WarshipProject.id p' = js "uuid-0"
    /\ WarshipProject.originalImage p' = upload.
Proof.
  cbv zeta.
  destruct (@handleRefine_frame host a_project side (js "Add the aft mast.")
              (showing side refines) (a_view "uuid-1" side))
    as (refined & now & p' & Hp & Hv & Hi & Ho & Ht & _).
  - reflexivity.
  - reflexivity.
  - vm_compute. reflexivity.
  - exists refined, now, p'. repeat split; assumption.
Defined.

(** C8 as stated fails: in a run whose draft request fails the callback
    is invoked once, not three times. *)
Lemma runViewPipeline_counterexample :
  let run := exec (runViewPipeline (js "Keep the rigging.") crop side
                     SetPipelineStatus) (boot draft_fails) in
  fst run = Rejected (ErrorObject PlainError (js "503 Service Unavailable"))
  /\ performed (log (snd run)) = [SetPipelineStatus (js "DRAFTING_SIDE")]
  /\ length (performed (log (snd run))) <> 3.
Proof.
  cbv zeta. split; [vm_compute; reflexivity|].
  split; [vm_compute; reflexivity|]. vm_compute. discriminate.
Qed.


End Runs.

(* ================================================================== *)
(** * More on [extractSvg]: which part of a reply is the match *)

Lemma first_accept_here A (k : jsstring -> option A) s x :
  k s = Some x -> first_accept k s = Some x.
Proof. intros H. destruct s; cbn [first_accept]; rewrite H; reflexivity. Qed.

(** The [</svg>] that ends the match is the first one. *)
Lemma after_close_first s rest :
  after_close s = Some rest ->
  exists body c,
    s = body ++ c ++ rest /\ matches_lit true svg_close c = true
    /\ occurs_before true svg_close (length body) s = false.
Proof.
  unfold after_close.
  induction s as [|x s IH]; cbn [first_accept].
  - destruct (starts_with true svg_close []) eqn:E; [|discriminate].
    discriminate E.
  - destruct (starts_with true svg_close (x :: s)) eqn:E.
    + intros [= <-]. exists [], (firstn (length svg_close) (x :: s)).
      split; [|split; [now apply starts_with_split | reflexivity]].
      cbn [app]. symmetry. apply firstn_skipn.
    + intros H. destruct (IH H) as (body & c & -> & Hc & Hb).
      exists (x :: body), c. split; [reflexivity|]. split; [exact Hc|].
      cbn [length occurs_before]. cbn [app] in E. rewrite E. exact Hb.
Qed.

(** A [</svg>] somewhere ahead is enough for the lazy star to stop. *)
Lemma after_close_some a c post :
  matches_lit true svg_close c = true ->
  exists rest, after_close (a ++ c ++ post) = Some rest.
Proof.
  intros Hc. apply matches_lit_inv in Hc as [Hc _].
  unfold after_close. induction a as [|x a IH].
  - eexists. apply first_accept_here. cbn [app].
    rewrite (starts_with_app _ _ _ post Hc). reflexivity.
  - cbn [app first_accept].
    destruct (starts_with true svg_close (x :: a ++ c ++ post));
      [eexists; reflexivity | exact IH].
Qed.

Lemma match_here_svg_parts s rest :
  match_here svg_regex s = Some rest ->
  exists o body c,
    s = o ++ body ++ c ++ rest
    /\ matches_lit true svg_open o = true
    /\ matches_lit true svg_close c = true
    /\ occurs_before true svg_close (length body) (body ++ c ++ rest) = false.
Proof.
  rewrite match_here_svg.
  destruct (starts_with true svg_open s) eqn:Ho; [|discriminate].
  intros H. apply after_close_first in H as (body & c & E & Hc & Hb).
  exists (firstn (length svg_open) s), body, c.
  split; [|split; [now apply starts_with_split | split; [exact Hc|]]].
  - rewrite <- E. symmetry. apply firstn_skipn.
  - rewrite <- E. exact Hb.
Qed.

(** An opening tag with a closing tag anywhere after it is a place where
    the expression matches. *)
Lemma match_here_svg_some o body c post :
  matches_lit true svg_open o = true ->
  matches_lit true svg_close c = true ->
  exists rest, match_here svg_regex (o ++ body ++ c ++ post) = Some rest.
Proof.
  intros Ho Hc. apply matches_lit_inv in Ho as [Ho Lo].
  rewrite match_here_svg, (starts_with_app _ _ _ _ Ho), <- Lo, skipn_length_app.
  now apply after_close_some.
Qed.

Lemma search_svg_some pre o body c post :
  matches_lit true svg_open o = true ->
  matches_lit true svg_close c = true ->
  exists m, search svg_regex (pre ++ o ++ body ++ c ++ post) = Some m.
Proof.
  intros Ho Hc. induction pre as [|x pre IH].
  - destruct (@match_here_svg_some o body c post Ho Hc) as [rest M].
    eexists. cbn [app]. apply search_here. exact M.
  - cbn [app search].
    destruct (match_here svg_regex (x :: pre ++ o ++ body ++ c ++ post));
      [eexists; reflexivity | exact IH].
Qed.

(** The match starts at the first [<svg] of the text and ends with the
    first [</svg>] after it. *)
Lemma search_svg_parts t m :
  search svg_regex t = Some m ->
  exists pre o body c post,
    t = pre ++ o ++ body ++ c ++ post /\ m = o ++ body ++ c
    /\ matches_lit true svg_open o = true
    /\ matches_lit true svg_close c = true
    /\ occurs_before true svg_open (length pre) t = false
    /\ occurs_before true svg_close (length body) (body ++ c ++ post) = false.
Proof.
  induction t as [|x t IH]; cbn [search].
  - destruct (match_here svg_regex []) as [rest|] eqn:E; [|discriminate].
    rewrite match_here_svg in E. discriminate E.
  - destruct (match_here svg_regex (x :: t)) as [rest|] eqn:E.
    + intros [= <-].
      destruct (@match_here_svg_parts _ _ E) as (o & body & c & Et & Ho & Hc & Hb).
      exists [], o, body, c, rest. rewrite Et.
      repeat split; try assumption.
      rewrite !app_assoc, consumed_app, <- !app_assoc. reflexivity.
    + intros H. destruct (IH H) as (pre & o & body & c & post & -> & -> & Ho & Hc & Hp & Hb).
      exists (x :: pre), o, body, c, post.
      repeat split; try assumption.
      cbn [length occurs_before app]. rewrite Hp, orb_false_r.
      destruct (starts_with true svg_open (x :: pre ++ o ++ body ++ c ++ post))
        eqn:Hx; [|reflexivity].
      exfalso. rewrite match_here_svg, Hx in E.
      change (skipn (length svg_open) (x :: pre ++ o ++ body ++ c ++ post))
        with (skipn 3 (pre ++ o ++ body ++ c ++ post)) in E.
      pose proof (matches_lit_inv _ _ _ Ho) as [_ Lo].
      change (length svg_open) with 4 in Lo.
      assert (S3 : skipn 3 (pre ++ o ++ body ++ c ++ post)
                   = skipn 3 (pre ++ o ++ body) ++ c ++ post).
      { replace (pre ++ o ++ body ++ c ++ post)
          with ((pre ++ o ++ body) ++ c ++ post)
          by (rewrite <- !app_assoc; reflexivity).
        rewrite skipn_app.
        replace (3 - length (pre ++ o ++ body)) with 0
          by (rewrite !length_app; lia).
        reflexivity. }
      rewrite S3 in E.
      destruct (@after_close_some (skipn 3 (pre ++ o ++ body)) c post Hc) as [r R].
      rewrite R in E. discriminate E.
Qed.

Lemma occurs_before_app ignoreCase pat n s post :
  occurs_before ignoreCase pat n (s ++ post) = false ->
  occurs_before ignoreCase pat n s = false.
Proof.
  revert s; induction n as [|n IH]; intros s; [reflexivity|].
  cbn [occurs_before]. intros H. apply orb_false_iff in H as [H1 H2].
  apply orb_false_iff. split.
  - destruct (starts_with ignoreCase pat s) eqn:E; [|reflexivity].
    apply (starts_with_app _ _ _ post) in E. congruence.
  - destruct s as [|x s]; [reflexivity|]. cbn [app] in H2. now apply IH.
Qed.

(** X1.  Which part of a reply [extractSvg] takes.  There is a match
    exactly when the text has a [<svg] with a [</svg>] somewhere after
    it (letter case ignored).  The match then starts at the first [<svg]
    of the text and ends with the first [</svg>] after that [<svg]: what
    [extractSvg] returns is the text from the one through the other.  A
    text without any [</svg>], such as a reply that was cut short, has no
    match, and the result is the fallback. *)
Theorem extractSvg_first_element (text : jsstring) :
  ((exists m, search svg_regex text = Some m) <->
   (exists pre o body c post,
      text = pre ++ o ++ body ++ c ++ post
      /\ matches_lit true svg_open o = true
      /\ matches_lit true svg_close c = true))
  /\ (forall m, search svg_regex text = Some m ->
        extractSvg text = m
        /\ exists pre o body c post,
             text = pre ++ o ++ body ++ c ++ post /\ m = o ++ body ++ c
             /\ matches_lit true svg_open o = true
             /\ matches_lit true svg_close c = true
             /\ occurs_before true svg_open (length pre) text = false
             /\ occurs_before true svg_close (length body) (body ++ c ++ post)
                = false)
  /\ ((forall i, starts_with true svg_close (skipn i text) = false) ->
        extractSvg text = trim (delete_all fence_regex text)).
Proof.
  split; [split|split].
  - intros [m H].
    destruct (search_svg_parts _ H) as (pre & o & body & c & post & E & _ & Ho & Hc & _).
    exists pre, o, body, c, post. auto.
  - intros (pre & o & body & c & post & -> & Ho & Hc).
    now apply search_svg_some.
  - intros m H. split; [unfold extractSvg; now rewrite H|].
    now apply search_svg_parts.
  - intros N. unfold extractSvg.
    destruct (search svg_regex text) as [m|] eqn:H; [|reflexivity].
    exfalso.
    destruct (search_svg_parts _ H) as (pre & o & body & c & post & E & _ & _ & Hc & _).
    apply matches_lit_inv in Hc as [Hc _].
    specialize (N (length (pre ++ o ++ body))).
    replace text with ((pre ++ o ++ body) ++ c ++ post) in N
      by (rewrite E, <- !app_assoc; reflexivity).
    rewrite skipn_length_app, (starts_with_app _ _ _ post Hc) in N.
    discriminate N.
Qed.

(** A reply cut short before its closing tag is returned whole, its
    fence and the white space around it removed. *)
Lemma extractSvg_first_element_witness :
  extractSvg (jq "```svg <svg viewBox='0 0 9 9'><g id='hull'> ")
  = jq "<svg viewBox='0 0 9 9'><g id='hull'>".
Proof.
  rewrite (proj2 (proj2 (extractSvg_first_element _))).
  - vm_compute. reflexivity.
  - intros i. do 45 (destruct i as [|i]; [reflexivity|]).
    destruct i; reflexivity.
Defined.

(** X2.  An element that [extractSvg] has taken from a reply passes
    through [extractSvg] unchanged: extraction is idempotent on every
    text in which the expression matches. *)
Theorem extractSvg_idempotent (text m : jsstring) :
  search svg_regex text = Some m ->
  extractSvg m = m /\ extractSvg (extractSvg text) = extractSvg text.
Proof.
  intros H.
  assert (Em : extractSvg text = m) by (unfold extractSvg; now rewrite H).
  assert (I : extractSvg m = m); [|rewrite Em; auto].
  destruct (search_svg_parts _ H) as (pre & o & body & c & post & _ & -> & Ho & Hc & _ & Hb).
  unfold extractSvg.
  replace (o ++ body ++ c) with ([] ++ o ++ body ++ c ++ [])
    by (cbn [app]; rewrite app_nil_r; reflexivity).
  rewrite search_svg_exact; try assumption.
  - cbn [app]. rewrite app_nil_r. reflexivity.
  - reflexivity.
  - rewrite app_nil_r. rewrite app_assoc in Hb.
    apply occurs_before_app in Hb. exact Hb.
Qed.

(** An element found in a reply with commentary is found again in
    itself. *)
Lemma extractSvg_idempotent_witness :
  extractSvg (jq "<svg id='a'><g/></svg>") = jq "<svg id='a'><g/></svg>".
Proof.
  apply (proj1 (@extractSvg_idempotent
                  (jq "Sure: <svg id='a'><g/></svg> and <svg id='b'></svg>")
                  (jq "<svg id='a'><g/></svg>") eq_refl)).
Defined.

(** What falls back need not pass unchanged: deleting a fence can bring
    an element together. *)
Example extractSvg_fallback_not_idempotent :
  extractSvg (jq "<sv```g></svg>") = jq "<svg></svg>"
  /\ search svg_regex (jq "<sv```g></svg>") = None
  /\ extractSvg (jq "a<sv```g></svg>b") = jq "a<svg></svg>b"
  /\ extractSvg (extractSvg (jq "a<sv```g></svg>b")) = jq "<svg></svg>".
Proof. vm_compute. repeat split. Qed.

(* ------------------------------------------------------------------ *)
(** ** Nothing is made up *)

Lemma subsequence_nil b : subsequence [] b = true.
Proof. destruct b; reflexivity. Qed.

Lemma subsequence_tail x a b :
  subsequence (x :: a) b = true -> subsequence a b = true.
Proof.
  revert x a; induction b as [|y b IH]; intros x a; [discriminate|].
  cbn [subsequence]. destruct (jschar_eqb x y).
  - destruct a as [|z a]; [reflexivity|]. intros H. cbn [subsequence].
    destruct (jschar_eqb z y); [now apply (IH z) | exact H].
  - intros H. apply IH in H. destruct a as [|z a]; [reflexivity|].
    cbn [subsequence]. destruct (jschar_eqb z y); [now apply (IH z) | exact H].
Qed.

Lemma subsequence_drop y a b :
  subsequence a b = true -> subsequence a (y :: b) = true.
Proof.
  destruct a as [|x a]; [reflexivity|]. cbn [subsequence]. intros H.
  destruct (jschar_eqb x y); [now apply (subsequence_tail x) | exact H].
Qed.

Lemma subsequence_keep x a b :
  subsequence a b = true -> subsequence (x :: a) (x :: b) = true.
Proof.
  intros H. cbn [subsequence]. unfold jschar_eqb. now rewrite N.eqb_refl.
Qed.


Lemma subsequence_skip pre a b :
  subsequence a b = true -> subsequence a (pre ++ b) = true.
Proof.
  intros H. induction pre as [|x pre IH]; [exact H|].
  cbn [app]. now apply subsequence_drop.
Qed.

Lemma subsequence_prefix a post : subsequence a (a ++ post) = true.
Proof.
  induction a as [|x a IH]; [apply subsequence_nil|]. cbn [app].
  now apply subsequence_keep.
Qed.

Lemma subsequence_skipn n a b :
  subsequence a (skipn n b) = true -> subsequence a b = true.
Proof.
  rewrite <- (firstn_skipn n b) at 2. apply subsequence_skip.
Qed.

Lemma subsequence_length a b : subsequence a b = true -> length a <= length b.
Proof.
  revert a; induction b as [|y b IH]; intros [|x a]; cbn [subsequence length];
    try discriminate; try lia.
  destruct (jschar_eqb x y); intros H; apply IH in H; cbn [length] in H; lia.
Qed.

(** The global replacement only deletes. *)
Lemma delete_all_subsequence s :
  subsequence (delete_all fence_regex s) s = true.
Proof.
  remember (length s) as n eqn:L. revert s L.
  induction n as [n IH] using lt_wf_ind. intros s ->.
  rewrite delete_all_fence_step.
  destruct (starts_with false fence s) eqn:E.
  - destruct (after_fence_skipn _ E) as (k & -> & Lk).
    apply (subsequence_skipn (S k)).
    apply (IH (length (skipn (S k) s))); [|reflexivity].
    rewrite length_skipn. lia.
  - destruct s as [|c s]; [reflexivity|].
    apply subsequence_keep. apply (IH (length s)); [simpl; lia | reflexivity].
Qed.

Lemma subsequence_trans a b c :
  subsequence a b = true -> subsequence b c = true -> subsequence a c = true.
Proof.
  revert a b; induction c as [|z c IH]; intros a b Hab Hbc.
  - destruct b; [|discriminate]. destruct a; [reflexivity | discriminate].
  - destruct b as [|y b]; [destruct a; [reflexivity | discriminate]|].
    destruct a as [|x a]; [reflexivity|].
    cbn [subsequence] in *.
    destruct (jschar_eqb y z) eqn:Eyz.
    + apply N.eqb_eq in Eyz. subst z.
      destruct (jschar_eqb x y).
      * now apply (IH a b).
      * apply (IH (x :: a) b); assumption.
    + destruct (jschar_eqb x z) eqn:Exz.
      * apply (IH a (y :: b)); [|exact Hbc].
        destruct (jschar_eqb x y);
          [now apply subsequence_drop
          | now apply subsequence_drop, (subsequence_tail x)].
      * apply (IH (x :: a) (y :: b)); [|exact Hbc].
        cbn [subsequence]. exact Hab.
Qed.

(** X3.  [extractSvg] makes nothing up: what it returns is the reply
    with units left out, the units kept in their order, so it is never
    longer than the reply. *)
Theorem extractSvg_subsequence (text : jsstring) :
  subsequence (extractSvg text) text = true
  /\ length (extractSvg text) <= length text.
Proof.
  assert (H : subsequence (extractSvg text) text = true);
    [|split; [exact H | now apply subsequence_length]].
  unfold extractSvg. destruct (search svg_regex text) as [m|] eqn:E.
  - apply search_svg_inv in E as (pre & post & -> & _).
    apply subsequence_skip, subsequence_prefix.
  - apply (@subsequence_trans _ (delete_all fence_regex text));
      [|apply delete_all_subsequence].
    destruct (trim_spec (delete_all fence_regex text)) as (a & b & Et & _).
    rewrite Et at 2. apply subsequence_skip, subsequence_prefix.
Qed.

(* ------------------------------------------------------------------ *)
(** ** The bytes of a data URL *)

Lemma until_comma_all s : no_comma s = true -> until_comma s = s.
Proof.
  induction s as [|c s IH]; [reflexivity|]. cbn [no_comma forallb until_comma].
  intros H. apply andb_true_iff in H as [H1 H2].
  destruct (c =? 44)%N; [discriminate H1|]. f_equal. now apply IH.
Qed.

(** X4.  What a request carries of an image.  For a data URL, a header
    without comma, a comma, and a payload without comma (base64 has
    none), the inline data is exactly the payload, under the type the
    image has; for data without any comma it is [undefined], and the
    request is sent all the same. *)
Theorem inlineData_payload (header payload mime : jsstring) :
  no_comma header = true ->
  (no_comma payload = true ->
   inlineData {| data := header ++ js "," ++ payload; mimeType := mime |}
   = InlineData (Some payload) mime)
  /\ inlineData {| data := header; mimeType := mime |} = InlineData None mime.
Proof.
  intros Hh. unfold inlineData. cbn [data mimeType]. split.
  - intros Hp. f_equal.
    induction header as [|c h IH]; cbn [app split_comma_1].
    + change (js ",") with [44%N]. cbn [app split_comma_1 N.eqb Pos.eqb].
      f_equal. now apply until_comma_all.
    + cbn [no_comma forallb] in Hh. apply andb_true_iff in Hh as [H1 H2].
      destruct (c =? 44)%N; [discriminate H1|]. now apply IH.
  - f_equal. induction header as [|c h IH]; [reflexivity|].
    cbn [no_comma forallb] in Hh. apply andb_true_iff in Hh as [H1 H2].
    cbn [split_comma_1]. destruct (c =? 44)%N; [discriminate H1|]. now apply IH.
Qed.

(** The upload of the worked runs: a PNG as the file reader encodes it. *)
Lemma inlineData_payload_witness :
  inlineData {| data := js "data:image/png;base64,iVBORw0KGgo=";
                mimeType := js "image/png" |}
  = InlineData (Some (js "iVBORw0KGgo=")) (js "image/png").
Proof.
  apply (proj1 (@inlineData_payload (js "data:image/png;base64")
                  (js "iVBORw0KGgo=") (js "image/png") eq_refl) eq_refl).
Defined.

(* ================================================================== *)
(** * The stages of the pipeline, one by one *)

Section StageFacts.
Context {host : Host}.

Lemma returns_bind_with A B (Qa : A -> Prop) (Q : B -> Prop)
    (p : Prog A) (f : A -> Prog B) :
  returns Qa p -> (forall a, Qa a -> returns Q (f a)) -> returns Q (bind p f).
Proof.
  intros Hp Hf. induction p as [a|e|o k IH|X q k IH]; cbn [bind returns] in *; auto.
Qed.

Lemma or_default_nonempty text fallback :
  nonempty fallback = true -> nonempty (or_default text fallback) = true.
Proof.
  intros H. destruct text as [t|]; cbn [or_default]; [|exact H].
  destruct (nonempty t) eqn:E; [exact E | exact H].
Qed.

Lemma auditDraft_returns img draft :
  returns (fun r => nonempty r = true) (auditDraft img draft).
Proof.
  unfold auditDraft, generateContent. cbn [bind returns].
  intros [e|text]; cbn [bind returns]; [exact I|].
  apply or_default_nonempty. reflexivity.
Qed.

Lemma runViewPipeline_returns prompt img v cb :
  returns (fun res => nonempty (auditReport res) = true)
    (runViewPipeline prompt img v cb).
Proof.
  unfold runViewPipeline, effect_. cbn [bind returns].
  apply returns_bind_with with (Qa := fun _ => True).
  { unfold generateDraft, generateContent, extractSvg_text. cbn [bind returns].
    intros [e|[t|]]; exact I. }
  intros draft _. cbn [bind returns].
  apply returns_bind_with with (Qa := fun r => nonempty r = true);
    [apply auditDraft_returns|].
  intros audit Ha. cbn [bind returns].
  unfold healDraft, generateContent, extractSvg_text. cbn [bind returns].
  intros [e|[t|]]; cbn [bind returns auditReport]; auto.
Qed.

(** X5.  The audit report is never empty.  [auditDraft] rejects with what
    the request rejected with; otherwise it resolves to the text of the
    reply, or to [No major issues found.] when the reply has no text or
    an empty one.  So whenever [runViewPipeline] resolves, its
    [auditReport] is a non-empty text. *)
Theorem auditReport_never_empty (prompt : jsstring) (img : ImageData)
    (v : ViewType) (cb : jsstring -> effect) (draft : jsstring) (m : Machine) :
  (let '(out, _) := respond (GenerateContent (audit_request img draft)) (world m) in
   fst (exec (auditDraft img draft) m) =
   match out with
   | CallFailed e => Rejected e
   | Response text => Resolved (or_default text (js "No major issues found."))
   end)
  /\ (forall r m', exec (auditDraft img draft) m = (Resolved r, m') ->
        nonempty r = true)
  /\ (forall res m',
        exec (runViewPipeline prompt img v cb) m = (Resolved res, m') ->
        nonempty (auditReport res) = true).
Proof.
  split; [|split].
  - unfold auditDraft, generateContent. cbn [bind]. rewrite exec_ask.
    destruct (respond _ (world m)) as [[e|text] w]; reflexivity.
  - intros r m' E.
    exact (@exec_returns _ _ (fun r => nonempty r = true) _ _ _ _
             (auditDraft_returns img draft) E).
  - intros res m' E.
    exact (@exec_returns _ _ (fun res => nonempty (auditReport res) = true)
             _ _ _ _ (runViewPipeline_returns prompt img v cb) E).
Qed.

(** X6.  How much of the draft each later stage is shown.  The audit
    request quotes the first 50,000 code units of the draft and no more:
    two drafts that agree there get the same audit request, and the text
    of the request grows by what is quoted only.  The heal request
    quotes the draft in full: equal requests mean equal drafts. *)
Theorem audit_request_truncates (img : ImageData) (d1 d2 : jsstring) :
  (firstn (N.to_nat 50000) d1 = firstn (N.to_nat 50000) d2 ->
   audit_request img d1 = audit_request img d2)
  /\ (exists text,
        parts (audit_request img d1) = [inlineData img; Text text]
        /\ length text
           = length (js "SOURCE_IMAGE: (Attached)") + 2
             + length (js "VECTOR_DRAFT_CODE:") + 1
             + Nat.min (N.to_nat 50000) (length d1)
             + length (js "... ") + 2
             + length (js "Conduct a technical audit. List missing features or distortions."))
  /\ (forall audit,
        heal_request img d1 audit = heal_request img d2 audit -> d1 = d2).
Proof.
  split; [|split].
  - unfold audit_request, slice0. intros H. rewrite H. reflexivity.
  - eexists. split; [reflexivity|].
    unfold slice0, lines, newline. rewrite !length_app, length_firstn.
    cbn [length]. lia.
  - intros audit H. unfold heal_request in H.
    injection H as H. apply app_inv_tail in H. exact H.
Qed.

End StageFacts.

(* ================================================================== *)
(** * The detector: why it rejects, when it crops *)

Section DetectorFacts.
Context {host : Host}.

(** The three ways a crop can go, each with what it asked. *)
Lemma cropImage_outcome base64Data box m :
  let r := fst (exec (cropImage base64Data box) m) in
  let m' := snd (exec (cropImage base64Data box) m) in
  state m' = state m /\
  ((r = Rejected NonError
    /\ log m' = log m ++ [Asked (LoadImage base64Data) LoadFailed])
   \/ (r = Rejected no_context
       /\ exists W H,
            log m' = log m ++ [Asked (LoadImage base64Data) (Loaded W H);
                               Asked GetContext2d false])
   \/ (exists W H canvas url,
         r = Resolved {| data := url; mimeType := js "image/jpeg" |}
         /\ log m' = log m ++ [Asked (LoadImage base64Data) (Loaded W H);
                               Asked GetContext2d true;
                               Asked (ToDataURL canvas (js "image/jpeg") 0.95) url])).
Proof.
  cbv zeta. unfold cropImage. rewrite exec_ask.
  destruct (respond (LoadImage base64Data) (world m)) as [[W H|] w1];
    cbn [fst snd]; [|cbn [exec fst snd state log]; split; [reflexivity|]; left; auto].
  rewrite exec_ask. cbn [world].
  destruct (respond GetContext2d w1) as [[|] w2]; cbn [fst snd negb].
  - rewrite exec_ask. cbn [exec world log fst snd state].
    split; [reflexivity|]. right. right.
    destruct (respond _ w2) as [url w3]. cbn [fst snd].
    do 4 eexists. split; [reflexivity|].
    rewrite <- !app_assoc. reflexivity.
  - cbn [exec fst snd log state]. split; [reflexivity|]. right. left.
    split; [reflexivity|]. exists W, H. rewrite <- !app_assoc. reflexivity.
Qed.

Lemma found_box_value found box result :
  found_box found box result =
  match result with
  | JSON.Null => Throw (ErrorObject TypeError (engineMessage (ReadOfNull found)))
  | _ => Ret (if marked found box result then JSON.member box result else None)
  end.
Proof.
  unfold found_box, read, marked.
  destruct result; cbn [bind]; try reflexivity;
    destruct (JSON.truthy (JSON.member found _)); cbn [bind andb]; reflexivity.
Qed.

(** A crop that is made only if there is a box. *)
Lemma crop_if_box_outcome (img : ImageData) (b : option JSON.value) m :
  let p := match b with
           | Some box =>
               bind (cropImage (data img) (asBoundingBox box))
                 (fun c => Ret (Some c))
           | None => Ret None
           end in
  let r := fst (exec p m) in
  let m' := snd (exec p m) in
  state m' = state m /\
  match r with
  | Resolved c => (c = None <-> b = None) /\ exists l, log m' = log m ++ l
  | Rejected e =>
      exists l x,
        log m' = log m ++ l ++ [x]
        /\ ((x = Asked (LoadImage (data img)) LoadFailed /\ e = NonError)
            \/ (x = Asked GetContext2d false /\ e = no_context))
  end.
Proof.
  cbv zeta. destruct b as [box|].
  - rewrite exec_bind.
    destruct (cropImage_outcome (data img) (asBoundingBox box) m) as [St H].
    destruct (exec (cropImage (data img) (asBoundingBox box)) m) as [r m1].
    cbn [fst snd] in *.
    destruct H as [[-> L] | [[-> (W & H & L)] | (W & H & canvas & url & -> & L)]];
      cbn [exec fst snd].
    + split; [exact St|]. exists [], (Asked (LoadImage (data img)) LoadFailed).
      split; [exact L | left; auto].
    + split; [exact St|].
      exists [Asked (LoadImage (data img)) (Loaded W H)], (Asked GetContext2d false).
      split; [exact L | right; auto].
    + split; [exact St|]. split; [split; discriminate|]. eexists. exact L.
  - cbn [exec fst snd]. split; [reflexivity|]. split; [tauto|].
    exists []. now rewrite app_nil_r.
Qed.

Lemma found_box_nonnull found box result :
  result <> JSON.Null ->
  found_box found box result
  = Ret (if marked found box result then JSON.member box result else None).
Proof. intros N. rewrite found_box_value. destruct result; congruence. Qed.

Lemma marked_box found box result :
  (if marked found box result then JSON.member box result else None) <> None
  <-> marked found box result = true.
Proof.
  assert (F : None <> (None : option JSON.value) <-> false = true)
    by (split; [intros H; now contradiction H | discriminate]).
  unfold marked. destruct (JSON.truthy (JSON.member found result)); cbn [andb];
    [|exact F].
  destruct (JSON.truthy (JSON.member box result)) eqn:T; [|exact F].
  destruct (JSON.member box result); [|discriminate T].
  split; [reflexivity | discriminate].
Qed.

(** A run of the detector, step by step. *)
Lemma detectAndCropViews_run img m :
  let r := fst (exec (detectAndCropViews img) m) in
  let m' := snd (exec (detectAndCropViews img) m) in
  let req := GenerateContent (detect_request img) in
  state m' = state m /\
  match fst (respond req (world m)) with
  | CallFailed e =>
      r = Rejected e /\ log m' = log m ++ [Asked req (CallFailed e)]
  | Response text =>
      let source := or_default text (js "{}") in
      let reply := Asked req (Response text) in
      match JSON.parse source with
      | None =>
          r = Rejected (ErrorObject SyntaxError (engineMessage (BadJSON source)))
          /\ log m' = log m ++ [reply]
      | Some result =>
          match r with
          | Resolved crops =>
              result <> JSON.Null
              /\ (crop_side crops <> None
                  <-> marked (js "sideViewFound") (js "sideViewBox") result = true)
              /\ (crop_top crops <> None
                  <-> marked (js "topViewFound") (js "topViewBox") result = true)
              /\ exists l, log m' = log m ++ reply :: l
          | Rejected e =>
              (result = JSON.Null
               /\ e = ErrorObject TypeError
                        (engineMessage (ReadOfNull (js "sideViewFound")))
               /\ log m' = log m ++ [reply])
              \/ (result <> JSON.Null
                  /\ exists l x,
                       log m' = log m ++ reply :: l ++ [x]
                       /\ ((x = Asked (LoadImage (data img)) LoadFailed
                            /\ e = NonError)
                           \/ (x = Asked GetContext2d false /\ e = no_context)))
          end
      end
  end.
Proof.
  cbv zeta. unfold detectAndCropViews. rewrite exec_bind.
  assert (G : exec (generateContent (detect_request img)) m =
              let req := GenerateContent (detect_request img) in
              let m1 := {| world := snd (respond req (world m));
                           state := state m;
                           log := log m ++ [Asked req (fst (respond req (world m)))] |} in
              match fst (respond req (world m)) with
              | CallFailed e => (Rejected e, m1)
              | Response text => (Resolved text, m1)
              end).
  { unfold generateContent. rewrite exec_ask. cbv zeta.
    destruct (fst (respond _ (world m))); reflexivity. }
  rewrite G. clear G. cbv zeta.
  destruct (respond (GenerateContent (detect_request img)) (world m))
    as [[e|text] w1]; cbn [fst snd]; [repeat split|].
  set (m1 := {| world := w1; state := state m; log := _ |}).
  destruct (JSON.parse (or_default text (js "{}"))) as [result|];
    [|cbn [exec fst snd]; repeat split].
  assert (D : result = JSON.Null \/ result <> JSON.Null)
    by (destruct result; auto; right; discriminate).
  destruct D as [->|N].
  { rewrite found_box_value. cbn [bind exec fst snd]. split; [reflexivity|].
    left. auto. }
  rewrite !(found_box_nonnull _ _ N). cbn [bind].
  set (sb := if marked (js "sideViewFound") _ _ then _ else _).
  set (tb := if marked (js "topViewFound") _ _ then _ else _).
  pose proof (marked_box (js "sideViewFound") (js "sideViewBox") result) as Ms.
  pose proof (marked_box (js "topViewFound") (js "topViewBox") result) as Mt.
  fold sb in Ms. fold tb in Mt.
  rewrite exec_bind.
  destruct (crop_if_box_outcome img sb m1) as [S1 H1].
  destruct (exec match sb with Some _ => _ | None => _ end m1) as [[cs|e] m2];
    cbn [fst snd] in *.
  2:{ split; [exact S1|]. right. split; [exact N|].
      destruct H1 as (l & x & L & Hx). exists l, x. split; [|exact Hx].
      rewrite L. unfold m1. cbn [log]. rewrite <- !app_assoc. reflexivity. }
  destruct H1 as [I1 [l1 L1]].
  rewrite exec_bind.
  destruct (crop_if_box_outcome img tb m2) as [S2 H2].
  destruct (exec match tb with Some _ => _ | None => _ end m2) as [[ct|e] m3];
    cbn [fst snd exec] in *.
  - split; [rewrite S2, S1; reflexivity|]. split; [exact N|]. cbn [crop_side crop_top].
    destruct H2 as [I2 [l2 L2]].
    split; [rewrite <- Ms; split; intros A B; apply A; now apply I1|].
    split; [rewrite <- Mt; split; intros A B; apply A; now apply I2|].
    exists (l1 ++ l2). rewrite L2, L1. unfold m1. cbn [log].
    rewrite <- !app_assoc. reflexivity.
  - split; [rewrite S2, S1; reflexivity|]. right. split; [exact N|].
    destruct H2 as (l & x & L & Hx). exists (l1 ++ l), x. split; [|exact Hx].
    rewrite L, L1. unfold m1. cbn [log]. rewrite <- !app_assoc. reflexivity.
Qed.

(** X7.  Why the detector rejects.  A run of [detectAndCropViews]
    rejects for one of five reasons and stops right there: the last thing
    it asked is what failed.  The request rejected, and the detector
    rejects with the same value; the text of the reply is not JSON (a
    [SyntaxError]); the reply is the JSON [null], so that reading
    [sideViewFound] of it throws a [TypeError]; the image did not load in
    the cropper (the value thrown is the event, which has no message);
    or the canvas gave no drawing context.  In no case was the
    application state touched. *)
Theorem detectAndCropViews_rejections (img : ImageData) (m : Machine)
    (e : Thrown) (m' : Machine) :
  exec (detectAndCropViews img) m = (Rejected e, m') ->
  let req := GenerateContent (detect_request img) in
  state m' = state m
  /\ exists l x,
       log m' = log m ++ l ++ [x]
       /\ (x = Asked req (CallFailed e)
           \/ (exists text,
                 x = Asked req (Response text) /\ l = []
                 /\ let source := or_default text (js "{}") in
                    (JSON.parse source = None
                     /\ e = ErrorObject SyntaxError (engineMessage (BadJSON source)))
                    \/ (JSON.parse source = Some JSON.Null
                        /\ e = ErrorObject TypeError
                                 (engineMessage (ReadOfNull (js "sideViewFound")))))
           \/ (x = Asked (LoadImage (data img)) LoadFailed /\ e = NonError)
           \/ (x = Asked GetContext2d false /\ e = no_context)).
Proof.
  intros E. cbv zeta.
  pose proof (detectAndCropViews_run img m) as R. cbv zeta in R.
  rewrite E in R. cbn [fst snd] in R. destruct R as [St R].
  split; [exact St|].
  destruct (fst (respond (GenerateContent (detect_request img)) (world m)))
    as [e0|text].
  - destruct R as [[= <-] L]. exists [], (Asked (GenerateContent (detect_request img)) (CallFailed e)).
    split; [exact L | left; reflexivity].
  - destruct (JSON.parse (or_default text (js "{}"))) as [result|] eqn:P.
    + destruct R as [(-> & -> & L) | (N & l & x & L & Hx)].
      * exists [], (Asked (GenerateContent (detect_request img)) (Response text)).
        split; [exact L|]. right. left. exists text.
        split; [reflexivity|]. split; [reflexivity|]. right. auto.
      * exists (Asked (GenerateContent (detect_request img)) (Response text) :: l), x.
        split; [exact L|]. right. right. exact Hx.
    + destruct R as [[= ->] L].
      exists [], (Asked (GenerateContent (detect_request img)) (Response text)).
      split; [exact L|]. right. left. exists text.
      split; [reflexivity|]. split; [reflexivity|]. left. auto.
Qed.

(** X8.  When the detector crops.  In a run of [detectAndCropViews] that
    resolves, the reply decoded to a value [result] that is not [null],
    and there is a side crop exactly when both [result.sideViewFound] and
    [result.sideViewBox] are truthy, a top crop exactly when both
    [result.topViewFound] and [result.topViewBox] are: a flag without a
    box, or a box without a flag, gives no crop and no error. *)
Theorem detectAndCropViews_crops_iff (img : ImageData) (m : Machine)
    (crops : Crops) (m' : Machine) :
  exec (detectAndCropViews img) m = (Resolved crops, m') ->
  exists text result l,
    log m' = log m ++ Asked (GenerateContent (detect_request img)) (Response text) :: l
    /\ JSON.parse (or_default text (js "{}")) = Some result
    /\ result <> JSON.Null
    /\ (crop_side crops <> None
        <-> marked (js "sideViewFound") (js "sideViewBox") result = true)
    /\ (crop_top crops <> None
        <-> marked (js "topViewFound") (js "topViewBox") result = true).
Proof.
  intros E.
  pose proof (detectAndCropViews_run img m) as R. cbv zeta in R.
  rewrite E in R. cbn [fst snd] in R. destruct R as [_ R].
  destruct (fst (respond (GenerateContent (detect_request img)) (world m)))
    as [e0|text]; [destruct R as [[=] _]|].
  destruct (JSON.parse (or_default text (js "{}"))) as [result|] eqn:P;
    [|destruct R as [[=] _]].
  destruct R as (N & Hs & Ht & l & L).
  exists text, result, l. auto.
Qed.

End DetectorFacts.

(* ================================================================== *)
(** * [handleGenerate]: how a run ends *)

Section GenerateEnds.
Context {host : Host}.

(** What [generate_views] does, with what is known of the views the
    tasks make. *)
Lemma generate_views_project (P : Entry -> Prop)
    (Vs Vt : GeneratedSvg.t -> Prop) prompt np crops m :
  (forall c, emits P (side_task prompt c)) ->
  (forall c, emits P (top_task prompt c)) ->
  (forall c, returns (fun f => exists v, f = set_sideView v /\ Vs v)
               (side_task prompt c)) ->
  (forall c, returns (fun f => exists v, f = set_topView v /\ Vt v)
               (top_task prompt c)) ->
  WarshipProject.sideView np = None -> WarshipProject.topView np = None ->
  let report := fst (generate_views prompt np crops m) in
  let m' := snd (generate_views prompt np crops m) in
  detected report = Some (Resolved crops)
  /\ (side_pipeline report = None <-> crop_side crops = None)
  /\ (top_pipeline report = None <-> crop_top crops = None)
  /\ exists l1 r m0 l2,
    extends m m0 l1 /\ Forall P l1
    /\ extends (settle r m0) m' l2 /\ Forall P l2
    /\ (crop_side crops = None \/ crop_top crops = None -> l2 = [])
    /\ match r with
       | Resolved np' =>
           l2 = []
           /\ side_pipeline report
              = option_map (fun _ => Resolved tt) (crop_side crops)
           /\ top_pipeline report
              = option_map (fun _ => Resolved tt) (crop_top crops)
           /\ (crop_side crops <> None \/ crop_top crops <> None)
           /\ WarshipProject.id np' = WarshipProject.id np
           /\ WarshipProject.originalImage np' = WarshipProject.originalImage np
           /\ match crop_side crops with
              | Some _ => exists v, WarshipProject.sideView np' = Some v /\ Vs v
              | None => WarshipProject.sideView np' = None
              end
           /\ match crop_top crops with
              | Some _ => exists v, WarshipProject.topView np' = Some v /\ Vt v
              | None => WarshipProject.topView np' = None
              end
       | Rejected e =>
           (crop_side crops = None /\ crop_top crops = None /\ e = no_views)
           \/ side_pipeline report = Some (Rejected e)
           \/ top_pipeline report = Some (Rejected e)
       end.
Proof.
  intros Es Et Rs Rt Hs Ht. cbv zeta. unfold generate_views.
  destruct (crop_side crops) as [s|]; destruct (crop_top crops) as [t|].
  - pose proof (@join_all_joined _ P _ _ _ (Es s) (Rs s)
                  (top_task prompt t) np settle m (Et t) (Rt t)) as J.
    destruct (join_all (side_task prompt s) (top_task prompt t) np settle m)
      as [[ra rb] m'].
    destruct J as (l1 & r & m0 & l2 & E1 & F1 & E2 & F2 & Hr).
    cbn [fst snd detected side_pipeline top_pipeline].
    split; [reflexivity|]. split; [split; discriminate|].
    split; [split; discriminate|].
    exists l1, r, m0, l2.
    repeat (split; [assumption|]).
    split; [intros [C|C]; discriminate C|].
    destruct r as [np'|e].
    + destruct Hr as (-> & -> & -> & f & g & (vs & -> & Hvs) & (vt & -> & Hvt) & Hnp).
      cbn [side_pipeline top_pipeline option_map].
      repeat (split; [reflexivity|]).
      split; [left; discriminate|].
      destruct Hnp as [-> | ->]; cbn; repeat split; eauto.
    + cbn [side_pipeline top_pipeline].
      destruct Hr as [-> | ->]; [right; left | right; right]; reflexivity.
  - destruct (@join_last_single _ P _ (side_task prompt s) np m (Es s) (Rs s))
      as (l1 & r & m0 & E1 & F1 & E2 & Hr).
    destruct (join_last (side_task prompt s) np settle m) as [rs m'].
    cbn [fst snd] in *. subst m'.
    cbn [detected side_pipeline top_pipeline].
    split; [reflexivity|].
    split; [split; first [discriminate | reflexivity]|].
    split; [split; first [discriminate | reflexivity]|].
    exists l1, r, m0, [].
    repeat (split; [first [assumption | apply extends_refl | constructor]|]).
    cbn [side_pipeline top_pipeline option_map].
    destruct r as [np'|e].
    + destruct Hr as (-> & f & (vs & -> & Hvs) & ->).
      repeat (split; [reflexivity|]).
      split; [left; discriminate|].
      cbn. repeat split; eauto.
    + right. left. now rewrite Hr.
  - destruct (@join_last_single _ P _ (top_task prompt t) np m (Et t) (Rt t))
      as (l1 & r & m0 & E1 & F1 & E2 & Hr).
    destruct (join_last (top_task prompt t) np settle m) as [rt m'].
    cbn [fst snd] in *. subst m'.
    cbn [detected side_pipeline top_pipeline].
    split; [reflexivity|].
    split; [split; first [discriminate | reflexivity]|].
    split; [split; first [discriminate | reflexivity]|].
    exists l1, r, m0, [].
    repeat (split; [first [assumption | apply extends_refl | constructor]|]).
    cbn [side_pipeline top_pipeline option_map].
    destruct r as [np'|e].
    + destruct Hr as (-> & f & (vt & -> & Hvt) & ->).
      repeat (split; [reflexivity|]).
      split; [right; discriminate|].
      cbn. repeat split; eauto.
    + right. right. now rewrite Hr.
  - cbn [fst snd detected side_pipeline top_pipeline].
    split; [reflexivity|]. split; [split; reflexivity|].
    split; [split; reflexivity|].
    exists [], (Rejected no_views), m, [].
    repeat (split; [first [assumption | apply extends_refl | constructor]|]).
    left. repeat split.
Qed.

Lemma side_task_views prompt c :
  returns (fun f => exists v, f = set_sideView v /\ view_ok prompt side v)
    (side_task prompt c).
Proof.
  unfold side_task.
  apply returns_bind_with
    with (Qa := fun res => nonempty (auditReport res) = true);
    [apply runViewPipeline_returns|].
  intros res Hres. unfold new_view, ask. cbn [bind returns]. intros x y.
  eexists. split; [reflexivity|]. unfold view_ok. cbn.
  repeat split; [discriminate | eauto].
Qed.

Lemma top_task_views prompt c :
  returns (fun f => exists v, f = set_topView v /\ view_ok prompt top v)
    (top_task prompt c).
Proof.
  unfold top_task.
  apply returns_bind_with
    with (Qa := fun res => nonempty (auditReport res) = true);
    [apply runViewPipeline_returns|].
  intros res Hres. unfold new_view, ask. cbn [bind returns]. intros x y.
  eexists. split; [reflexivity|]. unfold view_ok. cbn.
  repeat split; [discriminate | eauto].
Qed.

(** What the two tasks write is a stage tag of theirs, nothing else. *)
Lemma task_tags prompt c :
  emits tag_entry (side_task prompt c) /\ emits tag_entry (top_task prompt c).
Proof.
  assert (T : forall v, v = side \/ v = top ->
                emits tag_entry (runViewPipeline prompt c v SetPipelineStatus)).
  { intros v Hv.
    unfold runViewPipeline, generateDraft, auditDraft, healDraft,
      generateContent, extractSvg_text, effect_.
    cbn [bind emits].
    split; [destruct Hv as [-> | ->]; cbn; auto 10|].
    intros [e1|[t1|]]; (split; [exact I|]); cbn [bind emits]; try exact I.
    split; [destruct Hv as [-> | ->]; cbn; auto 10|].
    intros [e2|t2]; (split; [exact I|]); cbn [bind emits]; try exact I.
    split; [destruct Hv as [-> | ->]; cbn; auto 10|].
    intros [e3|[t3|]]; (split; [exact I|]); cbn [bind emits]; exact I. }
  assert (V : forall res v (k : GeneratedSvg.t -> Mutation),
                emits tag_entry (bind (new_view res prompt v) (fun x => Ret (k x)))).
  { intros res v k. unfold new_view, ask. cbn [bind emits].
    intros x. split; [exact I|]. intros y. split; exact I. }
  split.
  - unfold side_task. apply emits_bind; [apply T; auto | intros; apply V].
  - unfold top_task. apply emits_bind; [apply T; auto | intros; apply V].
Qed.

Lemma tag_entry_status_only e : tag_entry e -> status_only e.
Proof. destruct e as [o|X q x]; cbn; [destruct o|]; auto. Qed.

(** After stage tags only, the pipeline status is the one of before or a
    stage tag, and nothing else has changed. *)
Lemma replay_tag_entry l st :
  Forall tag_entry l ->
  same_but_pipelineStatus st (replay l st)
  /\ (pipelineStatus (replay l st) = pipelineStatus st
      \/ In (pipelineStatus (replay l st)) stage_tags).
Proof.
  intros F. split.
  { apply replay_status_only. eapply Forall_impl; [|exact F].
    apply tag_entry_status_only. }
  revert st. induction F as [|e l He F IH]; intros st; [left; reflexivity|].
  destruct e as [o|X q x];
    [|change (replay (Asked q x :: l) st) with (replay l st); apply IH].
  destruct o; try contradiction He.
  change (replay (Performed (SetPipelineStatus s) :: l) st)
    with (replay l (apply_effect (SetPipelineStatus s) st)).
  destruct (IH (apply_effect (SetPipelineStatus s) st)) as [E|E]; [|right; exact E].
  right. rewrite E. exact He.
Qed.


(** The three ways a run of [handleGenerate] can go. *)
Lemma handleGenerate_run_shape rendered prompt imageData m :
  let report := fst (handleGenerate_run rendered prompt imageData m) in
  let m' := snd (handleGenerate_run rendered prompt imageData m) in
  (image_to_process rendered imageData = None
   /\ m' = begun m /\ detected report = None)
  \/ (exists img e m2,
        image_to_process rendered imageData = Some img
        /\ exec (detectAndCropViews img) (begun m) = (Rejected e, m2)
        /\ report = {| detected := Some (Rejected e); side_pipeline := None;
                       top_pipeline := None |}
        /\ m' = settle (Rejected e) m2)
  \/ (exists crops, detected report = Some (Resolved crops)).
Proof.
  cbv zeta. unfold handleGenerate_run.
  fold (image_to_process rendered imageData). fold (begun m).
  destruct (image_to_process rendered imageData) as [img|]; [|left; auto].
  right.
  destruct (exec (detectAndCropViews img) (begun m)) as [[crops|e] m2] eqn:E.
  - right. exists crops. destruct (answer RandomUUID m2) as [uuid m3].
    match goal with
    | |- detected (fst (generate_views ?p ?np ?c ?mm)) = _ =>
        destruct (@generate_views_joined _ (fun _ => True) p np c mm) as [D' _];
          try reflexivity; try (intros; apply emits_any); exact D'
    end.
  - left. exists img, e, m2. auto.
Qed.

(** A run in which the detector resolved, up to the join and after. *)
Lemma handleGenerate_run_joined (P : Entry -> Prop)
    rendered prompt imageData m crops :
  (forall c, emits P (side_task prompt c)) ->
  (forall c, emits P (top_task prompt c)) ->
  let report := fst (handleGenerate_run rendered prompt imageData m) in
  let m' := snd (handleGenerate_run rendered prompt imageData m) in
  detected report = Some (Resolved crops) ->
  (side_pipeline report = None <-> crop_side crops = None)
  /\ (top_pipeline report = None <-> crop_top crops = None)
  /\ exists img uuid m3 l1 r m0 l2,
       image_to_process rendered imageData = Some img
       /\ state m3 = apply_effect (SetStatus LOADING) (state (begun m))
       /\ extends m3 m0 l1 /\ Forall P l1
       /\ extends (settle r m0) m' l2 /\ Forall P l2
       /\ (crop_side crops = None \/ crop_top crops = None -> l2 = [])
       /\ match r with
          | Resolved np' =>
              l2 = []
              /\ side_pipeline report
                 = option_map (fun _ => Resolved tt) (crop_side crops)
              /\ top_pipeline report
                 = option_map (fun _ => Resolved tt) (crop_top crops)
              /\ (crop_side crops <> None \/ crop_top crops <> None)
              /\ WarshipProject.id np' = uuid
              /\ WarshipProject.originalImage np' = img
              /\ match crop_side crops with
                 | Some _ =>
                     exists v, WarshipProject.sideView np' = Some v
                               /\ view_ok prompt side v
                 | None => WarshipProject.sideView np' = None
                 end
              /\ match crop_top crops with
                 | Some _ =>
                     exists v, WarshipProject.topView np' = Some v
                               /\ view_ok prompt top v
                 | None => WarshipProject.topView np' = None
                 end
          | Rejected e =>
              (crop_side crops = None /\ crop_top crops = None /\ e = no_views)
              \/ side_pipeline report = Some (Rejected e)
              \/ top_pipeline report = Some (Rejected e)
          end.
Proof.
  intros Es Et. cbv zeta. intros D.
  destruct (handleGenerate_run_detected _ _ _ _ D)
    as (img & m2 & np & m3 & Hi & _ & Hs & Ht & Ho & St & _ & ->).
  destruct (@generate_views_project P (view_ok prompt side) (view_ok prompt top)
              prompt np crops m3 Es Et (side_task_views prompt)
              (top_task_views prompt) Hs Ht)
    as (_ & I1 & I2 & l1 & r & m0 & l2 & E1 & F1 & E2 & F2 & L2 & Hr).
  split; [exact I1|]. split; [exact I2|].
  exists img, (WarshipProject.id np), m3, l1, r, m0, l2.
  repeat (split; [assumption|]).
  destruct r as [np'|e]; [|exact Hr].
  destruct Hr as (A & B & C & D' & E & F & G & H).
  rewrite <- Ho. auto 10.
Qed.

Lemma extends_nil m m' : extends m m' [] -> state m' = state m.
Proof. intros [_ E]. exact E. Qed.

(** A run that ends in [SUCCESS]: what it leaves. *)
Lemma handleGenerate_succeeded rendered prompt imageData m :
  let m' := handleGenerate rendered prompt imageData m in
  status (state m') = SUCCESS ->
  exists img p,
    image_to_process rendered imageData = Some img
    /\ state m' =
       {| status := SUCCESS; project := Some p;
          activeView := match WarshipProject.sideView p with
                        | Some _ => side
                        | None => top
                        end;
          error := None; pipelineStatus := [] |}
    /\ WarshipProject.originalImage p = img
    /\ current_view (activeView (state m')) p <> None
    /\ (forall v, WarshipProject.sideView p = Some v -> view_ok prompt side v)
    /\ (forall v, WarshipProject.topView p = Some v -> view_ok prompt top v).
Proof.
  cbv zeta. unfold handleGenerate. intros S.
  destruct (handleGenerate_run_shape rendered prompt imageData m)
    as [(_ & E & _) | [(img & e & m2 & _ & _ & _ & E) | [crops D]]].
  { rewrite E in S. discriminate S. }
  { rewrite E in S. discriminate S. }
  destruct (@handleGenerate_run_joined status_only rendered prompt imageData m crops)
    as (_ & _ & img & uuid & m3 & l1 & r & m0 & l2 & Hi & St & E1 & F1 & E2 & F2 & _ & Hr);
    try assumption.
  { intros c. eapply emits_weaken; [|apply side_task_emits].
    apply pipeline_entry_status_only. }
  { intros c. eapply emits_weaken; [|apply top_task_emits].
    apply pipeline_entry_status_only. }
  destruct r as [np'|e].
  2:{ exfalso. destruct E2 as [_ E2]. rewrite E2 in S.
      destruct (replay_status_only (state (settle (Rejected e) m0)) F2) as (A & _).
      rewrite <- A in S. discriminate S. }
  destruct Hr as (-> & _ & _ & C & _ & Ho & Vs & Vt).
  apply extends_nil in E2.
  assert (Er : error (state m0) = None).
  { destruct E1 as [_ E1]. rewrite E1.
    destruct (replay_status_only (state m3) F1) as (_ & _ & _ & A).
    rewrite <- A, St. reflexivity. }
  exists img, np'. split; [exact Hi|].
  assert (Es : state (snd (handleGenerate_run rendered prompt imageData m)) =
               {| status := SUCCESS; project := Some np';
                  activeView := match WarshipProject.sideView np' with
                                | Some _ => side
                                | None => top
                                end;
                  error := None; pipelineStatus := [] |}).
  { rewrite E2, settle_resolved, Er. reflexivity. }
  split; [exact Es|]. split; [exact Ho|].
  split; [|split].
  - rewrite Es. cbn [activeView]. unfold current_view.
    destruct (crop_side crops); [destruct Vs as (v & -> & _); cbn; discriminate|].
    rewrite Vs. cbn.
    destruct (crop_top crops); [destruct Vt as (v & -> & _); discriminate|].
    destruct C as [C|C]; contradiction.
  - intros v Hv. destruct (crop_side crops); [|congruence].
    destruct Vs as (v' & Hv' & Ok). congruence.
  - intros v Hv. destruct (crop_top crops); [|congruence].
    destruct Vt as (v' & Hv' & Ok). congruence.
Qed.

(** A run that does not end in [SUCCESS] leaves the project and the view
    selected as they were. *)
Lemma handleGenerate_failed_frame rendered prompt imageData m :
  let m' := handleGenerate rendered prompt imageData m in
  status (state m') <> SUCCESS ->
  project (state m') = project (state m)
  /\ activeView (state m') = activeView (state m).
Proof.
  cbv zeta. unfold handleGenerate. intros S.
  destruct (handleGenerate_run_shape rendered prompt imageData m)
    as [(_ & E & _) | [(img & e & m2 & _ & X & _ & E) | [crops D]]].
  { rewrite E. split; reflexivity. }
  { rewrite E, settle_rejected. cbn [project activeView].
    pose proof (detectAndCropViews_state img (begun m)) as St.
    rewrite X in St. cbn [snd] in St. rewrite St. split; reflexivity. }
  destruct (@handleGenerate_run_joined status_only rendered prompt imageData m crops)
    as (_ & _ & img & uuid & m3 & l1 & r & m0 & l2 & Hi & St & E1 & F1 & E2 & F2 & _ & Hr);
    try assumption.
  { intros c. eapply emits_weaken; [|apply side_task_emits].
    apply pipeline_entry_status_only. }
  { intros c. eapply emits_weaken; [|apply top_task_emits].
    apply pipeline_entry_status_only. }
  destruct E2 as [_ E2].
  destruct (replay_status_only (state (settle r m0)) F2) as (A & B & C & _).
  rewrite <- E2 in A, B, C.
  destruct r as [np'|e].
  { exfalso. apply S. rewrite <- A. reflexivity. }
  rewrite <- B, <- C, settle_rejected. cbn [project activeView].
  destruct E1 as [_ E1]. rewrite E1.
  destruct (replay_status_only (state m3) F1) as (_ & B1 & C1 & _).
  rewrite <- B1, <- C1, St. split; reflexivity.
Qed.

(** X9.  What a run that succeeds leaves.  When [handleGenerate] ends
    with the status [SUCCESS], an image was processed (the new one, or
    that of the rendered project); the error is none and the pipeline
    status empty; the project is a new one that keeps that image as its
    original; the view shown is the side view if the project has one, the
    top view otherwise, and the project does have the view shown.  Each
    view of the project has an id, the prompt of the run, the type of
    its slot and a non-empty audit report. *)
Theorem handleGenerate_success (rendered : option WarshipProject.t)
    (prompt : jsstring) (imageData : option ImageData) (m : Machine) :
  let m' := handleGenerate rendered prompt imageData m in
  status (state m') = SUCCESS ->
  exists img p,
    image_to_process rendered imageData = Some img
    /\ state m' =
       {| status := SUCCESS; project := Some p;
          activeView := match WarshipProject.sideView p with
                        | Some _ => side
                        | None => top
                        end;
          error := None; pipelineStatus := [] |}
    /\ WarshipProject.originalImage p = img
    /\ current_view (activeView (state m')) p <> None
    /\ (forall v, WarshipProject.sideView p = Some v -> view_ok prompt side v)
    /\ (forall v, WarshipProject.topView p = Some v -> view_ok prompt top v).
Proof. exact (handleGenerate_succeeded rendered prompt imageData m). Qed.

(** X10.  A run whose detector rejects.  Whatever made
    [detectAndCropViews] reject (the request, the decoding of the reply,
    the image or the canvas), [handleGenerate] catches it: the status is
    [ERROR], the error is [Pipeline Failure] with the message of what
    was thrown as its details (none when the value thrown has no
    message, as for an image that did not load), the pipeline status is
    empty, the project and the view selected are those of before.  No
    pipeline was started: the run asked nothing but what the detector
    asks, so the only request the model got is the detector's. *)
Theorem handleGenerate_detection_rejected (rendered : option WarshipProject.t)
    (prompt : jsstring) (imageData : option ImageData) (m : Machine)
    (e : Thrown) :
  let report := fst (handleGenerate_run rendered prompt imageData m) in
  let m' := handleGenerate rendered prompt imageData m in
  detected report = Some (Rejected e) ->
  state m' =
    {| status := ERROR; project := project (state m);
       activeView := activeView (state m);
       error := Some {| message := js "Pipeline Failure";
                        details := message_of e |};
       pipelineStatus := [] |}
  /\ side_pipeline report = None /\ top_pipeline report = None
  /\ exists img l,
       image_to_process rendered imageData = Some img
       /\ log m' = log m ++ l
       /\ Forall (fun x => is_performed x \/ detector_entry img x) l.
Proof.
  cbv zeta. unfold handleGenerate. intros D.
  destruct (handleGenerate_run_shape rendered prompt imageData m)
    as [(_ & _ & E) | [(img & e0 & m2 & Hi & X & R & E) | [crops D']]].
  { rewrite E in D. discriminate D. }
  2:{ rewrite D' in D. discriminate D. }
  rewrite R in D |- *. cbn [detected side_pipeline top_pipeline] in *.
  injection D as ->. rewrite E.
  split.
  { rewrite settle_rejected.
    pose proof (detectAndCropViews_state img (begun m)) as St.
    rewrite X in St. cbn [snd] in St. rewrite St. reflexivity. }
  split; [reflexivity|]. split; [reflexivity|].
  exists img.
  destruct (exec_extends _ _ (begun m) (detectAndCropViews_asks img))
    as (l & [L _] & F).
  rewrite X in L. cbn [snd] in L.
  destruct (settle_log (Rejected e) m2) as (l' & L' & F').
  exists ([Performed (SetStatus SEGMENTING);
           Performed (SetPipelineStatus (js "SCANNING_LAYOUT"));
           Performed (SetError None)] ++ l ++ l').
  split; [exact Hi|]. split.
  - rewrite L', L. cbn [begun perform log]. rewrite <- !app_assoc. reflexivity.
  - apply Forall_app. split; [repeat constructor; left; exact I|].
    apply Forall_app. split.
    + eapply Forall_impl; [|exact F]. intros x Hx. right. exact Hx.
    + eapply Forall_impl; [|exact F']. intros [o|X0 q x] Hx; [left; exact I|].
      contradiction Hx.
Qed.

Lemma settle_pipelineStatus r m : pipelineStatus (state (settle r m)) = [].
Proof. destruct r; reflexivity. Qed.

(** X11.  What the [finally] block achieves.  After a run of
    [handleGenerate] that got past its guard, the pipeline status is
    empty, with one exception: when two pipelines were started and one of
    them rejected, the other one goes on after the handler is done, and
    the status it announces stays.  Then the pipeline status at the end
    is empty or one of the stage tags. *)
Theorem handleGenerate_pipelineStatus (rendered : option WarshipProject.t)
    (prompt : jsstring) (imageData : option ImageData) (m : Machine) :
  let report := fst (handleGenerate_run rendered prompt imageData m) in
  let m' := handleGenerate rendered prompt imageData m in
  image_to_process rendered imageData <> None ->
  pipelineStatus (state m') = []
  \/ (In (pipelineStatus (state m')) stage_tags
      /\ side_pipeline report <> None /\ top_pipeline report <> None
      /\ exists e, side_pipeline report = Some (Rejected e)
                   \/ top_pipeline report = Some (Rejected e)).
Proof.
  cbv zeta. unfold handleGenerate. intros Hi.
  destruct (handleGenerate_run_shape rendered prompt imageData m)
    as [(E & _) | [(img & e & m2 & _ & _ & _ & E) | [crops D]]].
  { contradiction. }
  { left. rewrite E. apply settle_pipelineStatus. }
  destruct (@handleGenerate_run_joined tag_entry rendered prompt imageData m crops)
    as (I1 & I2 & img & uuid & m3 & l1 & r & m0 & l2 & _ & _ & _ & _ & E2 & F2 & L2 & Hr);
    try assumption.
  { intros c. apply task_tags. }
  { intros c. apply task_tags. }
  destruct E2 as [_ E2]. rewrite E2.
  destruct (replay_tag_entry (state (settle r m0)) F2) as [_ [T|T]].
  { left. rewrite T. apply settle_pipelineStatus. }
  destruct (crop_side crops) as [s|] eqn:Cs.
  2:{ left. rewrite (L2 (or_introl eq_refl)). apply settle_pipelineStatus. }
  destruct (crop_top crops) as [t|] eqn:Ct.
  2:{ left. rewrite (L2 (or_intror eq_refl)). apply settle_pipelineStatus. }
  destruct r as [np'|e].
  { left. destruct Hr as (-> & _). apply settle_pipelineStatus. }
  right. split; [exact T|].
  split; [intros A; apply I1 in A; discriminate A|].
  split; [intros A; apply I2 in A; discriminate A|].
  exists e. destruct Hr as [(A & _) | Hr]; [discriminate A | exact Hr].
Qed.

(** X12.  The image is kept for the next run.  After a run of
    [handleGenerate] on a new image that ended in [SUCCESS], a
    submission without image, from the render that shows the new
    project, processes that same image again: it runs as if the image
    had been uploaded once more.  And with a new image, the run does not
    depend on the project rendered. *)
Theorem handleGenerate_reuses_image (rendered : option WarshipProject.t)
    (prompt : jsstring) (img : ImageData) (m : Machine) :
  let m1 := handleGenerate rendered prompt (Some img) m in
  status (state m1) = SUCCESS ->
  forall prompt2 m2,
    handleGenerate_run (project (state m1)) prompt2 None m2
    = handleGenerate_run rendered prompt2 (Some img) m2.
Proof.
  cbv zeta. intros S prompt2 m2.
  destruct (handleGenerate_succeeded rendered prompt (Some img) m S)
    as (img' & p & Hi & St & Ho & _).
  cbn [image_to_process] in Hi. injection Hi as <-.
  rewrite St. cbn [project]. unfold handleGenerate_run.
  cbn [option_map]. rewrite Ho. reflexivity.
Qed.

(** X13.  Every run with an image gets its verdict.  Once past its
    guard, [handleGenerate] ends in one of two states, whatever the host
    answers and however the pipelines interleave: [SUCCESS], with a
    project and no error; or [ERROR], with the error [Pipeline Failure]
    carrying the message of something that was thrown, and the project
    of before.  It never stays at [SEGMENTING] or [LOADING]. *)
Theorem handleGenerate_verdict (rendered : option WarshipProject.t)
    (prompt : jsstring) (imageData : option ImageData) (m : Machine) :
  let m' := handleGenerate rendered prompt imageData m in
  image_to_process rendered imageData <> None ->
  (status (state m') = SUCCESS /\ error (state m') = None
   /\ project (state m') <> None)
  \/ (status (state m') = ERROR
      /\ project (state m') = project (state m)
      /\ activeView (state m') = activeView (state m)
      /\ exists e,
           error (state m') =
           Some {| message := js "Pipeline Failure"; details := message_of e |}).
Proof.
  cbv zeta. unfold handleGenerate. intros Hi.
  destruct (handleGenerate_run_shape rendered prompt imageData m)
    as [(E & _) | [(img & e & m2 & _ & X & _ & E) | [crops D]]].
  { contradiction. }
  { right. rewrite E, settle_rejected. cbn [status project activeView error].
    pose proof (detectAndCropViews_state img (begun m)) as St.
    rewrite X in St. cbn [snd] in St. rewrite St.
    repeat split. exists e. reflexivity. }
  destruct (@handleGenerate_run_joined status_only rendered prompt imageData m crops)
    as (_ & _ & img & uuid & m3 & l1 & r & m0 & l2 & _ & St & E1 & F1 & E2 & F2 & _ & Hr);
    try assumption.
  { intros c. eapply emits_weaken; [|apply side_task_emits].
    apply pipeline_entry_status_only. }
  { intros c. eapply emits_weaken; [|apply top_task_emits].
    apply pipeline_entry_status_only. }
  destruct E2 as [_ E2].
  destruct (replay_status_only (state (settle r m0)) F2) as (A & B & C & D').
  rewrite <- E2 in A, B, C, D'.
  destruct E1 as [_ E1].
  destruct (replay_status_only (state m3) F1) as (_ & B1 & C1 & D1).
  rewrite <- E1, St in B1, C1, D1. cbn in B1, C1, D1.
  destruct r as [np'|e].
  - left. rewrite <- A, <- B, <- D', settle_resolved. cbn [status error project].
    split; [reflexivity|]. split; [now rewrite <- D1 | discriminate].
  - right. rewrite <- A, <- B, <- C, <- D', settle_rejected.
    cbn [status error project activeView].
    split; [reflexivity|]. split; [now rewrite <- B1|].
    split; [now rewrite <- C1|]. exists e. reflexivity.
Qed.

End GenerateEnds.

(* ================================================================== *)
(** * [handleRefine]: every way it ends *)

Section RefineEnds.
Context {host : Host}.

(** A run of [handleRefine] on a rendered project, step by step. *)
Lemma handleRefine_run p v prompt m :
  let req :=
    refine_request prompt None
      (option_map GeneratedSvg.content (current_view v p)) 1 in
  let out := fst (respond (GenerateContent req) (world m)) in
  let w1 := snd (respond (GenerateContent req) (world m)) in
  let st0 :=
    {| status := LOADING; project := project (state m);
       activeView := activeView (state m); error := error (state m);
       pipelineStatus := js "REFINING_ACTIVE_VIEW" |} in
  let failed err :=
    (Resolved tt,
     {| world := w1;
        state :=
          {| status := ERROR; project := project (state m);
             activeView := activeView (state m);
             error := Some {| message := js "Refinement Failed";
                              details := message_of err |};
             pipelineStatus := js "REFINING_ACTIVE_VIEW" |};
        log := log m ++ [Performed (SetStatus LOADING);
                         Performed (SetPipelineStatus (js "REFINING_ACTIVE_VIEW"));
                         Asked (GenerateContent req) out;
                         Performed (SetStatus ERROR);
                         Performed (SetError
                                      (Some {| message := js "Refinement Failed";
                                               details := message_of err |}))] |}) in
  exec (handleRefine (Some p) v prompt) m =
  match out with
  | CallFailed e => failed e
  | Response None =>
      failed (ErrorObject TypeError (engineMessage (ReadOfUndefined (js "match"))))
  | Response (Some t) =>
      let now := fst (respond DateNow w1) in
      let updatedSvg :=
        updated_view (current_view v p) (extractSvg t) prompt now in
      (Resolved tt,
       {| world := snd (respond DateNow w1);
          state :=
            {| status := SUCCESS;
               project := replace_view v updatedSvg (project (state m));
               activeView := activeView (state m); error := error (state m);
               pipelineStatus := js "REFINING_ACTIVE_VIEW" |};
          log := log m ++ [Performed (SetStatus LOADING);
                           Performed (SetPipelineStatus (js "REFINING_ACTIVE_VIEW"));
                           Asked (GenerateContent req) out;
                           Asked DateNow now;
                           Performed (UpdateProject (replace_view v updatedSvg));
                           Performed (SetStatus SUCCESS)] |})
  end.
Proof.
  cbv zeta.
  unfold handleRefine, generateWarshipSvg, generateContent, extractSvg_text,
    effect_, ask.
  cbn [bind try_catch]. rewrite !exec_do, exec_ask. cbn [world perform].
  destruct (respond _ (world m)) as [[e|[t|]] w1];
    cbn [fst snd bind try_catch exec]; unfold perform;
    cbn [state log world apply_effect status project activeView error
         pipelineStatus];
    rewrite <- ?app_assoc; cbn [app]; try reflexivity.
  unfold answer. cbn [world].
  destruct (respond DateNow w1) as [now w2].
  cbn [fst snd exec]. unfold perform.
  cbn [state log world apply_effect status project activeView error
       pipelineStatus].
  rewrite <- ?app_assoc. reflexivity.
Qed.

(** X14.  Every way [handleRefine] ends, for a render with a project.
    The handler makes one request, which carries text only: the markup of
    the view shown (if there is one, with content) and the instruction,
    never an image.  Its promise always resolves.  If the request
    rejects, or the reply has no text (reading it throws a [TypeError]),
    the status is [ERROR], the error is [Refinement Failed] with the
    message of what was thrown, and the project is untouched; otherwise
    the status is [SUCCESS] and the error is left as it was.  In every
    case the view selected is the one of before and the pipeline status
    stays at [REFINING_ACTIVE_VIEW]: the handler has no [finally]. *)
Theorem handleRefine_outcome (p : WarshipProject.t) (v : ViewType)
    (prompt : jsstring) (m : Machine) :
  let result := exec (handleRefine (Some p) v prompt) m in
  let m' := snd result in
  let req :=
    refine_request prompt None
      (option_map GeneratedSvg.content (current_view v p)) 1 in
  fst result = Resolved tt
  /\ pipelineStatus (state m') = js "REFINING_ACTIVE_VIEW"
  /\ activeView (state m') = activeView (state m)
  /\ (exists l, log m' = log m ++ l /\ requests l = [req])
  /\ forallb is_text (parts req) = true
  /\ systemInstruction (config req) = Some (js "Refine this SVG. Iteration 1.")
  /\ match fst (respond (GenerateContent req) (world m)) with
     | Response (Some t) =>
         status (state m') = SUCCESS /\ error (state m') = error (state m)
     | Response None =>
         status (state m') = ERROR /\ project (state m') = project (state m)
         /\ error (state m') =
            Some {| message := js "Refinement Failed";
                    details :=
                      Some (engineMessage (ReadOfUndefined (js "match"))) |}
     | CallFailed e =>
         status (state m') = ERROR /\ project (state m') = project (state m)
         /\ error (state m') =
            Some {| message := js "Refinement Failed";
                    details := message_of e |}
     end.
Proof.
  cbv zeta. rewrite handleRefine_run. cbv zeta.
  destruct (fst (respond _ (world m))) as [e|[t|]]; cbn [fst snd state log
    pipelineStatus activeView status error project];
    (split; [reflexivity|]); (split; [reflexivity|]); (split; [reflexivity|]);
    (split; [eexists; split; reflexivity|]);
    (split; [|split; [reflexivity | repeat split]]);
    unfold refine_request; cbn [parts];
    destruct (current_view v p) as [g|]; cbn [option_map app forallb is_text];
    try reflexivity;
    destruct (nonempty (GeneratedSvg.content g)); reflexivity.
Qed.

(** X15.  A refinement without a view to refine.  When the project has
    no view in the slot shown, [handleRefine] does not stop: the request
    carries the instruction alone, and if it succeeds the slot is filled
    with a view that has the new content, the prompt and the time, but
    neither an id nor a type nor an audit report (the absent view was
    spread into it). *)
Theorem handleRefine_absent_view (p : WarshipProject.t) (v : ViewType)
    (prompt : jsstring) (m : Machine) (t : jsstring) :
  let m' := snd (exec (handleRefine (Some p) v prompt) m) in
  let req := refine_request prompt None None 1 in
  project (state m) = Some p ->
  current_view v p = None ->
  fst (respond (GenerateContent req) (world m)) = Response (Some t) ->
  parts req = [Text (js "User Instruction: " ++ prompt)]
  /\ exists now p',
       project (state m') = Some p'
       /\ current_view v p' =
          Some {| GeneratedSvg.id := None;
                  GeneratedSvg.content := extractSvg t;
                  GeneratedSvg.prompt := prompt;
                  GeneratedSvg.timestamp := now;
                  GeneratedSvg.auditReport := None;
                  GeneratedSvg.viewType := None |}.
Proof.
  cbv zeta. intros Hp Hv Hr. split; [reflexivity|].
  rewrite handleRefine_run. cbv zeta. rewrite Hv. cbn [option_map].
  rewrite Hr. cbn [snd state project]. rewrite Hp.
  eexists _, _. split; [reflexivity|].
  unfold current_view, replace_view, updated_view.
  destruct (is_side v); reflexivity.
Qed.

End RefineEnds.

(* ================================================================== *)
(** * Sessions *)

Section SessionFacts.
Context {host : Host}.

Lemma view_ok_identified prompt vt g : view_ok prompt vt g -> identified vt g.
Proof. intros (A & _ & B & _). split; assumption. Qed.

Lemma act_renderable a m : renderable (state m) -> renderable (state (act a m)).
Proof.
  intros R. destruct a as [prompt imageData|prompt|v]; cbn [act].
  - (* a submission of the input form *)
    destruct (status (state (handleGenerate (project (state m)) prompt imageData m)))
      eqn:S;
      try (destruct (@handleGenerate_failed_frame _ (project (state m)) prompt imageData m)
             as [P A]; [rewrite S; discriminate|];
           unfold renderable; rewrite P, A; exact R).
    destruct (@handleGenerate_succeeded _ (project (state m)) prompt imageData m S)
      as (img & p & _ & St & _ & C & Vs & Vt).
    unfold renderable. rewrite St in C |- *. cbn [project activeView] in *.
    split; [exact C|].
    split; intros g Hg; eapply view_ok_identified; eauto.
  - (* a submission of the refinement form *)
    unfold run. destruct (project (state m)) as [p|] eqn:P;
      [|cbn [handleRefine exec snd]; unfold renderable; rewrite P; exact I].
    rewrite handleRefine_run. cbv zeta.
    unfold renderable in R. rewrite P in R. destruct R as (C & Rs & Rt).
    destruct (fst (respond _ (world m))) as [e|[t|]];
      cbn [snd state]; unfold renderable; cbn [project activeView];
      try (rewrite P; auto).
    cbn [replace_view]. unfold current_view in *.
    destruct (is_side (activeView (state m)));
      cbn [set_sideView set_topView WarshipProject.sideView
           WarshipProject.topView].
    + split; [discriminate|]. split; [|exact Rt].
      intros g [= <-]. unfold updated_view, identified. cbn.
      destruct (WarshipProject.sideView p) as [g0|]; [|contradiction].
      apply (Rs g0 eq_refl).
    + split; [discriminate|]. split; [exact Rs|].
      intros g [= <-]. unfold updated_view, identified. cbn.
      destruct (WarshipProject.topView p) as [g0|]; [|contradiction].
      apply (Rt g0 eq_refl).
  - (* a tab *)
    destruct (tab_shown v (state m)) eqn:T; [|exact R].
    unfold renderable in *. cbn [perform state apply_effect project activeView].
    unfold tab_shown in T. destruct (project (state m)) as [p|]; [|exact I].
    destruct R as (_ & Rs & Rt). split; [|split; assumption].
    unfold current_view.
    destruct v; try discriminate T; cbn [is_side];
      [destruct (WarshipProject.sideView p) | destruct (WarshipProject.topView p)];
      discriminate.
Qed.

(** X16.  What is rendered has its view.  Through a session of
    submissions, refinements and tab clicks, each run to its end before
    the next, from a state that can be rendered (the state of the first
    render is one), the state can be rendered after every action:
    whenever there is a project, it has the view that is selected, so
    the preview is never without data; and every view has an id and the
    type of its slot.  It holds whatever the host answers and however
    the runs end. *)
Theorem session_renderable (actions : list Action) (m : Machine) :
  renderable (state m) -> renderable (state (session actions m)).
Proof.
  unfold session. revert m. induction actions as [|a actions IH]; intros m R;
    [exact R|].
  cbn [fold_left]. apply IH. now apply act_renderable.
Qed.

End SessionFacts.

(* ================================================================== *)
(** * Around the handlers: the label and the two forms *)

(** X17.  The label of each stage.  While the detector runs (status
    [SEGMENTING]) the label is the one of the tooling phase, whatever the
    pipeline status.  In every other status, each tag that
    [runViewPipeline] announces, for any view type, gets the label of
    its stage, not the generic one; the tag of a refinement and the
    empty pipeline status get the generic label. *)
Theorem getStatusLabel_stages (status : GenerationStatus) (v : ViewType) :
  let shown label :=
    match status with
    | SEGMENTING => js "TOOLING: Analyzing Layout & Cropping Views..."
    | _ => label
    end in
  getStatusLabel status (stage_tag (js "DRAFTING_") v)
  = shown (js "ARCHITECT: Constructing Geometry...")
  /\ getStatusLabel status (stage_tag (js "AUDITING_") v)
     = shown (js "ADVERSARY: Inspecting for Flaws...")
  /\ getStatusLabel status (stage_tag (js "HEALING_") v)
     = shown (js "ARCHITECT: Performing Self-Correction...")
  /\ getStatusLabel status (js "REFINING_ACTIVE_VIEW")
     = shown (js "Processing Neural Pipeline...")
  /\ getStatusLabel status [] = shown (js "Processing Neural Pipeline...")
  /\ forall s, getStatusLabel SEGMENTING s
               = js "TOOLING: Analyzing Layout & Cropping Views...".
Proof.
  cbv zeta. destruct status, v; vm_compute; repeat split.
Qed.




(* ================================================================== *)
(** * The number of requests *)

Section RequestFacts.
Context {host : Host}.

Lemma requests_app l1 l2 : requests (l1 ++ l2) = requests l1 ++ requests l2.
Proof. apply flat_map_app. Qed.

Lemma asks_bind A B n k (p : Prog A) (f : A -> Prog B) :
  asks n p -> (forall a, asks k (f a)) -> asks (n + k) (bind p f).
Proof.
  intros Hp Hf. revert n Hp.
  induction p as [a|e|o q IH|X q c IH]; intros n Hp; cbn [bind asks] in *.
  - subst n. apply Hf.
  - exact I.
  - now apply IH.
  - destruct (is_request q).
    + destruct n as [|n]; [contradiction|]. cbn [Nat.add]. intros x.
      apply IH, Hp.
    + intros x. apply IH, Hp.
Qed.

Lemma counted_prepend n resolved m m1 m' l0 :
  log m1 = log m ++ l0 ->
  counted n resolved m1 m' ->
  counted (length (requests l0) + n) resolved m m'.
Proof.
  intros L (l & E & B & X). exists (l0 ++ l).
  rewrite E, L, <- app_assoc, requests_app, length_app.
  split; [reflexivity|]. split; [lia|]. intros R. rewrite (X R). reflexivity.
Qed.

Lemma exec_counted R n (p : Prog R) m :
  asks n p ->
  counted n (exists r, fst (exec p m) = Resolved r) m (snd (exec p m)).
Proof.
  revert n m; induction p as [a|e|o k IH|X q k IH]; intros n m H;
    cbn [exec asks] in *.
  - subst n. exists []. rewrite app_nil_r. cbn. auto.
  - exists []. rewrite app_nil_r. cbn. split; [reflexivity|].
    split; [lia|]. intros [r [=]].
  - apply (@counted_prepend n _ m (perform o m) _ [Performed o] eq_refl).
    now apply IH.
  - unfold answer. destruct (respond q (world m)) as [x w].
    set (m1 := {| world := w; state := state m; log := log m ++ [Asked q x] |}).
    destruct q; cbn [is_request] in H;
      try (apply (@counted_prepend n _ m m1 _ [Asked _ x] eq_refl);
           now apply IH).
    destruct n as [|n]; [contradiction|].
    apply (@counted_prepend n _ m m1 _ [Asked (GenerateContent req) x] eq_refl).
    now apply IH.
Qed.

Lemma counted_imp n (R R' : Prop) m m' :
  (R' -> R) -> counted n R m m' -> counted n R' m m'.
Proof. intros I (l & E & B & X). exists l. auto. Qed.

Lemma counted_le n n' (R : Prop) m m' :
  n <= n' -> counted n R m m' -> counted n' False m m'.
Proof.
  intros L (l & E & B & _). exists l. split; [exact E|].
  split; [lia | contradiction].
Qed.

Lemma counted_trans n1 n2 (R1 R2 : Prop) m m1 m2 :
  counted n1 R1 m m1 -> counted n2 R2 m1 m2 ->
  counted (n1 + n2) (R1 /\ R2) m m2.
Proof.
  intros (l1 & E1 & B1 & X1) (l2 & E2 & B2 & X2). exists (l1 ++ l2).
  rewrite E2, E1, <- app_assoc, requests_app, length_app.
  split; [reflexivity|]. split; [lia|]. intros [A B].
  rewrite (X1 A), (X2 B). reflexivity.
Qed.

Lemma settle_counted r m : counted 0 True m (settle r m).
Proof.
  destruct (settle_log r m) as (l & E & F). exists l. split; [exact E|].
  assert (N : requests l = []).
  { clear E. induction F as [|x l Hx F IH]; [reflexivity|].
    destruct x; [exact IH | contradiction]. }
  rewrite N. cbn. auto.
Qed.

Lemma join_last_counted n (t : Prog Mutation) np m :
  asks n t ->
  counted n (fst (join_last t np settle m) = Resolved tt) m
    (snd (join_last t np settle m)).
Proof.
  intros H. unfold join_last. pose proof (@exec_counted _ n t m H) as C.
  destruct (exec t m) as [[f|e] m0]; cbn [fst snd] in *.
  - replace n with (n + 0) by lia.
    eapply counted_imp;
      [|exact (counted_trans C (settle_counted (Resolved (f np)) m0))].
    intros _. split; [eexists; reflexivity | exact I].
  - replace n with (n + 0) by lia.
    eapply counted_imp;
      [|exact (counted_trans C (settle_counted (Rejected e) m0))].
    discriminate.
Qed.

Lemma straggle_counted n (t : Prog Mutation) m :
  asks n t -> counted n False m (snd (straggle t m)).
Proof.
  intros H. unfold straggle. pose proof (@exec_counted _ n t m H) as C.
  destruct (exec t m) as [r m0]. cbn [fst snd] in *.
  eapply counted_imp; [|exact C]. contradiction.
Qed.

Lemma asks_step R X (q : query X) (k : X -> Prog R) n :
  asks n (Ask q k) ->
  exists n', n = (if is_request q then 1 else 0) + n'
             /\ forall x, asks n' (k x).
Proof.
  cbn [asks]. destruct (is_request q).
  - destruct n as [|n]; [contradiction|]. intros H. exists n. auto.
  - intros H. exists n. auto.
Qed.

Lemma answer_counted X (q : query X) m :
  counted (if is_request q then 1 else 0) True m (snd (answer q m)).
Proof.
  unfold answer. destruct (respond q (world m)) as [x w]. cbn [snd].
  exists [Asked q x]. split; [reflexivity|].
  destruct q; cbn; auto.
Qed.

Lemma perform_counted o m : counted 0 True m (perform o m).
Proof. exists [Performed o]. cbn. auto. Qed.

(** The join asks what its two tasks ask, however they interleave. *)
Lemma join_all_counted (a : Prog Mutation) :
  forall na (b : Prog Mutation) nb np m,
    asks na a -> asks nb b ->
    counted (na + nb)
      (fst (fst (join_all a b np settle m)) = Resolved tt
       /\ snd (fst (join_all a b np settle m)) = Resolved tt)
      m (snd (join_all a b np settle m)).
Proof.
  induction a as [f|e|o ka IH|X qa ka IH]; intros na b nb np m Ha Hb.
  - cbn [join_all asks] in *. subst na.
    pose proof (@join_last_counted nb b (f np) m Hb) as C.
    destruct (join_last b (f np) settle m) as [rb m']. cbn [fst snd] in *.
    eapply counted_imp; [|exact C]. tauto.
  - cbn [join_all].
    pose proof (counted_trans (settle_counted (Rejected e) m)
                  (@straggle_counted nb b (settle (Rejected e) m) Hb)) as C.
    destruct (straggle b (settle (Rejected e) m)) as [rb m']. cbn [fst snd] in *.
    eapply counted_imp; [|eapply counted_le; [|exact C]]; [|lia].
    intros [[=] _].
  - cbn [join_all asks] in *.
    eapply counted_imp;
      [|exact (counted_trans (perform_counted o m) (IH na b nb np _ Ha Hb))].
    tauto.
  - destruct (@asks_step _ _ qa ka na Ha) as (na' & Ena & Ha').
    destruct (is_await qa) eqn:W.
    2:{ cbn [join_all]. rewrite W. cbn [negb].
        assert (Rq : is_request qa = false) by (destruct qa; auto; discriminate W).
        rewrite Rq in Ena. cbn [Nat.add] in Ena. subst na'.
        pose proof (@answer_counted _ qa m) as A. rewrite Rq in A.
        destruct (answer qa m) as [x m1]. cbn [snd] in A.
        eapply counted_imp;
          [|exact (counted_trans A (IH x na b nb np m1 (Ha' x) Hb))].
        tauto. }
    revert nb np m Hb.
    induction b as [g|e|o kb IHb|Y qb kb IHb]; intros nb np m Hb;
      rewrite join_all_waiting by exact W.
    + cbn [asks] in Hb. subst nb.
      pose proof (@join_last_counted na (Ask qa ka) (g np) m Ha) as C.
      destruct (join_last (Ask qa ka) (g np) settle m) as [ra m'].
      cbn [fst snd] in *. replace (na + 0) with na by lia.
      eapply counted_imp; [|exact C]. tauto.
    + pose proof (counted_trans (settle_counted (Rejected e) m)
                    (@straggle_counted na (Ask qa ka) (settle (Rejected e) m) Ha))
        as C.
      destruct (straggle (Ask qa ka) (settle (Rejected e) m)) as [ra m'].
      cbn [fst snd] in *.
      eapply counted_imp; [|eapply counted_le; [|exact C]]; [|lia].
      intros [_ [=]].
    + cbn [asks] in Hb.
      eapply counted_imp;
        [|exact (counted_trans (perform_counted o m) (IHb nb np _ Hb))].
      tauto.
    + destruct (@asks_step _ _ qb kb nb Hb) as (nb' & Enb & Hb').
      destruct (is_await qb) eqn:Wb; cbn [negb].
      2:{ assert (Rq : is_request qb = false) by (destruct qb; auto; discriminate Wb).
          rewrite Rq in Enb. cbn [Nat.add] in Enb. subst nb'.
          pose proof (@answer_counted _ qb m) as A. rewrite Rq in A.
          destruct (answer qb m) as [x m1]. cbn [snd] in A.
          eapply counted_imp;
            [|exact (counted_trans A (IHb x nb np m1 (Hb' x)))].
          tauto. }
      destruct (sideFirst (world m)).
      * pose proof (@answer_counted _ qa m) as A.
        destruct (answer qa m) as [x m1]. cbn [snd] in A.
        pose proof (counted_trans A (IH x na' (Ask qb kb) nb np m1 (Ha' x) Hb)) as C.
        rewrite Ena. rewrite <- Nat.add_assoc.
        eapply counted_imp; [|exact C]. tauto.
      * pose proof (@answer_counted _ qb m) as A.
        destruct (answer qb m) as [x m1]. cbn [snd] in A.
        pose proof (counted_trans A (IHb x nb' np m1 (Hb' x))) as C.
        rewrite Enb.
        replace (na + ((if is_request qb then 1 else 0) + nb'))
          with ((if is_request qb then 1 else 0) + (na + nb')) by lia.
        eapply counted_imp; [|exact C]. tauto.
Qed.

Lemma generateContent_asks req : asks 1 (generateContent req).
Proof.
  unfold generateContent. cbn [asks is_request]. intros [e|text]; cbn; auto.
Qed.

Lemma extractSvg_text_asks text : asks 0 (extractSvg_text text).
Proof. destruct text; cbn; auto. Qed.

(** Three requests for a pipeline that resolves, and never more. *)
Lemma runViewPipeline_asks prompt img v cb :
  asks 3 (runViewPipeline prompt img v cb).
Proof.
  unfold runViewPipeline, effect_. cbn [bind asks].
  apply (@asks_bind _ _ 1 2).
  { unfold generateDraft. apply (@asks_bind _ _ 1 0);
      [apply generateContent_asks | apply extractSvg_text_asks]. }
  intros draft. cbn [bind asks].
  apply (@asks_bind _ _ 1 1).
  { unfold auditDraft. apply (@asks_bind _ _ 1 0);
      [apply generateContent_asks | intros; reflexivity]. }
  intros audit. cbn [bind asks].
  apply (@asks_bind _ _ 1 0).
  { unfold healDraft. apply (@asks_bind _ _ 1 0);
      [apply generateContent_asks | apply extractSvg_text_asks]. }
  intros healed. reflexivity.
Qed.

Lemma task_asks prompt c :
  asks 3 (side_task prompt c) /\ asks 3 (top_task prompt c).
Proof.
  split; [unfold side_task | unfold top_task];
    (apply (@asks_bind _ _ 3 0); [apply runViewPipeline_asks|]);
    intros res; unfold new_view, ask; cbn [bind asks is_request];
    intros x y; reflexivity.
Qed.

Lemma cropImage_asks_none base64Data box : asks 0 (cropImage base64Data box).
Proof.
  unfold cropImage. cbn [asks is_request]. intros [W H|]; cbn [asks]; [|exact I].
  intros [|]; cbn [negb asks is_request]; [|exact I]. intros url. reflexivity.
Qed.

(** One request for the detector, whatever comes of it. *)
Lemma detectAndCropViews_asks_one img : asks 1 (detectAndCropViews img).
Proof.
  assert (C : forall (b : option JSON.value),
             asks 0
               (match b with
                | Some box =>
                    bind (cropImage (data img) (asBoundingBox box))
                      (fun c => Ret (Some c))
                | None => Ret None
                end)).
  { intros [box|]; [|reflexivity].
    apply (@asks_bind _ _ 0 0); [apply cropImage_asks_none | intros; reflexivity]. }
  unfold detectAndCropViews.
  apply (@asks_bind _ _ 1 0); [apply generateContent_asks|].
  intros text. cbv zeta. destruct (JSON.parse _) as [result|]; [|exact I].
  destruct (found_box_pure (js "sideViewFound") (js "sideViewBox") result)
    as [[e ->]|[x ->]]; cbn [bind]; [exact I|].
  apply (@asks_bind _ _ 0 0); [apply C|]. intros cs.
  destruct (found_box_pure (js "topViewFound") (js "topViewBox") result)
    as [[e ->]|[y ->]]; cbn [bind]; [exact I|].
  apply (@asks_bind _ _ 0 0); [apply C|]. intros ct. reflexivity.
Qed.

Lemma counted_eq n n' (R : Prop) m m' :
  n = n' -> counted n R m m' -> counted n' R m m'.
Proof. intros <-. auto. Qed.

Lemma not_rejected (r : Outcome unit) :
  (forall e, Some r <> Some (Rejected e)) -> r = Resolved tt.
Proof.
  destruct r as [[]|e]; [reflexivity|]. intros H. now contradiction (H e).
Qed.

Lemma begun_counted m : counted 0 True m (begun m).
Proof.
  unfold begun.
  eapply counted_imp;
    [|exact (counted_trans (perform_counted (SetStatus SEGMENTING) m)
               (counted_trans (perform_counted _ _) (perform_counted _ _)))].
  tauto.
Qed.

(** The requests of a run of [handleGenerate]: one for the detector and
    three for each pipeline started, at most; exactly that many when no
    pipeline rejected. *)
Lemma handleGenerate_run_counted rendered prompt imageData m :
  let run := handleGenerate_run rendered prompt imageData m in
  counted (1 + 3 * started (fst run))
    ((exists crops, detected (fst run) = Some (Resolved crops))
     /\ (forall e, side_pipeline (fst run) <> Some (Rejected e))
     /\ (forall e, top_pipeline (fst run) <> Some (Rejected e)))
    m (snd run).
Proof.
  cbv zeta. unfold handleGenerate_run.
  fold (image_to_process rendered imageData). fold (begun m).
  pose proof (begun_counted m) as B.
  destruct (image_to_process rendered imageData) as [img|].
  2:{ cbn [fst snd]. eapply counted_imp; [|eapply counted_le; [|exact B]]; [|lia].
      intros [[crops [=]] _]. }
  pose proof (@exec_counted _ 1 (detectAndCropViews img) (begun m)
                (detectAndCropViews_asks_one img)) as D.
  destruct (exec (detectAndCropViews img) (begun m)) as [[crops|e] m2];
    cbn [fst snd] in D.
  2:{ cbn [fst snd].
      pose proof (counted_trans B (counted_trans D (settle_counted (Rejected e) m2)))
        as C.
      eapply counted_imp; [|eapply counted_le; [|exact C]];
        [|unfold started; cbn; lia].
      intros [[crops [=]] _]. }
  pose proof (@answer_counted _ RandomUUID m2) as U. cbn [is_request] in U.
  destruct (answer RandomUUID m2) as [uuid m3]. cbn [snd] in U.
  set (np := {| WarshipProject.id := uuid; WarshipProject.sideView := None;
                WarshipProject.topView := None;
                WarshipProject.originalImage := img |}).
  pose proof (perform_counted (SetStatus LOADING) m3) as L.
  set (m4 := perform (SetStatus LOADING) m3) in *.
  pose proof (counted_trans B (counted_trans D (counted_trans U L))) as C.
  unfold generate_views.
  destruct (crop_side crops) as [s|]; destruct (crop_top crops) as [t|].
  - pose proof (@join_all_counted (side_task prompt s) 3 (top_task prompt t) 3
                  np m4 (proj1 (task_asks prompt s)) (proj2 (task_asks prompt t)))
      as J.
    destruct (join_all (side_task prompt s) (top_task prompt t) np settle m4)
      as [[ra rb] m']. cbn [fst snd] in *.
    eapply counted_imp; [|eapply counted_eq; [|exact (counted_trans C J)]];
      [|unfold started; cbn; lia].
    cbn [side_pipeline top_pipeline]. intros (_ & Hs & Ht).
    repeat split; try (eexists; reflexivity); now apply not_rejected.
  - pose proof (@join_last_counted 3 (side_task prompt s) np m4
                  (proj1 (task_asks prompt s))) as J.
    destruct (join_last (side_task prompt s) np settle m4) as [rs m'].
    cbn [fst snd] in *.
    eapply counted_imp; [|eapply counted_eq; [|exact (counted_trans C J)]];
      [|unfold started; cbn; lia].
    cbn [side_pipeline top_pipeline]. intros (_ & Hs & _).
    repeat split; try (eexists; reflexivity); now apply not_rejected.
  - pose proof (@join_last_counted 3 (top_task prompt t) np m4
                  (proj2 (task_asks prompt t))) as J.
    destruct (join_last (top_task prompt t) np settle m4) as [rt m'].
    cbn [fst snd] in *.
    eapply counted_imp; [|eapply counted_eq; [|exact (counted_trans C J)]];
      [|unfold started; cbn; lia].
    cbn [side_pipeline top_pipeline]. intros (_ & _ & Ht).
    repeat split; try (eexists; reflexivity); now apply not_rejected.
  - cbn [fst snd].
    eapply counted_imp;
      [|eapply counted_eq;
        [|exact (counted_trans C (settle_counted (Rejected no_views) m4))]];
      [|unfold started; cbn; lia].
    intros _. repeat split; eexists; reflexivity.
Qed.

(** In a run that ends in [SUCCESS] the detector resolved and no
    pipeline rejected. *)
Lemma handleGenerate_success_report rendered prompt imageData m :
  let report := fst (handleGenerate_run rendered prompt imageData m) in
  status (state (handleGenerate rendered prompt imageData m)) = SUCCESS ->
  (exists crops, detected report = Some (Resolved crops))
  /\ (forall e, side_pipeline report <> Some (Rejected e))
  /\ (forall e, top_pipeline report <> Some (Rejected e)).
Proof.
  cbv zeta. unfold handleGenerate. intros S.
  destruct (handleGenerate_run_shape rendered prompt imageData m)
    as [(_ & E & _) | [(img & e & m2 & _ & _ & _ & E) | [crops D]]].
  { rewrite E in S. discriminate S. }
  { rewrite E in S. discriminate S. }
  split; [exists crops; exact D|].
  destruct (@handleGenerate_run_joined _ status_only rendered prompt imageData m crops)
    as (_ & _ & img & uuid & m3 & l1 & r & m0 & l2 & _ & _ & _ & _ & E2 & F2 & _ & Hr);
    try assumption.
  { intros c. eapply emits_weaken; [|apply side_task_emits].
    apply pipeline_entry_status_only. }
  { intros c. eapply emits_weaken; [|apply top_task_emits].
    apply pipeline_entry_status_only. }
  destruct r as [np'|e].
  2:{ exfalso. destruct E2 as [_ E2]. rewrite E2 in S.
      destruct (replay_status_only (state (settle (Rejected e) m0)) F2) as (A & _).
      rewrite <- A in S. discriminate S. }
  destruct Hr as (_ & -> & -> & _).
  split; intros e; [destruct (crop_side crops) | destruct (crop_top crops)];
    discriminate.
Qed.

(** X19.  What a run costs.  A run of [handleGenerate] sends the model
    one request for the detection and three for each pipeline it
    starts, and never more: at most seven, no request is repeated.  A
    run that ends in [SUCCESS] sent exactly one plus three for each
    view of the new project; a run without an image to process sent
    none. *)
Theorem handleGenerate_requests (rendered : option WarshipProject.t)
    (prompt : jsstring) (imageData : option ImageData) (m : Machine) :
  let report := fst (handleGenerate_run rendered prompt imageData m) in
  let m' := handleGenerate rendered prompt imageData m in
  exists l,
    log m' = log m ++ l
    /\ length (requests l) <= 1 + 3 * started report
    /\ length (requests l) <= 7
    /\ (status (state m') = SUCCESS ->
        length (requests l) = 1 + 3 * started report)
    /\ (image_to_process rendered imageData = None -> requests l = []).
Proof.
  cbv zeta.
  destruct (handleGenerate_run_counted rendered prompt imageData m)
    as (l & E & B & X).
  exists l. unfold handleGenerate. split; [exact E|]. split; [exact B|].
  split; [|split].
  - assert (started (fst (handleGenerate_run rendered prompt imageData m)) <= 2);
      [|lia].
    unfold started. destruct (side_pipeline _), (top_pipeline _); cbn; lia.
  - intros S. apply X. now apply handleGenerate_success_report.
  - intros N.
    destruct (handleGenerate_run_shape rendered prompt imageData m)
      as [(_ & Eb & _) | [(img & e & m2 & Hi & _) | [crops D]]].
    + rewrite Eb in E. unfold begun in E. cbn [perform log] in E.
      rewrite <- !app_assoc in E. apply app_inv_head in E. subst l. reflexivity.
    + congruence.
    + destruct (handleGenerate_run_detected _ _ _ _ D) as (img & _ & _ & _ & Hi & _).
      congruence.
Qed.

End RequestFacts.

(* ================================================================== *)
(** * A box is taken as it comes *)

Section UncheckedBox.
Context {host : Host}.
Local Open Scope float_scope.

Lemma nan_sub_l y : nan - y = nan.
Proof. apply Prim2SF_inj. rewrite sub_spec. reflexivity. Qed.

Lemma nan_sub_r x : x - nan = nan.
Proof.
  apply Prim2SF_inj. rewrite sub_spec.
  change (Prim2SF nan) with S754_nan. destruct (Prim2SF x); reflexivity.
Qed.

Lemma nan_div_l y : nan / y = nan.
Proof. apply Prim2SF_inj. rewrite div_spec. reflexivity. Qed.

Lemma nan_mul_l y : nan * y = nan.
Proof. apply Prim2SF_inj. rewrite mul_spec. reflexivity. Qed.

Lemma nan_add_l y : nan + y = nan.
Proof. apply Prim2SF_inj. rewrite add_spec. reflexivity. Qed.

Lemma nan_extent a b size :
  a = nan \/ b = nan -> ((b - a) / 1000) * size + (20 * 2) = nan.
Proof.
  intros [-> | ->]; rewrite ?nan_sub_l, ?nan_sub_r, nan_div_l, nan_mul_l;
    apply nan_add_l.
Qed.

(** X20.  The box of the reply is not checked.  [cropImage] reads the
    four coordinates of whatever value the reply gave as the box; a
    coordinate that is absent reads as [undefined] and counts as NaN.
    If the image loads and the canvas gives a context, the crop still
    resolves, to what the canvas encodes after its width (for an absent
    [xmin] or [xmax]) or its height (for an absent [ymin] or [ymax]) was
    set to NaN. *)
Theorem cropImage_unchecked_box (base64Data : jsstring) (v : JSON.value)
    (m : Machine) (W H : float) (w1 w2 : World) :
  respond (LoadImage base64Data) (world m) = (Loaded W H, w1) ->
  respond GetContext2d w1 = (true, w2) ->
  exists canvas url m',
    exec (cropImage base64Data (asBoundingBox v)) m
    = (Resolved {| data := url; mimeType := js "image/jpeg" |}, m')
    /\ In (Asked (ToDataURL canvas (js "image/jpeg") 0.95) url) (log m')
    /\ (JSON.member (js "xmin") v = None \/ JSON.member (js "xmax") v = None ->
        Canvas.width canvas = nan)
    /\ (JSON.member (js "ymin") v = None \/ JSON.member (js "ymax") v = None ->
        Canvas.height canvas = nan).
Proof.
  intros L C. unfold cropImage. rewrite exec_ask, L. cbn [fst snd].
  rewrite exec_ask. cbn [world]. rewrite C. cbn [fst snd negb].
  rewrite exec_ask. cbn [exec world log].
  eexists _, _, _. split; [reflexivity|].
  split; [cbn [log]; apply in_or_app; right; left; reflexivity|].
  cbn [Canvas.width Canvas.height Canvas.drawImage Canvas.fillRect Canvas.draw
       Canvas.set_fillStyle Canvas.set_height Canvas.set_width
       asBoundingBox xmin xmax ymin ymax].
  split; intros N; apply nan_extent;
    destruct N as [N|N]; rewrite N; cbn [ToNumber]; auto.
Qed.

End UncheckedBox.

(* ================================================================== *)
(** * The effects of a run, in order *)

Section EffectFacts.
Context {host : Host}.

Lemma verdict_effects_app l1 l2 :
  verdict_effects (l1 ++ l2) = verdict_effects l1 ++ verdict_effects l2.
Proof. apply flat_map_app. Qed.

Lemma verdict_effects_status_only l :
  Forall status_only l -> verdict_effects l = [].
Proof.
  induction 1 as [|e l He F IH]; [reflexivity|].
  destruct e as [o|X q x]; [destruct o; try contradiction He|]; exact IH.
Qed.

Lemma verdict_effects_detector img l :
  Forall (detector_entry img) l -> verdict_effects l = [].
Proof.
  induction 1 as [|e l He F IH]; [reflexivity|].
  destruct e as [o|X q x]; [contradiction He | exact IH].
Qed.

Lemma settle_trace r m :
  log (settle r m) =
  log m ++
  match r with
  | Resolved np =>
      [Performed (SetProject np);
       Performed (SetActiveView match WarshipProject.sideView np with
                                | Some _ => side
                                | None => top
                                end);
       Performed (SetStatus SUCCESS);
       Performed (SetPipelineStatus [])]
  | Rejected e =>
      [Performed (ConsoleError e);
       Performed (SetStatus ERROR);
       Performed (SetError (Some {| message := js "Pipeline Failure";
                                    details := message_of e |}));
       Performed (SetPipelineStatus [])]
  end.
Proof. destruct r; cbn; rewrite <- !app_assoc; reflexivity. Qed.

(** The trace of a run in which the detector resolved. *)
Lemma handleGenerate_run_traced (P : Entry -> Prop)
    rendered prompt imageData m crops :
  (forall c, emits P (side_task prompt c)) ->
  (forall c, emits P (top_task prompt c)) ->
  detected (fst (handleGenerate_run rendered prompt imageData m))
  = Some (Resolved crops) ->
  exists img m2 uuid l1 r l2,
    exec (detectAndCropViews img) (begun m) = (Resolved crops, m2)
    /\ log (snd (handleGenerate_run rendered prompt imageData m))
       = log m2 ++ [Asked RandomUUID uuid; Performed (SetStatus LOADING)]
         ++ l1
         ++ match r with
            | Resolved np =>
                [Performed (SetProject np);
                 Performed (SetActiveView match WarshipProject.sideView np with
                                          | Some _ => side
                                          | None => top
                                          end);
                 Performed (SetStatus SUCCESS);
                 Performed (SetPipelineStatus [])]
            | Rejected e =>
                [Performed (ConsoleError e);
                 Performed (SetStatus ERROR);
                 Performed (SetError (Some {| message := js "Pipeline Failure";
                                              details := message_of e |}));
                 Performed (SetPipelineStatus [])]
            end
         ++ l2
    /\ Forall P l1 /\ Forall P l2.
Proof.
  intros Es Et D.
  destruct (handleGenerate_run_detected _ _ _ _ D)
    as (img & m2 & np & m3 & _ & X & Hs & Ht & _ & _ & L3 & ->).
  destruct (@generate_views_project _ P (view_ok prompt side) (view_ok prompt top)
              prompt np crops m3 Es Et (side_task_views prompt)
              (top_task_views prompt) Hs Ht)
    as (_ & _ & _ & l1 & r & m0 & l2 & [E1 _] & F1 & [E2 _] & F2 & _).
  exists img, m2, (WarshipProject.id np), l1, r, l2.
  split; [exact X|]. split; [|split; assumption].
  rewrite E2, settle_trace, E1, L3, <- !app_assoc. reflexivity.
Qed.

(** X21.  What a run does, in order.  The pipeline status left aside,
    the setters that a run of [handleGenerate] calls are one of four
    sequences.  Without an image: the status [SEGMENTING] and the error
    cleared, nothing more.  When the detector rejects: these two, then
    [console.error], the status [ERROR] and the error.  When the detector
    resolved, the status [LOADING] follows, and then either the project,
    the view selected and the status [SUCCESS], or [console.error], the
    status [ERROR] and the error: in each run the verdict is given once,
    the project is set at most once and only on success, and nothing is
    called after the verdict but the setter of the pipeline status. *)
Theorem handleGenerate_effects (rendered : option WarshipProject.t)
    (prompt : jsstring) (imageData : option ImageData) (m : Machine) :
  let report := fst (handleGenerate_run rendered prompt imageData m) in
  let m' := handleGenerate rendered prompt imageData m in
  let failure e :=
    [ConsoleError e; SetStatus ERROR;
     SetError (Some {| message := js "Pipeline Failure";
                       details := message_of e |})] in
  exists l,
    log m' = log m ++ l
    /\ ((detected report = None
         /\ verdict_effects l = [SetStatus SEGMENTING; SetError None])
        \/ (exists e,
              detected report = Some (Rejected e)
              /\ verdict_effects l
                 = [SetStatus SEGMENTING; SetError None] ++ failure e)
        \/ (exists crops e,
              detected report = Some (Resolved crops)
              /\ verdict_effects l
                 = [SetStatus SEGMENTING; SetError None; SetStatus LOADING]
                   ++ failure e)
        \/ (exists crops p,
              detected report = Some (Resolved crops)
              /\ verdict_effects l
                 = [SetStatus SEGMENTING; SetError None; SetStatus LOADING;
                    SetProject p;
                    SetActiveView match WarshipProject.sideView p with
                                  | Some _ => side
                                  | None => top
                                  end;
                    SetStatus SUCCESS])).
Proof.
  cbv zeta. unfold handleGenerate.
  assert (B : forall m, log (begun m) =
                log m ++ [Performed (SetStatus SEGMENTING);
                          Performed (SetPipelineStatus (js "SCANNING_LAYOUT"));
                          Performed (SetError None)]).
  { intros m0. unfold begun. cbn [perform log]. rewrite <- !app_assoc. reflexivity. }
  destruct (handleGenerate_run_shape rendered prompt imageData m)
    as [(_ & E & D) | [(img & e & m2 & _ & X & R & E) | [crops D]]].
  - rewrite E. eexists. split; [apply B|]. left. split; [exact D | reflexivity].
  - rewrite E, R, settle_trace.
    destruct (exec_extends _ _ (begun m) (detectAndCropViews_asks img))
      as (l & [L _] & F).
    rewrite X in L. cbn [snd] in L. rewrite L, B, <- !app_assoc.
    eexists. split; [reflexivity|]. right. left. exists e.
    split; [reflexivity|].
    rewrite !verdict_effects_app, (verdict_effects_detector F). reflexivity.
  - destruct (@handleGenerate_run_traced status_only rendered prompt imageData m crops)
      as (img & m2 & uuid & l1 & r & l2 & X & L & F1 & F2); try assumption.
    { intros c. eapply emits_weaken; [|apply side_task_emits].
      apply pipeline_entry_status_only. }
    { intros c. eapply emits_weaken; [|apply top_task_emits].
      apply pipeline_entry_status_only. }
    destruct (exec_extends _ _ (begun m) (detectAndCropViews_asks img))
      as (l & [L2 _] & F).
    rewrite X in L2. cbn [snd] in L2. rewrite L, L2, B, <- !app_assoc.
    eexists. split; [reflexivity|]. right. right.
    destruct r as [np'|e]; [right; exists crops, np' | left; exists crops, e];
      (split; [exact D|]);
      rewrite !verdict_effects_app, (verdict_effects_detector F),
        (verdict_effects_status_only F1), (verdict_effects_status_only F2);
      reflexivity.
Qed.

End EffectFacts.

(* ================================================================== *)
(** * The two pipelines start together *)

Section StartFacts.
Context {host : Host}.

Lemma returns_any R (p : Prog R) : returns (fun _ => True) p.
Proof. induction p; cbn [returns]; auto. Qed.

(** A join only adds to the trace. *)
Lemma join_all_log (a b : Prog Mutation) np m :
  exists l, log (snd (join_all a b np settle m)) = log m ++ l.
Proof.
  pose proof (@join_all_joined _ (fun _ => True) (fun _ => True) (fun _ => True)
                a (emits_any a) (returns_any a) b np settle m
                (emits_any b) (returns_any b)) as J.
  destruct (join_all a b np settle m) as [[ra rb] m'].
  destruct J as (l1 & r & m0 & l2 & [E1 _] & _ & [E2 _] & _).
  destruct (settle_log r m0) as (ls & Es & _).
  exists (l1 ++ ls ++ l2). cbn [snd].
  rewrite E2, Es, E1, <- !app_assoc. reflexivity.
Qed.

Lemma join_all_do o (ka b : Prog Mutation) np st m :
  join_all (Do o ka) b np st m = join_all ka b np st (perform o m).
Proof. reflexivity. Qed.

(** How a task begins: it announces its drafting stage and sends the
    request of the draft. *)
Lemma tasks_begin prompt s t :
  (exists k, side_task prompt s =
             Do (SetPipelineStatus (js "DRAFTING_SIDE"))
               (Ask (GenerateContent (draft_request prompt s side)) k))
  /\ (exists k, top_task prompt t =
                Do (SetPipelineStatus (js "DRAFTING_TOP"))
                  (Ask (GenerateContent (draft_request prompt t top)) k)).
Proof. split; eexists; reflexivity. Qed.

(** X22.  The two pipelines start together.  In a run of
    [handleGenerate] in which the detector gave both crops, right after
    the status [LOADING] both pipelines announce their drafting stage,
    the side pipeline first, and only then does the first reply arrive,
    which is the reply to one of the two draft requests: both requests
    are out before either is answered, and while they are the pipeline
    status reads [DRAFTING_TOP]. *)
Theorem handleGenerate_starts_both (rendered : option WarshipProject.t)
    (prompt : jsstring) (imageData : option ImageData) (m : Machine)
    (s t : ImageData) :
  let report := fst (handleGenerate_run rendered prompt imageData m) in
  let m' := handleGenerate rendered prompt imageData m in
  detected report
  = Some (Resolved {| crop_side := Some s; crop_top := Some t |}) ->
  exists l0 x l,
    log m' =
      log m ++ l0
      ++ [Performed (SetStatus LOADING);
          Performed (SetPipelineStatus (js "DRAFTING_SIDE"));
          Performed (SetPipelineStatus (js "DRAFTING_TOP")); x]
      ++ l
    /\ exists reply,
         x = Asked (GenerateContent (draft_request prompt s side)) reply
         \/ x = Asked (GenerateContent (draft_request prompt t top)) reply.
Proof.
  cbv zeta. unfold handleGenerate. intros D.
  destruct (handleGenerate_run_detected _ _ _ _ D)
    as (img & m2 & np & m3 & _ & X & _ & _ & _ & _ & L3 & ->).
  destruct (exec_extends _ _ (begun m) (detectAndCropViews_asks img))
    as (ld & [L2 _] & _).
  rewrite X in L2. cbn [snd] in L2.
  unfold generate_views. cbn [crop_side crop_top].
  destruct (tasks_begin prompt s t) as [[ks ->] [kt ->]].
  rewrite join_all_do, join_all_waiting by reflexivity.
  rewrite join_all_waiting by reflexivity. cbn [is_await negb].
  set (m4 := perform _ (perform _ m3)).
  assert (L4 : log m4 =
               log m ++
               ([Performed (SetStatus SEGMENTING);
                 Performed (SetPipelineStatus (js "SCANNING_LAYOUT"));
                 Performed (SetError None)] ++ ld
                ++ [Asked RandomUUID (WarshipProject.id np)])
               ++ [Performed (SetStatus LOADING);
                   Performed (SetPipelineStatus (js "DRAFTING_SIDE"));
                   Performed (SetPipelineStatus (js "DRAFTING_TOP"))]).
  { unfold m4. cbn [perform log]. rewrite L3, L2. unfold begun.
    cbn [perform log]. rewrite <- !app_assoc. reflexivity. }
  destruct (sideFirst (world m4)).
  - pose proof (answer_extends (GenerateContent (draft_request prompt s side)) m4)
      as [A _].
    destruct (answer (GenerateContent (draft_request prompt s side)) m4)
      as [x m5]. cbn [fst snd] in A.
    destruct (join_all_log (ks x)
                (Ask (GenerateContent (draft_request prompt t top)) kt) np m5)
      as [l E].
    destruct (join_all (ks x) _ np settle m5) as [[rs rt] m6].
    cbn [snd] in E |- *. rewrite E, A, L4.
    exists ([Performed (SetStatus SEGMENTING);
             Performed (SetPipelineStatus (js "SCANNING_LAYOUT"));
             Performed (SetError None)] ++ ld
            ++ [Asked RandomUUID (WarshipProject.id np)]),
      (Asked (GenerateContent (draft_request prompt s side)) x), l.
    split; [rewrite <- !app_assoc; reflexivity|]. exists x. left. reflexivity.
  - pose proof (answer_extends (GenerateContent (draft_request prompt t top)) m4)
      as [A _].
    destruct (answer (GenerateContent (draft_request prompt t top)) m4)
      as [x m5]. cbn [fst snd] in A.
    destruct (join_all_log
                (Ask (GenerateContent (draft_request prompt s side)) ks)
                (kt x) np m5) as [l E].
    destruct (join_all _ (kt x) np settle m5) as [[rs rt] m6].
    cbn [snd] in E |- *. rewrite E, A, L4.
    exists ([Performed (SetStatus SEGMENTING);
             Performed (SetPipelineStatus (js "SCANNING_LAYOUT"));
             Performed (SetError None)] ++ ld
            ++ [Asked RandomUUID (WarshipProject.id np)]),
      (Asked (GenerateContent (draft_request prompt t top)) x), l.
    split; [rewrite <- !app_assoc; reflexivity|]. exists x. right. reflexivity.
Qed.

End StartFacts.

(* ================================================================== *)
(** * More worked runs *)

Module Checks.
Import Scripted Scenes.
#[local] Existing Instance host.

(** A pipeline whose inspector says nothing still has a report. *)
Lemma auditReport_never_empty_witness :
  let run := exec (runViewPipeline (js "Keep the rigging.") crop side
                     SetPipelineStatus) (boot silent_audit) in
  match fst run with
  | Resolved res => nonempty (auditReport res) = true
  | Rejected _ => False
  end.
Proof.
  cbv zeta.
  let v := eval vm_compute in
    (exec (runViewPipeline (js "Keep the rigging.") crop side SetPipelineStatus)
       (boot silent_audit)) in
  match v with
  | (Resolved ?res, ?m1) =>
      assert (E : exec (runViewPipeline (js "Keep the rigging.") crop side
                          SetPipelineStatus) (boot silent_audit)
                  = (Resolved res, m1)) by (vm_compute; reflexivity);
      rewrite E; cbn [fst];
      exact (proj2 (proj2 (@auditReport_never_empty host (js "Keep the rigging.")
                             crop side SetPipelineStatus [] (boot silent_audit)))
               res m1 E)
  end.
Defined.

(** The value of a closed run, by evaluation. *)
Ltac evaluated E p :=
  let v := eval vm_compute in p in
  assert (E : p = v) by (vm_compute; reflexivity).

(** The reply [null]: the detector rejects with the [TypeError], the
    state untouched. *)
Lemma detectAndCropViews_rejections_witness :
  let run := exec (detectAndCropViews upload) (boot null_reply) in
  match fst run with
  | Rejected e =>
      e = ErrorObject TypeError
            (js "Cannot read properties of null (reading 'sideViewFound')")
      /\ state (snd run) = initialState
  | Resolved _ => False
  end.
Proof.
  cbv zeta.
  evaluated E (exec (detectAndCropViews upload) (boot null_reply)).
  rewrite E. cbn [fst snd]. split; [reflexivity|].
  exact (proj1 (@detectAndCropViews_rejections host upload (boot null_reply)
                  _ _ E)).
Defined.

(** The reply of the end-to-end scenario: a side crop and no top crop,
    as the flags and the boxes say. *)
Lemma detectAndCropViews_crops_iff_witness :
  let run := exec (detectAndCropViews upload) (boot one_side) in
  match fst run with
  | Resolved crops =>
      crop_side crops <> None /\ crop_top crops = None
      /\ exists text result l,
           log (snd run)
           = log (boot one_side)
             ++ Asked (GenerateContent (detect_request upload)) (Response text) :: l
           /\ JSON.parse (or_default text (js "{}")) = Some result
           /\ result <> JSON.Null
           /\ (crop_side crops <> None
               <-> marked (js "sideViewFound") (js "sideViewBox") result = true)
           /\ (crop_top crops <> None
               <-> marked (js "topViewFound") (js "topViewBox") result = true)
  | Rejected _ => False
  end.
Proof.
  cbv zeta.
  evaluated E (exec (detectAndCropViews upload) (boot one_side)).
  rewrite E. cbn [fst snd]. split; [discriminate|]. split; [reflexivity|].
  exact (@detectAndCropViews_crops_iff host upload (boot one_side) _ _ E).
Defined.

(** The run of the end-to-end scenario succeeds. *)
Lemma handleGenerate_success_witness :
  let m' := handleGenerate None (js "Keep the rigging.") (Some upload)
              (boot one_side) in
  exists img p,
    image_to_process None (Some upload) = Some img
    /\ state m' =
       {| status := SUCCESS; project := Some p;
          activeView := match WarshipProject.sideView p with
                        | Some _ => side
                        | None => top
                        end;
          error := None; pipelineStatus := [] |}
    /\ WarshipProject.originalImage p = img
    /\ current_view (activeView (state m')) p <> None
    /\ (forall v, WarshipProject.sideView p = Some v ->
                  view_ok (js "Keep the rigging.") side v)
    /\ (forall v, WarshipProject.topView p = Some v ->
                  view_ok (js "Keep the rigging.") top v).
Proof.
  assert (S : status (state (handleGenerate None (js "Keep the rigging.")
                               (Some upload) (boot one_side))) = SUCCESS)
    by (vm_compute; reflexivity).
  exact (@handleGenerate_success host None (js "Keep the rigging.")
           (Some upload) (boot one_side) S).
Defined.

(** A broken reply of the detector: the run is reported as failed, with
    the message of the syntax error. *)
Lemma handleGenerate_detection_rejected_witness :
  let m' := handleGenerate None (js "Keep the rigging.") (Some upload)
              (boot malformed) in
  state m' =
    {| status := ERROR; project := None; activeView := side;
       error := Some {| message := js "Pipeline Failure";
                        details := Some (js "Unexpected token in JSON") |};
       pipelineStatus := [] |}.
Proof.
  assert (D : detected (fst (handleGenerate_run None (js "Keep the rigging.")
                               (Some upload) (boot malformed)))
              = Some (Rejected (ErrorObject SyntaxError
                                  (js "Unexpected token in JSON"))))
    by (vm_compute; reflexivity).
  exact (proj1 (@handleGenerate_detection_rejected host None
                  (js "Keep the rigging.") (Some upload) (boot malformed) _ D)).
Defined.

(** The run in which the audit of the top view fails early: the side
    pipeline goes on and leaves its tag. *)
Lemma handleGenerate_pipelineStatus_witness :
  let report := fst (handleGenerate_run None (js "Refit of 1936.") (Some upload)
                       (boot top_fails_early)) in
  let m' := handleGenerate None (js "Refit of 1936.") (Some upload)
              (boot top_fails_early) in
  pipelineStatus (state m') = []
  \/ (In (pipelineStatus (state m')) stage_tags
      /\ side_pipeline report <> None /\ top_pipeline report <> None
      /\ exists e, side_pipeline report = Some (Rejected e)
                   \/ top_pipeline report = Some (Rejected e)).
Proof.
  apply (@handleGenerate_pipelineStatus host None (js "Refit of 1936.")
           (Some upload) (boot top_fails_early)).
  discriminate.
Defined.

Example straggler_leaves_its_tag :
  pipelineStatus (state (handleGenerate None (js "Refit of 1936.") (Some upload)
                           (boot top_fails_early)))
  = js "HEALING_SIDE".
Proof. vm_compute. reflexivity. Qed.

(** After the run of the end-to-end scenario, a prompt alone starts a
    run on the same upload. *)
Lemma handleGenerate_reuses_image_witness :
  let m1 := handleGenerate None (js "Keep the rigging.") (Some upload)
              (boot one_side) in
  handleGenerate_run (project (state m1)) (js "As built.") None m1
  = handleGenerate_run None (js "As built.") (Some upload) m1.
Proof.
  assert (S : status (state (handleGenerate None (js "Keep the rigging.")
                               (Some upload) (boot one_side))) = SUCCESS)
    by (vm_compute; reflexivity).
  exact (@handleGenerate_reuses_image host None (js "Keep the rigging.") upload
           (boot one_side) S (js "As built.") _).
Defined.

(** The run in which the top pipeline fails ends in [ERROR]. *)
Lemma handleGenerate_verdict_witness :
  let m' := handleGenerate None (js "Refit of 1936.") (Some upload)
              (boot top_fails) in
  (status (state m') = SUCCESS /\ error (state m') = None
   /\ project (state m') <> None)
  \/ (status (state m') = ERROR
      /\ project (state m') = project (state (boot top_fails))
      /\ activeView (state m') = activeView (state (boot top_fails))
      /\ exists e,
           error (state m') =
           Some {| message := js "Pipeline Failure"; details := message_of e |}).
Proof.
  apply (@handleGenerate_verdict host None (js "Refit of 1936.") (Some upload)
           (boot top_fails)).
  discriminate.
Defined.

(** The end-to-end scenario costs four requests. *)
Lemma handleGenerate_requests_witness :
  let report := fst (handleGenerate_run None (js "Keep the rigging.")
                       (Some upload) (boot one_side)) in
  let m' := handleGenerate None (js "Keep the rigging.") (Some upload)
              (boot one_side) in
  started report = 1
  /\ exists l,
       log m' = log (boot one_side) ++ l
       /\ length (requests l) <= 1 + 3 * started report
       /\ length (requests l) <= 7
       /\ (status (state m') = SUCCESS ->
           length (requests l) = 1 + 3 * started report)
       /\ (image_to_process None (Some upload) = None -> requests l = []).
Proof.
  split; [vm_compute; reflexivity|].
  exact (@handleGenerate_requests host None (js "Keep the rigging.")
           (Some upload) (boot one_side)).
Defined.

(** A refinement asked of a render that has no side view selected. *)
Lemma handleRefine_absent_view_witness :
  let m' := snd (exec (handleRefine (Some top_only) side (js "Add the aft mast."))
                   (astray refines)) in
  let req := refine_request (js "Add the aft mast.") None None 1 in
  parts req = [Text (js "User Instruction: " ++ js "Add the aft mast.")]
  /\ exists now p',
       project (state m') = Some p'
       /\ current_view side p' =
          Some {| GeneratedSvg.id := None;
                  GeneratedSvg.content :=
                    extractSvg (jq "Done. <svg id='side'><g id='mast'/></svg>");
                  GeneratedSvg.prompt := js "Add the aft mast.";
                  GeneratedSvg.timestamp := now;
                  GeneratedSvg.auditReport := None;
                  GeneratedSvg.viewType := None |}.
Proof.
  apply (@handleRefine_absent_view host top_only side (js "Add the aft mast.")
           (astray refines) (jq "Done. <svg id='side'><g id='mast'/></svg>")).
  - reflexivity.
  - reflexivity.
  - vm_compute. reflexivity.
Defined.

(** The state after an afternoon's session can be rendered. *)
Lemma session_renderable_witness :
  renderable (state (session afternoon (boot obliging))).
Proof.
  apply (@session_renderable host afternoon (boot obliging)). exact I.
Defined.

(** That afternoon: before the last submission the deck plan is shown,
    refined, under the id it was given (the tab of a view that does not
    exist changed nothing); after it there is a new project, shown from
    the side. *)
Example afternoon_ends :
  let before := state (session (firstn 5 afternoon) (boot obliging)) in
  let after := state (session afternoon (boot obliging)) in
  (activeView before = top
   /\ option_map (fun p => option_map (fun g => (GeneratedSvg.id g,
                                                 GeneratedSvg.prompt g))
                             (WarshipProject.topView p)) (project before)
      = Some (Some (Some (js "uuid-1"), js "Show the planking.")))
  /\ status after = SUCCESS /\ activeView after = side
  /\ option_map WarshipProject.id (project after) = Some (js "uuid-3").
Proof. vm_compute. repeat split. Qed.

(** A box without coordinates: the crop resolves, the canvas has no
    size. *)
Lemma cropImage_unchecked_box_witness :
  exists canvas url m',
    exec (cropImage (data upload) (asBoundingBox (JSON.Object [])))
      (boot one_side)
    = (Resolved {| data := url; mimeType := js "image/jpeg" |}, m')
    /\ In (Asked (ToDataURL canvas (js "image/jpeg") 0.95) url) (log m')
    /\ (JSON.member (js "xmin") (JSON.Object []) = None
        \/ JSON.member (js "xmax") (JSON.Object []) = None ->
        Canvas.width canvas = nan)
    /\ (JSON.member (js "ymin") (JSON.Object []) = None
        \/ JSON.member (js "ymax") (JSON.Object []) = None ->
        Canvas.height canvas = nan).
Proof.
  apply (@cropImage_unchecked_box host (data upload) (JSON.Object [])
           (boot one_side) 2000 1000 one_side one_side); reflexivity.
Defined.

(** The same crop: the canvas reads the NaN assigned to its width and
    height as 0, and nothing is filled. *)
Example unchecked_box_reads_zero :
  exists canvas url m',
    exec (cropImage (data upload) (asBoundingBox (JSON.Object [])))
      (boot one_side)
    = (Resolved {| data := url; mimeType := js "image/jpeg" |}, m')
    /\ log m' =
         [Asked (LoadImage (data upload)) (Loaded 2000 1000);
          Asked GetContext2d true;
          Asked (ToDataURL canvas (js "image/jpeg") 0.95) url]
    /\ Canvas.get_width canvas = 0%float
    /\ Canvas.get_height canvas = 0%float
    /\ hd_error (Canvas.drawn canvas) = Some (FillRect (js "#FFFFFF") 0 0 0 0).
Proof.
  do 3 eexists. split; [vm_compute; reflexivity|].
  split; [reflexivity|]. repeat split.
Qed.

(** The setters of the end-to-end scenario, in order. *)
Lemma handleGenerate_effects_witness :
  let report := fst (handleGenerate_run None (js "Keep the rigging.")
                       (Some upload) (boot one_side)) in
  let m' := handleGenerate None (js "Keep the rigging.") (Some upload)
              (boot one_side) in
  let failure e :=
    [ConsoleError e; SetStatus ERROR;
     SetError (Some {| message := js "Pipeline Failure";
                       details := message_of e |})] in
  exists l,
    log m' = log (boot one_side) ++ l
    /\ ((detected report = None
         /\ verdict_effects l = [SetStatus SEGMENTING; SetError None])
        \/ (exists e,
              detected report = Some (Rejected e)
              /\ verdict_effects l
                 = [SetStatus SEGMENTING; SetError None] ++ failure e)
        \/ (exists crops e,
              detected report = Some (Resolved crops)
              /\ verdict_effects l
                 = [SetStatus SEGMENTING; SetError None; SetStatus LOADING]
                   ++ failure e)
        \/ (exists crops p,
              detected report = Some (Resolved crops)
              /\ verdict_effects l
                 = [SetStatus SEGMENTING; SetError None; SetStatus LOADING;
                    SetProject p;
                    SetActiveView match WarshipProject.sideView p with
                                  | Some _ => side
                                  | None => top
                                  end;
                    SetStatus SUCCESS])).
Proof.
  exact (@handleGenerate_effects host None (js "Keep the rigging.")
           (Some upload) (boot one_side)).
Defined.

(** Both views found: the two drafting stages are announced before the
    first reply. *)
Lemma handleGenerate_starts_both_witness :
  let m' := handleGenerate None (js "Refit of 1936.") (Some upload)
              (boot both_views) in
  exists l0 x l,
    log m' =
      log (boot both_views) ++ l0
      ++ [Performed (SetStatus LOADING);
          Performed (SetPipelineStatus (js "DRAFTING_SIDE"));
          Performed (SetPipelineStatus (js "DRAFTING_TOP")); x]
      ++ l
    /\ exists reply,
         x = Asked (GenerateContent
                      (draft_request (js "Refit of 1936.") crop side)) reply
         \/ x = Asked (GenerateContent
                         (draft_request (js "Refit of 1936.") crop top)) reply.
Proof.
  assert (D : detected (fst (handleGenerate_run None (js "Refit of 1936.")
                               (Some upload) (boot both_views)))
              = Some (Resolved {| crop_side := Some crop; crop_top := Some crop |}))
    by (vm_compute; reflexivity).
  exact (@handleGenerate_starts_both host None (js "Refit of 1936.")
           (Some upload) (boot both_views) crop crop D).
Defined.

End Checks.
